(** * Survey2Earn backend: response lifecycle and reward settlement

    A shallow embedding of the Go sources

      - [internal/models]     (survey, question, response, answer, reward pool),
      - [internal/repository] (the persistence layer the services call),
      - [internal/services/response_service.go] (start, submit, update,
        complete, scoring, settlement, certificate, and the read operations),
      - [internal/service/survey_service.go] (publish, get, delete),
      - [internal/middleware/auth.go] (the two request filters),

    followed by the properties of the specification that concern them and by
    further properties of the code.

    Conventions.  Go's [uint] identifiers are [N]; Go's [int] is a [Z] kept in
    the 64-bit range by [wrap64]; Go's [float64] is Rocq's primitive binary64
    [float], so every [+], [-], [*], [/] and comparison below rounds and
    compares exactly as the compiled program does; a [time.Time] is its
    wall-clock reading, in seconds and nanoseconds, and [time.Now()] is a
    parameter of the operations that call it; [errors.New msg] is the
    message itself. *)

From Stdlib Require Import ZArith NArith Bool List String Ascii Lia.
From Stdlib Require Import Floats Decimal DecimalString.
From stdpp Require Import base option list gmap strings.

Import ListNotations.
#[local] Open Scope string_scope.
#[local] Open Scope Z_scope.
Set Warnings "-inexact-float".

(** ** Go's numeric types *)

Module GoInt.

Definition min_int : Z := - 2 ^ 63.
Definition max_int : Z := 2 ^ 63 - 1.

(** The values an [int] variable can hold. *)
Definition in_range (z : Z) : Prop := min_int <= z <= max_int.

(** Two's-complement wrap-around of 64-bit signed arithmetic. *)
Definition wrap64 (z : Z) : Z := (z + 2 ^ 63) mod 2 ^ 64 - 2 ^ 63.

(** [x++] on an [int]. *)
Definition incr (z : Z) : Z := wrap64 (z + 1).

(** [len(xs)]: a slice length, as an [int]. *)
Definition len {A} (xs : list A) : Z := Z.of_nat (length xs).

End GoInt.

Module GoFloat.

(** [float64(n)] for an [int] [n]: the nearest binary64 value.  The kernel's
    conversion takes an unsigned 63-bit integer, so the sign is applied
    afterwards and the one [int] whose opposite is not an [int] is a
    literal. *)
Definition of_int (z : Z) : float :=
  if (0 <=? z)%Z then PrimFloat.of_uint63 (Uint63.of_Z z)
  else if (z =? GoInt.min_int)%Z then (-9223372036854775808)%float
  else (- PrimFloat.of_uint63 (Uint63.of_Z (- z)))%float.

(** The integer part of a finite binary64 value, rounded toward zero. *)
Definition SFtrunc (x : spec_float) : option Z :=
  match x with
  | S754_zero _ => Some 0
  | S754_finite s m e =>
      let a := if (0 <=? e)%Z then Z.pos m * 2 ^ e else Z.pos m / 2 ^ (- e) in
      Some (if s then - a else a)
  | S754_infinity _ | S754_nan => None
  end.

(** [int(f)] for a [float64] [f]: truncation toward zero.  For a NaN, an
    infinity or a value outside the [int] range the language leaves the
    result to the implementation; amd64 gives the smallest [int]. *)
Definition to_int (f : float) : Z :=
  match SFtrunc (Prim2SF f) with
  | Some z => if ((GoInt.min_int <=? z) && (z <=? GoInt.max_int))%Z%bool then z
              else GoInt.min_int
  | None => GoInt.min_int
  end.

(** The largest integer not above a finite binary64 value. *)
Definition SFfloor (x : spec_float) : option Z :=
  match x with
  | S754_zero _ => Some 0
  | S754_finite s m e =>
      let n := if s then Z.neg m else Z.pos m in
      Some (if (0 <=? e)%Z then n * 2 ^ e else n / 2 ^ (- e))
  | S754_infinity _ | S754_nan => None
  end.

Definition floor (f : float) : option Z := SFfloor (Prim2SF f).

(** [lo <= f <= hi] as the program would test it; false for a NaN. *)
Definition between (lo hi f : float) : bool :=
  ((lo <=? f) && (f <=? hi))%float.

End GoFloat.

(** ** Errors *)

(** A Go [error] built by [errors.New]; [None] is [nil]. *)
Definition error := string.

(** ** internal/models/reward.go: the reward pool *)

Module RewardPool.

Record t := {
  ID : N;
  SurveyID : N;
  TotalAmount : float;
  RewardPerResponse : float;
  MaxResponses : Z;
  CurrentResponses : Z;
  PaidOut : float;
  RemainingAmount : float;
  IsActive : bool
}.

Definition IsAvailable (rp : t) : bool :=
  IsActive rp && (0 <? RemainingAmount rp)%float
  && (CurrentResponses rp <? MaxResponses rp)%Z.

Definition CanProcessReward (rp : t) : bool :=
  IsAvailable rp && (RewardPerResponse rp <=? RemainingAmount rp)%float.

Definition set_CurrentResponses (v : Z) (rp : t) : t :=
  {| ID := ID rp; SurveyID := SurveyID rp; TotalAmount := TotalAmount rp;
     RewardPerResponse := RewardPerResponse rp;
     MaxResponses := MaxResponses rp; CurrentResponses := v;
     PaidOut := PaidOut rp; RemainingAmount := RemainingAmount rp;
     IsActive := IsActive rp |}.

Definition set_PaidOut (v : float) (rp : t) : t :=
  {| ID := ID rp; SurveyID := SurveyID rp; TotalAmount := TotalAmount rp;
     RewardPerResponse := RewardPerResponse rp;
     MaxResponses := MaxResponses rp;
     CurrentResponses := CurrentResponses rp; PaidOut := v;
     RemainingAmount := RemainingAmount rp; IsActive := IsActive rp |}.

Definition set_RemainingAmount (v : float) (rp : t) : t :=
  {| ID := ID rp; SurveyID := SurveyID rp; TotalAmount := TotalAmount rp;
     RewardPerResponse := RewardPerResponse rp;
     MaxResponses := MaxResponses rp;
     CurrentResponses := CurrentResponses rp; PaidOut := PaidOut rp;
     RemainingAmount := v; IsActive := IsActive rp |}.

Definition set_IsActive (v : bool) (rp : t) : t :=
  {| ID := ID rp; SurveyID := SurveyID rp; TotalAmount := TotalAmount rp;
     RewardPerResponse := RewardPerResponse rp;
     MaxResponses := MaxResponses rp;
     CurrentResponses := CurrentResponses rp; PaidOut := PaidOut rp;
     RemainingAmount := RemainingAmount rp; IsActive := v |}.

(** The method has a pointer receiver: it returns its error (or nil) and the
    receiver as the call leaves it. *)
Definition ProcessReward (rp : t) : option error * t :=
  if negb (CanProcessReward rp) then
    (Some "cannot process reward: insufficient funds or pool inactive", rp)
  else
    let rp := set_CurrentResponses (GoInt.incr (CurrentResponses rp)) rp in
    let rp := set_PaidOut (PaidOut rp + RewardPerResponse rp)%float rp in
    let rp :=
      set_RemainingAmount (RemainingAmount rp - RewardPerResponse rp)%float rp in
    let rp :=
      if (MaxResponses rp <=? CurrentResponses rp)%Z
         || (RemainingAmount rp <? RewardPerResponse rp)%float
      then set_IsActive false rp else rp in
    (None, rp).

(** The invariant of the data model, as the program would test it. *)
Definition invariant (rp : t) : bool :=
  (RemainingAmount rp =? TotalAmount rp - PaidOut rp)%float.

End RewardPool.

(** ** The library functions the sources call: fmt and time *)

Module GoFmt.

(** The verb [%d] on an [int] and on a [uint]. *)
Definition itoa (z : Z) : string := NilZero.string_of_int (Z.to_int z).
Definition utoa (n : N) : string := NilZero.string_of_uint (N.to_uint n).

(** Decimal digits of [n], padded with zeros on the left to [width]. *)
Definition pad_left (width : nat) (s : string) : string :=
  String.concat "" (repeat "0" (width - String.length s)) ++ s.

(** [m * 2^e * 100] rounded to the nearest integer, ties to even. *)
Definition round_hundredths (m : positive) (e : Z) : Z :=
  if (0 <=? e)%Z then Z.pos m * 100 * 2 ^ e
  else
    let den := 2 ^ (- e) in
    let q := (Z.pos m * 100) / den in
    let r := (Z.pos m * 100) mod den in
    match (2 * r ?= den)%Z with
    | Lt => q
    | Gt => q + 1
    | Eq => if Z.even q then q else q + 1
    end.

(** [fmt.Sprintf("%.2f", f)]. *)
Definition float_2f (f : float) : string :=
  match Prim2SF f with
  | S754_nan => "NaN"
  | S754_infinity s => if s then "-Inf" else "+Inf"
  | S754_zero s => (if s then "-" else "") ++ "0.00"
  | S754_finite s m e =>
      let n := round_hundredths m e in
      (if s then "-" else "") ++ itoa (n / 100) ++ "."
      ++ pad_left 2 (itoa (n mod 100))
  end.

(** [fmt.Sprintf(format, args...)] for formats whose only verb is [%d] and
    arguments of type [uint]: a missing argument prints as Go prints it, and
    so do arguments left over at the end. *)
Fixpoint Sprintf (format : string) (args : list N) : string :=
  match format with
  | EmptyString =>
      match args with
      | [] => ""
      | a :: rest =>
          "%!(EXTRA "
          ++ String.concat ", " (map (fun x => "uint=" ++ utoa x) args) ++ ")"
      end
  | String "%" (String "d" rest) =>
      match args with
      | a :: args' => utoa a ++ Sprintf rest args'
      | [] => "%!d(MISSING)" ++ Sprintf rest []
      end
  | String c rest => String c (Sprintf rest args)
  end.

End GoFmt.

Module GoTime.

(** A [time.Time]: the seconds since the Unix epoch, the nanoseconds within
    that second, from 0 to 999999999, and the offset of its location from
    UTC, in seconds.  The instants the program compares or subtracts never
    both carry a monotonic clock reading (one of the two was read from the
    tables), so it is these wall-clock values that count. *)
Record t := { unix : Z; nsec : Z; offset : Z }.

(** [a.Before(b)] and [a.After(b)] compare instants. *)
Definition Before (a b : t) : bool :=
  (unix a <? unix b)%Z || ((unix a =? unix b)%Z && (nsec a <? nsec b)%Z).
Definition After (a b : t) : bool :=
  (unix b <? unix a)%Z || ((unix a =? unix b)%Z && (nsec b <? nsec a)%Z).

(** A [time.Duration] is an [int64] number of nanoseconds. *)
Definition Second : Z := 1000000000.
Definition minDuration : Z := - 2 ^ 63.
Definition maxDuration : Z := 2 ^ 63 - 1.

(** [a.Sub(b)]: the nanoseconds from [b] to [a], or the smallest or the
    largest duration when the difference is not a duration. *)
Definition Sub (a b : t) : Z :=
  let d := (unix a - unix b) * Second + (nsec a - nsec b) in
  if (d <? minDuration)%Z then minDuration
  else if (maxDuration <? d)%Z then maxDuration
  else d.

(** [d.Seconds()]: [float64(d / Second) + float64(d % Second) / 1e9], the
    division and the remainder being those of [int64], toward zero. *)
Definition Seconds (d : Z) : float :=
  (GoFloat.of_int (Z.quot d Second)
   + GoFloat.of_int (Z.rem d Second) / 1000000000)%float.

(** [int(a.Sub(b).Seconds())]. *)
Definition seconds_since (a b : t) : Z := GoFloat.to_int (Seconds (Sub a b)).

(** Year, month and day of a number of days since 1970-01-01, in the
    proleptic Gregorian calendar. *)
Definition civil_from_days (days : Z) : Z * Z * Z :=
  let z := days + 719468 in
  let era := z / 146097 in
  let doe := z - era * 146097 in
  let yoe := (doe - doe / 1460 + doe / 36524 - doe / 146096) / 365 in
  let doy := doe - (365 * yoe + yoe / 4 - yoe / 100) in
  let mp := (5 * doy + 2) / 153 in
  let d := doy - (153 * mp + 2) / 5 + 1 in
  let m := if (mp <? 10)%Z then mp + 3 else mp - 9 in
  let y := yoe + era * 400 + (if (m <=? 2)%Z then 1 else 0) in
  (y, m, d).

(** [t.Format("2006-01-02")]. *)
Definition Format_date (x : t) : string :=
  let '(y, m, d) := civil_from_days ((unix x + offset x) / 86400) in
  (if (y <? 0)%Z then "-" else "") ++ GoFmt.pad_left 4 (GoFmt.itoa (Z.abs y))
  ++ "-" ++ GoFmt.pad_left 2 (GoFmt.itoa m)
  ++ "-" ++ GoFmt.pad_left 2 (GoFmt.itoa d).

End GoTime.

(** ** internal/models: surveys and questions *)

Inductive SurveyStatus :=
  | SurveyStatusDraft
  | SurveyStatusPublished
  | SurveyStatusPaused
  | SurveyStatusCompleted
  | SurveyStatusCancelled.

Inductive QuestionType :=
  | QuestionTypeMultipleChoice
  | QuestionTypeSingleChoice
  | QuestionTypeText
  | QuestionTypeTextArea
  | QuestionTypeRating
  | QuestionTypeYesNo
  | QuestionTypeScale
  | QuestionTypeDate
  | QuestionTypeNumber.

#[global] Instance SurveyStatus_eq_dec : EqDecision SurveyStatus.
Proof. solve_decision. Defined.

#[global] Instance QuestionType_eq_dec : EqDecision QuestionType.
Proof. solve_decision. Defined.

Module Question.

(** The fields validation and scoring read; a nil pointer is [None]. *)
Record t := {
  ID : N;
  SurveyID : N;
  Type_ : QuestionType;
  Required : bool;
  MinLength : option Z;
  MaxLength : option Z;
  MinValue : option float;
  MaxValue : option float
}.

End Question.

Module Survey.

Record t := {
  ID : N;
  CreatorID : N;
  Status : SurveyStatus;
  MaxResponses : Z;
  RewardPerResponse : float;
  TotalRewardPool : float;
  StartDate : option GoTime.t;
  EndDate : option GoTime.t;
  EstimatedDuration : Z;
  RequireLogin : bool;
  AllowMultiple : bool;
  ResponseCount : Z;
  Questions : list Question.t
}.

(** [now] is what [time.Now()] returned. *)
Definition IsActive (now : GoTime.t) (s : t) : bool :=
  if negb (bool_decide (Status s = SurveyStatusPublished)) then false
  else if match StartDate s with
          | Some d => GoTime.Before now d
          | None => false
          end then false
  else if match EndDate s with
          | Some d => GoTime.After now d
          | None => false
          end then false
  else if (MaxResponses s <=? ResponseCount s)%Z then false
  else true.

Definition CanBeEdited (s : t) : bool :=
  bool_decide (Status s = SurveyStatusDraft).

(** The first question with this id, or the error. *)
Fixpoint find_question (qs : list Question.t) (questionID : N)
  : error + Question.t :=
  match qs with
  | [] => inl "question not found"
  | question :: rest =>
      if (Question.ID question =? questionID)%N then inr question
      else find_question rest questionID
  end.

Definition GetQuestionByID (s : t) (questionID : N) : error + Question.t :=
  find_question (Questions s) questionID.

(** The zero value of the struct. *)
Definition zero : t :=
  {| ID := 0; CreatorID := 0; Status := SurveyStatusDraft; MaxResponses := 0;
     RewardPerResponse := 0; TotalRewardPool := 0; StartDate := None;
     EndDate := None; EstimatedDuration := 0; RequireLogin := false;
     AllowMultiple := false; ResponseCount := 0; Questions := [] |}.

End Survey.

(** ** internal/models: reward transactions *)

Inductive TransactionStatus :=
  | TransactionStatusPending
  | TransactionStatusProcessing
  | TransactionStatusCompleted
  | TransactionStatusFailed
  | TransactionStatusCancelled.

Inductive TransactionType :=
  | TransactionTypeReward
  | TransactionTypeWithdrawal
  | TransactionTypeRefund
  | TransactionTypeFee.

Module RewardTransaction.

Record t := {
  UserID : N;
  SurveyID : N;
  ResponseID : option N;
  PoolID : option N;
  Type_ : TransactionType;
  Amount : float;
  Status : TransactionStatus
}.

End RewardTransaction.

(** ** internal/models: responses and answers *)

Inductive ResponseStatus :=
  | ResponseStatusStarted
  | ResponseStatusCompleted
  | ResponseStatusAbandoned.

#[global] Instance ResponseStatus_eq_dec : EqDecision ResponseStatus.
Proof. solve_decision. Defined.

(** What the [interface{}] field of an answer can hold after JSON decoding. *)
Inductive JSONValue :=
  | JSONNull
  | JSONString (s : string)
  | JSONNumber (f : float)
  | JSONBool (b : bool)
  | JSONOther.

Module AnswerValue.

Record t := {
  Type_ : string;
  Content : JSONValue;
  Options : list string;
  Rating : option Z;
  Scale : option Z;
  Date : option GoTime.t
}.

End AnswerValue.

Module Answer.

Record t := {
  ResponseID : N;
  QuestionID : N;
  AnswerText : string;
  AnswerValue_ : AnswerValue.t;
  TimeSpent : Z;
  IsSkipped : bool
}.

(** [len(s)] of a Go string is its number of bytes. *)
Definition strlen (s : string) : Z := Z.of_nat (String.length s).

Definition ValidateAnswer (a : t) (question : Question.t) : option error :=
  if Question.Required question
     && (IsSkipped a || bool_decide (AnswerText a = "")) then
    Some "answer is required"
  else
    match Question.Type_ question with
    | QuestionTypeText | QuestionTypeTextArea =>
        if match Question.MinLength question with
           | Some n => (strlen (AnswerText a) <? n)%Z
           | None => false
           end then Some "answer too short"
        else if match Question.MaxLength question with
                | Some n => (n <? strlen (AnswerText a))%Z
                | None => false
                end then Some "answer too long"
        else None
    | QuestionTypeRating | QuestionTypeScale =>
        match AnswerValue.Rating (AnswerValue_ a) with
        | Some rating =>
            if match Question.MinValue question with
               | Some lo => (GoFloat.of_int rating <? lo)%float
               | None => false
               end then Some "rating below minimum"
            else if match Question.MaxValue question with
                    | Some hi => (hi <? GoFloat.of_int rating)%float
                    | None => false
                    end then Some "rating above maximum"
            else None
        | None => None
        end
    | _ => None
    end.

End Answer.

Module Response.

Record t := {
  ID : N;
  SurveyID : N;
  UserID : N;
  Status : ResponseStatus;
  StartedAt : GoTime.t;
  CompletedAt : option GoTime.t;
  Duration : Z;
  IPAddress : string;
  UserAgent : string;
  Timezone : string;
  Language : string;
  QualityScore : float;
  IsValid : bool;
  Survey_ : Survey.t;
  Answers : list Answer.t;
  Transaction : option RewardTransaction.t
}.

Definition IsCompleted (r : t) : bool :=
  bool_decide (Status r = ResponseStatusCompleted)
  && bool_decide (CompletedAt r <> None).

Definition CalculateDuration (now : GoTime.t) (r : t) : Z :=
  match CompletedAt r with
  | Some c => GoTime.seconds_since c (StartedAt r)
  | None => GoTime.seconds_since now (StartedAt r)
  end.

Definition set_Status (v : ResponseStatus) (r : t) : t :=
  {| ID := ID r; SurveyID := SurveyID r; UserID := UserID r; Status := v;
     StartedAt := StartedAt r; CompletedAt := CompletedAt r;
     Duration := Duration r; IPAddress := IPAddress r;
     UserAgent := UserAgent r; Timezone := Timezone r; Language := Language r;
     QualityScore := QualityScore r; IsValid := IsValid r;
     Survey_ := Survey_ r; Answers := Answers r;
     Transaction := Transaction r |}.

Definition set_CompletedAt (v : option GoTime.t) (r : t) : t :=
  {| ID := ID r; SurveyID := SurveyID r; UserID := UserID r;
     Status := Status r; StartedAt := StartedAt r; CompletedAt := v;
     Duration := Duration r; IPAddress := IPAddress r;
     UserAgent := UserAgent r; Timezone := Timezone r; Language := Language r;
     QualityScore := QualityScore r; IsValid := IsValid r;
     Survey_ := Survey_ r; Answers := Answers r;
     Transaction := Transaction r |}.

Definition set_Duration (v : Z) (r : t) : t :=
  {| ID := ID r; SurveyID := SurveyID r; UserID := UserID r;
     Status := Status r; StartedAt := StartedAt r;
     CompletedAt := CompletedAt r; Duration := v; IPAddress := IPAddress r;
     UserAgent := UserAgent r; Timezone := Timezone r; Language := Language r;
     QualityScore := QualityScore r; IsValid := IsValid r;
     Survey_ := Survey_ r; Answers := Answers r;
     Transaction := Transaction r |}.

Definition set_QualityScore (v : float) (r : t) : t :=
  {| ID := ID r; SurveyID := SurveyID r; UserID := UserID r;
     Status := Status r; StartedAt := StartedAt r;
     CompletedAt := CompletedAt r; Duration := Duration r;
     IPAddress := IPAddress r; UserAgent := UserAgent r;
     Timezone := Timezone r; Language := Language r; QualityScore := v;
     IsValid := IsValid r; Survey_ := Survey_ r; Answers := Answers r;
     Transaction := Transaction r |}.

Definition set_Answers (v : list Answer.t) (r : t) : t :=
  {| ID := ID r; SurveyID := SurveyID r; UserID := UserID r;
     Status := Status r; StartedAt := StartedAt r;
     CompletedAt := CompletedAt r; Duration := Duration r;
     IPAddress := IPAddress r; UserAgent := UserAgent r;
     Timezone := Timezone r; Language := Language r;
     QualityScore := QualityScore r; IsValid := IsValid r;
     Survey_ := Survey_ r; Answers := v; Transaction := Transaction r |}.

Definition set_ID (v : N) (r : t) : t :=
  {| ID := v; SurveyID := SurveyID r; UserID := UserID r;
     Status := Status r; StartedAt := StartedAt r;
     CompletedAt := CompletedAt r; Duration := Duration r;
     IPAddress := IPAddress r; UserAgent := UserAgent r;
     Timezone := Timezone r; Language := Language r;
     QualityScore := QualityScore r; IsValid := IsValid r;
     Survey_ := Survey_ r; Answers := Answers r;
     Transaction := Transaction r |}.

(** [r.MarkAsCompleted()]: the duration is computed after the stamp is set,
    so it is the time from start to [now]. *)
Definition MarkAsCompleted (now : GoTime.t) (r : t) : t :=
  let r1 := set_CompletedAt (Some now) (set_Status ResponseStatusCompleted r) in
  set_Duration (CalculateDuration now r1) r1.

Definition MarkAsAbandoned (now : GoTime.t) (r : t) : t :=
  let r1 := set_Status ResponseStatusAbandoned r in
  set_Duration (CalculateDuration now r1) r1.

End Response.

(** ** internal/dto: the requests and replies of the response service *)

Module dto.

Record AnswerValue := {
  Type_ : string;
  Content : JSONValue;
  Options : list string;
  Rating : option Z;
  Scale : option Z;
  Date : option GoTime.t
}.

Record SubmitAnswerRequest := {
  QuestionID : N;
  Answer : AnswerValue;
  TimeSpent : Z;
  IsSkipped : bool
}.

Record StartSurveyRequest := {
  start_Timezone : string;
  start_Language : string;
  start_IPAddress : string;
  start_UserAgent : string
}.

Record CompleteSurveyRequest := {
  ResponseID : N;
  Answers : list SubmitAnswerRequest;
  Duration : Z
}.

Record UpdateAnswerRequest := {
  update_Answer : AnswerValue;
  update_TimeSpent : Z;
  update_IsSkipped : bool
}.

Record ResponseStartResponse := {
  started_ResponseID : N;
  started_SurveyID : N;
  started_Status : string;
  started_StartedAt : GoTime.t;
  started_TimeLeft : option Z
}.

Record CompletionResponse := {
  completion_ResponseID : N;
  completion_Status : string;
  completion_CompletedAt : option GoTime.t;
  completion_Duration : Z;
  RewardEarned : float;
  XpEarned : Z;
  NFTCertificate : option string;
  TransactionHash : option string;
  Message : string
}.

Record SurveyResponseResponse := {
  view_ID : N;
  view_SurveyID : N;
  view_UserID : N;
  view_Status : string;
  view_CompletedAt : option GoTime.t;
  view_Duration : Z;
  view_QualityScore : float;
  view_Answers : list SubmitAnswerRequest;
  view_RewardEarned : float;
  view_XpEarned : Z;
  view_NFTCertificate : option string
}.

End dto.

(** [string(status)]. *)
Definition ResponseStatus_string (s : ResponseStatus) : string :=
  match s with
  | ResponseStatusStarted => "started"
  | ResponseStatusCompleted => "completed"
  | ResponseStatusAbandoned => "abandoned"
  end.

(** ** internal/repository: the persistence layer *)

(** The tables the response service reads and writes.  Answers are rows of
    their own, kept per response in the order of their first insertion; the
    [total_earned] column is all the service touches of a user. *)
Record Store := {
  surveys : gmap N Survey.t;
  responses : gmap N Response.t;
  answers : gmap N (list Answer.t);
  pools : gmap N RewardPool.t;
  transactions : list RewardTransaction.t;
  total_earned : gmap N float;
  next_response_id : N
}.

(** A repository or service call: it returns an error or a value, and the
    tables as it leaves them.  There is no transaction around a call: what was
    written before an error stays written. *)
Definition Repo (A : Type) : Type := Store -> (error + A) * Store.

Definition ret {A} (a : A) : Repo A := fun st => (inr a, st).
Definition fail {A} (e : error) : Repo A := fun st => (inl e, st).
Definition bind {A B} (m : Repo A) (k : A -> Repo B) : Repo B :=
  fun st =>
    match m st with
    | (inr a, st') => k a st'
    | (inl e, st') => (inl e, st')
    end.

Notation "x <- m ;; k" := (bind m (fun x => k))
  (at level 90, m at next level, right associativity).

(** [if cond { return nil, errors.New(msg) }]. *)
Definition reject {A} (cond : bool) (msg : error) (k : Repo A) : Repo A :=
  if cond then fail msg else k.

Definition record_not_found : error := "record not found".

Definition set_responses (v : gmap N Response.t) (st : Store) : Store :=
  {| surveys := surveys st; responses := v; answers := answers st;
     pools := pools st; transactions := transactions st;
     total_earned := total_earned st;
     next_response_id := next_response_id st |}.

Definition set_answers (v : gmap N (list Answer.t)) (st : Store) : Store :=
  {| surveys := surveys st; responses := responses st; answers := v;
     pools := pools st; transactions := transactions st;
     total_earned := total_earned st;
     next_response_id := next_response_id st |}.

Definition set_total_earned (v : gmap N float) (st : Store) : Store :=
  {| surveys := surveys st; responses := responses st; answers := answers st;
     pools := pools st; transactions := transactions st; total_earned := v;
     next_response_id := next_response_id st |}.

Module surveyRepo.

(** [db.Preload("Questions").First(&survey, id)]. *)
Definition GetByID (id : N) : Repo Survey.t :=
  fun st =>
    match surveys st !! id with
    | Some s => (inr s, st)
    | None => (inl record_not_found, st)
    end.

(** "Mock implementation": it returns nil. *)
Definition UpdateStatistics (surveyID : N) : Repo unit := ret tt.

End surveyRepo.

Module userRepo.

(** [UPDATE users SET total_earned = total_earned + earned WHERE id = userID]:
    the [xp] argument is not used, and a missing row is no error. *)
Definition UpdateBalance (userID : N) (earned xp : float) : Repo unit :=
  fun st =>
    (inr tt,
     set_total_earned
       (alter (fun total => (total + earned)%float) userID (total_earned st))
       st).

End userRepo.

Module responseRepo.

(** Modelled from the spec: the implementation of [ResponseRepository] is not
    among the sources.  The persistence layer offers "simple
    create/read/update operations with no business logic of its own"; a
    Response is loaded as an aggregate with its "collection of Answers". *)
Definition GetByID (id : N) : Repo Response.t :=
  fun st =>
    match responses st !! id with
    | Some r =>
        (inr (Response.set_Answers (default [] (answers st !! id)) r), st)
    | None => (inl record_not_found, st)
    end.

(** Modelled from the spec: the implementation of [ResponseRepository] is not
    among the sources.  The same read as [GetByID]. *)
Definition GetWithAnswers (id : N) : Repo Response.t := GetByID id.

(** Modelled from the spec: the implementation of [ResponseRepository] is not
    among the sources.  "Created on start": the row gets the next id. *)
Definition Create (r : Response.t) : Repo Response.t :=
  fun st =>
    let id := next_response_id st in
    let r' := Response.set_ID id r in
    (inr r',
     {| surveys := surveys st; responses := <[id := r']> (responses st);
        answers := answers st; pools := pools st;
        transactions := transactions st; total_earned := total_earned st;
        next_response_id := N.succ id |}).

(** Modelled from the spec: the implementation of [ResponseRepository] is not
    among the sources.  A plain update of the response row; answer rows are
    written by [UpsertAnswer] only. *)
Definition Update (r : Response.t) : Repo unit :=
  fun st => (inr tt, set_responses (<[Response.ID r := r]> (responses st)) st).

(** Modelled from the spec: the implementation of [ResponseRepository] is not
    among the sources.  "the user must have no prior response to this survey
    (any status)". *)
Definition HasUserResponded (userID surveyID : N) : Repo bool :=
  fun st =>
    (inr (bool_decide
            (map_Exists
               (fun _ r => Response.UserID r = userID
                           /\ Response.SurveyID r = surveyID)
               (responses st))),
     st).

(** "resubmission for the same question id replaces the prior value, does not
    duplicate". *)
Fixpoint upsert (a : Answer.t) (rows : list Answer.t) : list Answer.t :=
  match rows with
  | [] => [a]
  | row :: rest =>
      if (Answer.QuestionID row =? Answer.QuestionID a)%N then a :: rest
      else row :: upsert a rest
  end.

(** Modelled from the spec: the implementation of [ResponseRepository] is not
    among the sources.  Answers are keyed by response id and question id, with
    upsert semantics. *)
Definition UpsertAnswer (a : Answer.t) : Repo unit :=
  fun st =>
    let id := Answer.ResponseID a in
    (inr tt,
     set_answers
       (<[id := upsert a (default [] (answers st !! id))]> (answers st)) st).

End responseRepo.

Module rewardRepo.

(** Modelled from the spec: the implementation of [RewardRepository] is not
    among the sources.  There is one pool per published survey. *)
Definition GetPoolBySurveyID (surveyID : N) : Repo RewardPool.t :=
  fun st =>
    match pools st !! surveyID with
    | Some p => (inr p, st)
    | None => (inl record_not_found, st)
    end.

(** Modelled from the spec: the implementation of [RewardRepository] is not
    among the sources.  "recheck CanProcessReward, then mutate": the pool is
    debited by its own [ProcessReward] and the transaction is recorded. *)
Definition ProcessReward (pool : RewardPool.t)
    (transaction : RewardTransaction.t) : Repo unit :=
  fun st =>
    match RewardPool.ProcessReward pool with
    | (Some e, _) => (inl e, st)
    | (None, pool') =>
        (inr tt,
         {| surveys := surveys st; responses := responses st;
            answers := answers st;
            pools := <[RewardPool.SurveyID pool := pool']> (pools st);
            transactions := transaction :: transactions st;
            total_earned := total_earned st;
            next_response_id := next_response_id st |})
    end.

End rewardRepo.

(** ** internal/services/response_service.go *)

Module responseService.

Definition to_model (v : dto.AnswerValue) : AnswerValue.t :=
  {| AnswerValue.Type_ := dto.Type_ v;
     AnswerValue.Content := dto.Content v;
     AnswerValue.Options := dto.Options v;
     AnswerValue.Rating := dto.Rating v;
     AnswerValue.Scale := dto.Scale v;
     AnswerValue.Date := dto.Date v |}.

Definition of_model (v : AnswerValue.t) : dto.AnswerValue :=
  {| dto.Type_ := AnswerValue.Type_ v;
     dto.Content := AnswerValue.Content v;
     dto.Options := AnswerValue.Options v;
     dto.Rating := AnswerValue.Rating v;
     dto.Scale := AnswerValue.Scale v;
     dto.Date := AnswerValue.Date v |}.

Definition extractAnswerText (answerValue : AnswerValue.t) : string :=
  let type := AnswerValue.Type_ answerValue in
  if bool_decide (type = "text") then
    match AnswerValue.Content answerValue with
    | JSONString str => str
    | _ => ""
    end
  else if bool_decide (type = "number") then
    match AnswerValue.Content answerValue with
    | JSONNumber num => GoFmt.float_2f num
    | _ => ""
    end
  else if bool_decide (type = "boolean") then
    match AnswerValue.Content answerValue with
    | JSONBool b => if b then "true" else "false"
    | _ => ""
    end
  else if bool_decide (type = "array") then
    match AnswerValue.Options answerValue with
    | [] => ""
    | options => String.concat ", " options
    end
  else if bool_decide (type = "rating") then
    match AnswerValue.Rating answerValue with
    | Some rating => GoFmt.itoa rating
    | None => ""
    end
  else if bool_decide (type = "scale") then
    match AnswerValue.Scale answerValue with
    | Some scale => GoFmt.itoa scale
    | None => ""
    end
  else if bool_decide (type = "date") then
    match AnswerValue.Date answerValue with
    | Some date => GoTime.Format_date date
    | None => ""
    end
  else "".

(** The answer row built from one submitted answer. *)
Definition make_answer (responseID questionID : N) (value : dto.AnswerValue)
    (timeSpent : Z) (isSkipped : bool) : Answer.t :=
  let answerValue := to_model value in
  {| Answer.ResponseID := responseID;
     Answer.QuestionID := questionID;
     Answer.AnswerText := extractAnswerText answerValue;
     Answer.AnswerValue_ := answerValue;
     Answer.TimeSpent := timeSpent;
     Answer.IsSkipped := isSkipped |}.

Definition StartSurvey (now : GoTime.t) (userID surveyID : N)
    (req : dto.StartSurveyRequest) : Repo dto.ResponseStartResponse :=
  survey <- surveyRepo.GetByID surveyID ;;
  reject (negb (Survey.IsActive now survey)) "survey is not active" (
  reject (Survey.RequireLogin survey && (userID =? 0)%N)
    "login required to participate" (
  _ <- (if negb (Survey.AllowMultiple survey) then
          exists_ <- responseRepo.HasUserResponded userID surveyID ;;
          reject exists_ "user has already responded to this survey" (ret tt)
        else ret tt) ;;
  reject (Survey.MaxResponses survey <=? Survey.ResponseCount survey)%Z
    "survey has reached maximum participants" (
  response <- responseRepo.Create
    {| Response.ID := 0;
       Response.SurveyID := surveyID;
       Response.UserID := userID;
       Response.Status := ResponseStatusStarted;
       Response.StartedAt := now;
       Response.CompletedAt := None;
       Response.Duration := 0;
       Response.IPAddress := dto.start_IPAddress req;
       Response.UserAgent := dto.start_UserAgent req;
       Response.Timezone := dto.start_Timezone req;
       Response.Language := dto.start_Language req;
       Response.QualityScore := 0;
       Response.IsValid := true;
       Response.Survey_ := Survey.zero;
       Response.Answers := [];
       Response.Transaction := None |} ;;
  let timeLeft :=
    if (0 <? Survey.EstimatedDuration survey)%Z
    then Some (GoInt.wrap64 (Survey.EstimatedDuration survey * 60))
    else None in
  ret {| dto.started_ResponseID := Response.ID response;
         dto.started_SurveyID := surveyID;
         dto.started_Status := ResponseStatus_string (Response.Status response);
         dto.started_StartedAt := Response.StartedAt response;
         dto.started_TimeLeft := timeLeft |}))).

(** The loop of [SubmitAnswers] over the batch. *)
Fixpoint submit_each (survey : Survey.t) (responseID : N)
    (answers : list dto.SubmitAnswerRequest) : Repo unit :=
  match answers with
  | [] => ret tt
  | answerReq :: rest =>
      match Survey.GetQuestionByID survey (dto.QuestionID answerReq) with
      | inl _ => submit_each survey responseID rest
      | inr question =>
          let answer :=
            make_answer responseID (dto.QuestionID answerReq)
              (dto.Answer answerReq) (dto.TimeSpent answerReq)
              (dto.IsSkipped answerReq) in
          match Answer.ValidateAnswer answer question with
          | Some err => fail err
          | None =>
              _ <- responseRepo.UpsertAnswer answer ;;
              submit_each survey responseID rest
          end
      end
  end.

Definition SubmitAnswers (userID responseID : N)
    (answers : list dto.SubmitAnswerRequest) : Repo unit :=
  response <- responseRepo.GetByID responseID ;;
  reject (negb (Response.UserID response =? userID)%N) "unauthorized" (
  reject (negb (bool_decide (Response.Status response = ResponseStatusStarted)))
    "response is not active" (
  survey <- surveyRepo.GetByID (Response.SurveyID response) ;;
  submit_each survey responseID answers)).

Definition UpdateAnswer (userID responseID questionID : N)
    (req : dto.UpdateAnswerRequest) : Repo unit :=
  response <- responseRepo.GetByID responseID ;;
  reject (negb (Response.UserID response =? userID)%N) "unauthorized" (
  reject (negb (bool_decide (Response.Status response = ResponseStatusStarted)))
    "response is not active" (
  responseRepo.UpsertAnswer
    (make_answer responseID questionID (dto.update_Answer req)
       (dto.update_TimeSpent req) (dto.update_IsSkipped req)))).

Definition AbandonSurvey (now : GoTime.t) (userID responseID : N) : Repo unit :=
  response <- responseRepo.GetByID responseID ;;
  reject (negb (Response.UserID response =? userID)%N) "unauthorized" (
  reject (negb (bool_decide (Response.Status response = ResponseStatusStarted)))
    "response cannot be abandoned" (
  responseRepo.Update (Response.MarkAsAbandoned now response))).

(** The inner loop of the scorer: is the answered question a required one? *)
Fixpoint answers_required (questions : list Question.t) (questionID : N)
  : bool :=
  match questions with
  | [] => false
  | question :: rest =>
      if (Question.ID question =? questionID)%N && Question.Required question
      then true
      else answers_required rest questionID
  end.

(** The outer loop of the scorer, with its counter. *)
Fixpoint count_skipped_required (questions : list Question.t)
    (answers : list Answer.t) (skippedRequired : Z) : Z :=
  match answers with
  | [] => skippedRequired
  | answer :: rest =>
      count_skipped_required questions rest
        (if Answer.IsSkipped answer
            && answers_required questions (Answer.QuestionID answer)
         then GoInt.incr skippedRequired else skippedRequired)
  end.

Definition clamp_score (score : float) : float :=
  let score := if (score <? 0)%float then 0%float else score in
  if (5 <? score)%float then 5%float else score.

Definition calculateQualityScore (response : Response.t) (survey : Survey.t)
  : float :=
  let score := 5%float in
  let questionsTotal := GoInt.len (Survey.Questions survey) in
  let questionsAnswered := GoInt.len (Response.Answers response) in
  let completionRate :=
    (GoFloat.of_int questionsAnswered / GoFloat.of_int questionsTotal)%float in
  let score := (score * completionRate)%float in
  let avgTimePerQuestion :=
    (GoFloat.of_int (Response.Duration response)
     / GoFloat.of_int questionsAnswered)%float in
  let score :=
    if (avgTimePerQuestion <? 5)%float then (score * 0.7)%float else score in
  let skippedRequired :=
    count_skipped_required (Survey.Questions survey)
      (Response.Answers response) 0 in
  let score :=
    if (0 <? skippedRequired)%Z
    then (score * (1 - GoFloat.of_int skippedRequired * 0.1))%float
    else score in
  clamp_score score.

Definition processRewards (response : Response.t) (survey : Survey.t)
  : Repo (float * Z) :=
  pool <- rewardRepo.GetPoolBySurveyID (Survey.ID survey) ;;
  reject (negb (RewardPool.CanProcessReward pool))
    "insufficient reward pool" (
  let baseReward := Survey.RewardPerResponse survey in
  let qualityMultiplier := (Response.QualityScore response / 5)%float in
  let finalReward := (baseReward * qualityMultiplier)%float in
  let xpEarned :=
    GoFloat.to_int
      (GoFloat.of_int (Survey.EstimatedDuration survey) * 10
       * qualityMultiplier)%float in
  let transaction :=
    {| RewardTransaction.UserID := Response.UserID response;
       RewardTransaction.SurveyID := Survey.ID survey;
       RewardTransaction.ResponseID := Some (Response.ID response);
       RewardTransaction.PoolID := Some (RewardPool.ID pool);
       RewardTransaction.Type_ := TransactionTypeReward;
       RewardTransaction.Amount := finalReward;
       RewardTransaction.Status := TransactionStatusPending |} in
  _ <- rewardRepo.ProcessReward pool transaction ;;
  _ <- userRepo.UpdateBalance (Response.UserID response) finalReward
         (GoFloat.of_int xpEarned) ;;
  ret (finalReward, xpEarned)).

Definition generateNFTCertificate (response : Response.t) (survey : Survey.t)
  : string :=
  GoFmt.Sprintf "NFT-CERT-%d-%d-%d"
    [Survey.ID survey; Response.UserID response; Response.ID response].

Definition CompleteSurvey (now : GoTime.t) (userID : N)
    (req : dto.CompleteSurveyRequest) : Repo dto.CompletionResponse :=
  response <- responseRepo.GetByID (dto.ResponseID req) ;;
  reject (negb (Response.UserID response =? userID)%N) "unauthorized" (
  reject (negb (bool_decide (Response.Status response = ResponseStatusStarted)))
    "response is not active" (
  _ <- (match dto.Answers req with
        | [] => ret tt
        | _ => SubmitAnswers userID (dto.ResponseID req) (dto.Answers req)
        end) ;;
  survey <- surveyRepo.GetByID (Response.SurveyID response) ;;
  let response := Response.MarkAsCompleted now response in
  let response := Response.set_Duration (dto.Duration req) response in
  let response :=
    Response.set_QualityScore (calculateQualityScore response survey)
      response in
  _ <- responseRepo.Update response ;;
  rewards <- processRewards response survey ;;
  _ <- surveyRepo.UpdateStatistics (Survey.ID survey) ;;
  let nftCertificate := generateNFTCertificate response survey in
  ret {| dto.completion_ResponseID := Response.ID response;
         dto.completion_Status := ResponseStatus_string (Response.Status response);
         dto.completion_CompletedAt := Response.CompletedAt response;
         dto.completion_Duration := Response.Duration response;
         dto.RewardEarned := fst rewards;
         dto.XpEarned := snd rewards;
         dto.NFTCertificate := Some nftCertificate;
         dto.TransactionHash := None;
         dto.Message :=
           "Survey completed successfully! Your rewards will be processed shortly."
      |})).

Definition responseToDTO (response : Response.t) : dto.SurveyResponseResponse :=
  let answers :=
    map (fun answer =>
           {| dto.QuestionID := Answer.QuestionID answer;
              dto.Answer := of_model (Answer.AnswerValue_ answer);
              dto.TimeSpent := Answer.TimeSpent answer;
              dto.IsSkipped := Answer.IsSkipped answer |})
        (Response.Answers response) in
  let rewardEarned :=
    match Response.Transaction response with
    | Some transaction => RewardTransaction.Amount transaction
    | None => 0%float
    end in
  let xpEarned :=
    match Response.Transaction response with
    | Some _ => GoFloat.to_int (rewardEarned * 10)%float
    | None => 0%Z
    end in
  let nftCertificate :=
    if Response.IsCompleted response
    then Some (generateNFTCertificate response (Response.Survey_ response))
    else None in
  {| dto.view_ID := Response.ID response;
     dto.view_SurveyID := Response.SurveyID response;
     dto.view_UserID := Response.UserID response;
     dto.view_Status := ResponseStatus_string (Response.Status response);
     dto.view_CompletedAt := Response.CompletedAt response;
     dto.view_Duration := Response.Duration response;
     dto.view_QualityScore := Response.QualityScore response;
     dto.view_Answers := answers;
     dto.view_RewardEarned := rewardEarned;
     dto.view_XpEarned := xpEarned;
     dto.view_NFTCertificate := nftCertificate |}.

Definition GetResponse (userID responseID : N)
  : Repo dto.SurveyResponseResponse :=
  response <- responseRepo.GetWithAnswers responseID ;;
  reject (negb (Response.UserID response =? userID)%N) "unauthorized" (
  ret (responseToDTO response)).

End responseService.

(** ** Vocabulary of the properties *)

(** The identifier the specification gives for a completion certificate:
    ["NFT-CERT-{survey id}-{user id}-{response id}"]. *)
Definition certificate_format (surveyID userID responseID : N) : string :=
  "NFT-CERT-" ++ GoFmt.utoa surveyID ++ "-" ++ GoFmt.utoa userID ++ "-"
  ++ GoFmt.utoa responseID.

(** The answer row [SubmitAnswers] builds from one element of its batch. *)
Definition answer_of (rid : N) (req : dto.SubmitAnswerRequest) : Answer.t :=
  responseService.make_answer rid (dto.QuestionID req) (dto.Answer req)
    (dto.TimeSpent req) (dto.IsSkipped req).

(** The answer rows persisted for a response. *)
Definition stored_answers (rid : N) (st : Store) : list Answer.t :=
  default [] (answers st !! rid).

(** [st'] differs from [st] in the answer rows at most. *)
Definition same_but_answers (st st' : Store) : Prop :=
  surveys st' = surveys st /\ responses st' = responses st
  /\ pools st' = pools st /\ transactions st' = transactions st
  /\ total_earned st' = total_earned st
  /\ next_response_id st' = next_response_id st.

(** A binary64 number that is a zero or is finite with
    [mantissa * 2 ^ exponent < 2 ^ B]: not a NaN, not an infinity. *)
Definition SFsmall (B : Z) (x : spec_float) : Prop :=
  match x with
  | S754_zero _ => True
  | S754_finite _ m e => Z.pos (digits2_pos m) + e <= B
  | S754_infinity _ | S754_nan => False
  end.

Definition small (B : Z) (x : float) : Prop := SFsmall B (Prim2SF x).

(** A binary64 number that is not below zero: a zero of either sign, a
    positive number, the positive infinity, or a NaN. *)
Definition SFnot_negative (x : spec_float) : Prop :=
  match x with
  | S754_finite true _ _ | S754_infinity true => False
  | _ => True
  end.

(** The binary64 number that is the whole number [n], in canonical form. *)
Definition SFwhole (n : Z) : spec_float :=
  match n with
  | Z.pos p =>
      S754_finite false (Z.to_pos (Z.pos p * 2 ^ (53 - Z.pos (digits2_pos p))))
        (Z.pos (digits2_pos p) - 53)
  | _ => S754_zero false
  end.

(** The float [x] is the whole number [n], a number that binary64 holds
    exactly. *)
Definition whole (x : float) (n : Z) : Prop :=
  0 <= n < 2 ^ 53 /\ x = GoFloat.of_int n.

(** The transaction [processRewards] records. *)
Definition reward_transaction (response : Response.t) (survey : Survey.t)
    (pool : RewardPool.t) (amount : float) : RewardTransaction.t :=
  {| RewardTransaction.UserID := Response.UserID response;
     RewardTransaction.SurveyID := Survey.ID survey;
     RewardTransaction.ResponseID := Some (Response.ID response);
     RewardTransaction.PoolID := Some (RewardPool.ID pool);
     RewardTransaction.Type_ := TransactionTypeReward;
     RewardTransaction.Amount := amount;
     RewardTransaction.Status := TransactionStatusPending |}.

(** ** A concrete survey, response and pools, for the examples *)

Module Scenario.

Definition text_question : Question.t :=
  {| Question.ID := 1; Question.SurveyID := 1;
     Question.Type_ := QuestionTypeText; Question.Required := true;
     Question.MinLength := Some 3; Question.MaxLength := Some 20;
     Question.MinValue := None; Question.MaxValue := None |}.

Definition scale_question : Question.t :=
  {| Question.ID := 2; Question.SurveyID := 1;
     Question.Type_ := QuestionTypeScale; Question.Required := true;
     Question.MinLength := None; Question.MaxLength := None;
     Question.MinValue := Some 1%float; Question.MaxValue := Some 10%float |}.

Definition survey : Survey.t :=
  {| Survey.ID := 1; Survey.CreatorID := 2;
     Survey.Status := SurveyStatusPublished; Survey.MaxResponses := 100;
     Survey.RewardPerResponse := 50; Survey.TotalRewardPool := 5000;
     Survey.StartDate := None; Survey.EndDate := None;
     Survey.EstimatedDuration := 10; Survey.RequireLogin := true;
     Survey.AllowMultiple := false; Survey.ResponseCount := 0;
     Survey.Questions := [text_question; scale_question] |}.

Definition started_at : GoTime.t :=
  {| GoTime.unix := 1000; GoTime.nsec := 0; GoTime.offset := 0 |}.
Definition now : GoTime.t :=
  {| GoTime.unix := 1180; GoTime.nsec := 0; GoTime.offset := 0 |}.

(** A response of user 3, started and not yet answered. *)
Definition response : Response.t :=
  {| Response.ID := 7; Response.SurveyID := 1; Response.UserID := 3;
     Response.Status := ResponseStatusStarted;
     Response.StartedAt := started_at; Response.CompletedAt := None;
     Response.Duration := 0; Response.IPAddress := "10.0.0.1";
     Response.UserAgent := "agent"; Response.Timezone := "UTC";
     Response.Language := "en"; Response.QualityScore := 0;
     Response.IsValid := true; Response.Survey_ := Survey.zero;
     Response.Answers := []; Response.Transaction := None |}.

(** The response once completed with the best score. *)
Definition scored_response : Response.t :=
  Response.set_QualityScore 5
    (Response.set_Duration 180 (Response.MarkAsCompleted now response)).

(** The pool as [PublishSurvey] creates it for the survey. *)
Definition full_pool : RewardPool.t :=
  {| RewardPool.ID := 1; RewardPool.SurveyID := 1;
     RewardPool.TotalAmount := 5000; RewardPool.RewardPerResponse := 50;
     RewardPool.MaxResponses := 100; RewardPool.CurrentResponses := 0;
     RewardPool.PaidOut := 0; RewardPool.RemainingAmount := 5000;
     RewardPool.IsActive := true |}.

(** The pool of the specification's scenario: 30 left, 50 per response. *)
Definition short_pool : RewardPool.t :=
  {| RewardPool.ID := 1; RewardPool.SurveyID := 1;
     RewardPool.TotalAmount := 5000; RewardPool.RewardPerResponse := 50;
     RewardPool.MaxResponses := 100; RewardPool.CurrentResponses := 99;
     RewardPool.PaidOut := 4970; RewardPool.RemainingAmount := 30;
     RewardPool.IsActive := true |}.

(** The pool after its hundredth and last settlement. *)
Definition spent_pool : RewardPool.t :=
  {| RewardPool.ID := 1; RewardPool.SurveyID := 1;
     RewardPool.TotalAmount := 5000; RewardPool.RewardPerResponse := 50;
     RewardPool.MaxResponses := 100; RewardPool.CurrentResponses := 100;
     RewardPool.PaidOut := 5000; RewardPool.RemainingAmount := 0;
     RewardPool.IsActive := false |}.

Definition store (pool : RewardPool.t) : Store :=
  {| surveys := {[ 1%N := survey ]};
     responses := {[ 7%N := response ]};
     answers := ∅;
     pools := {[ 1%N := pool ]};
     transactions := [];
     total_earned := {[ 3%N := 0%float ]};
     next_response_id := 8 |}.

Definition text_answer (s : string) : dto.AnswerValue :=
  {| dto.Type_ := "text"; dto.Content := JSONString s; dto.Options := [];
     dto.Rating := None; dto.Scale := None; dto.Date := None |}.

Definition scale_answer (n : Z) : dto.AnswerValue :=
  {| dto.Type_ := "scale"; dto.Content := JSONNull; dto.Options := [];
     dto.Rating := None; dto.Scale := Some n; dto.Date := None |}.

Definition rating_answer (n : Z) : dto.AnswerValue :=
  {| dto.Type_ := "rating"; dto.Content := JSONNull; dto.Options := [];
     dto.Rating := Some n; dto.Scale := None; dto.Date := None |}.

Definition submit (questionID : N) (value : dto.AnswerValue) (skipped : bool)
  : dto.SubmitAnswerRequest :=
  {| dto.QuestionID := questionID; dto.Answer := value; dto.TimeSpent := 20;
     dto.IsSkipped := skipped |}.

Definition update (value : dto.AnswerValue) (skipped : bool)
  : dto.UpdateAnswerRequest :=
  {| dto.update_Answer := value; dto.update_TimeSpent := 20;
     dto.update_IsSkipped := skipped |}.

Definition complete (answers : list dto.SubmitAnswerRequest)
  : dto.CompleteSurveyRequest :=
  {| dto.ResponseID := 7; dto.Answers := answers; dto.Duration := 180 |}.

(** The pool of a survey published with a reward of 0.1 for each of 10
    responses, after two settlements. *)
Definition drifting_pool : RewardPool.t :=
  {| RewardPool.ID := 1; RewardPool.SurveyID := 1;
     RewardPool.TotalAmount := 1; RewardPool.RewardPerResponse := 0.1;
     RewardPool.MaxResponses := 10; RewardPool.CurrentResponses := 2;
     RewardPool.PaidOut := 0.2; RewardPool.RemainingAmount := 0.8;
     RewardPool.IsActive := true |}.

End Scenario.

(** ** internal/models: the methods the response service does not call *)

#[global] Instance TransactionStatus_eq_dec : EqDecision TransactionStatus.
Proof. solve_decision. Defined.

Module GoIntDiv.

(** [a / b] and [a % b] on [int]s: the quotient is truncated toward zero and
    the remainder has the sign of [a]; a zero divisor is a run-time panic,
    [None]. *)
Definition quo (a b : Z) : option Z :=
  if (b =? 0)%Z then None else Some (GoInt.wrap64 (Z.quot a b)).

Definition rem (a b : Z) : option Z :=
  if (b =? 0)%Z then None else Some (Z.rem a b).

End GoIntDiv.

Module RewardTransactionMethods.

(** A [RewardTransaction] with the fields its methods write, beside those of
    [RewardTransaction.t]; a nil pointer is [None]. *)
Record t := {
  row : RewardTransaction.t;
  TxHash : option string;
  BlockNumber : option Z;
  GasUsed : option Z;
  GasFee : option float;
  ProcessedAt : option GoTime.t;
  FailureReason : option string;
  RetryCount : Z
}.

Definition set_Status (v : TransactionStatus) (rt : RewardTransaction.t)
  : RewardTransaction.t :=
  {| RewardTransaction.UserID := RewardTransaction.UserID rt;
     RewardTransaction.SurveyID := RewardTransaction.SurveyID rt;
     RewardTransaction.ResponseID := RewardTransaction.ResponseID rt;
     RewardTransaction.PoolID := RewardTransaction.PoolID rt;
     RewardTransaction.Type_ := RewardTransaction.Type_ rt;
     RewardTransaction.Amount := RewardTransaction.Amount rt;
     RewardTransaction.Status := v |}.

Definition IsCompleted (rt : t) : bool :=
  bool_decide (RewardTransaction.Status (row rt) = TransactionStatusCompleted).

Definition IsPending (rt : t) : bool :=
  bool_decide (RewardTransaction.Status (row rt) = TransactionStatusPending).

(** [now] is what [time.Now()] returned. *)
Definition MarkAsCompleted (now : GoTime.t) (txHash : string) (blockNumber : Z)
    (rt : t) : t :=
  {| row := set_Status TransactionStatusCompleted (row rt);
     TxHash := Some txHash;
     BlockNumber := Some blockNumber;
     GasUsed := GasUsed rt;
     GasFee := GasFee rt;
     ProcessedAt := Some now;
     FailureReason := FailureReason rt;
     RetryCount := RetryCount rt |}.

Definition MarkAsFailed (reason : string) (rt : t) : t :=
  {| row := set_Status TransactionStatusFailed (row rt);
     TxHash := TxHash rt;
     BlockNumber := BlockNumber rt;
     GasUsed := GasUsed rt;
     GasFee := GasFee rt;
     ProcessedAt := ProcessedAt rt;
     FailureReason := Some reason;
     RetryCount := GoInt.incr (RetryCount rt) |}.

Definition CanRetry (rt : t) : bool :=
  bool_decide (RewardTransaction.Status (row rt) = TransactionStatusFailed)
  && (RetryCount rt <? 3)%Z.

(** The transaction [processRewards] builds, before any processing. *)
Definition fresh (transaction : RewardTransaction.t) : t :=
  {| row := transaction; TxHash := None; BlockNumber := None;
     GasUsed := None; GasFee := None; ProcessedAt := None;
     FailureReason := None; RetryCount := 0 |}.

End RewardTransactionMethods.

Module UserBalance.

Record t := {
  UserID : N;
  TotalEarned : float;
  TotalWithdrawn : float;
  AvailableBalance : float;
  PendingBalance : float;
  LastUpdatedAt : GoTime.t
}.

(** [now] is what [time.Now()] returned. *)
Definition UpdateBalance (now : GoTime.t) (earnedAmount withdrawnAmount : float)
    (ub : t) : t :=
  let totalEarned := (TotalEarned ub + earnedAmount)%float in
  let totalWithdrawn := (TotalWithdrawn ub + withdrawnAmount)%float in
  {| UserID := UserID ub;
     TotalEarned := totalEarned;
     TotalWithdrawn := totalWithdrawn;
     AvailableBalance :=
       (totalEarned - totalWithdrawn - PendingBalance ub)%float;
     PendingBalance := PendingBalance ub;
     LastUpdatedAt := now |}.

Definition CanWithdraw (amount : float) (ub : t) : bool :=
  (amount <=? AvailableBalance ub)%float && (0 <? amount)%float.

End UserBalance.

Module ResponseMethods.

(** The first answer to this question, or the error. *)
Fixpoint find_answer (answers : list Answer.t) (questionID : N)
  : error + Answer.t :=
  match answers with
  | [] => inl "answer not found"
  | answer :: rest =>
      if (Answer.QuestionID answer =? questionID)%N then inr answer
      else find_answer rest questionID
  end.

Definition GetAnswerByQuestionID (r : Response.t) (questionID : N)
  : error + Answer.t :=
  find_answer (Response.Answers r) questionID.

End ResponseMethods.

Module SurveyMethods.

Definition CalculateTotalRewardPool (s : Survey.t) : float :=
  (GoFloat.of_int (Survey.MaxResponses s) * Survey.RewardPerResponse s)%float.

Definition set_Status (v : SurveyStatus) (s : Survey.t) : Survey.t :=
  {| Survey.ID := Survey.ID s; Survey.CreatorID := Survey.CreatorID s;
     Survey.Status := v; Survey.MaxResponses := Survey.MaxResponses s;
     Survey.RewardPerResponse := Survey.RewardPerResponse s;
     Survey.TotalRewardPool := Survey.TotalRewardPool s;
     Survey.StartDate := Survey.StartDate s;
     Survey.EndDate := Survey.EndDate s;
     Survey.EstimatedDuration := Survey.EstimatedDuration s;
     Survey.RequireLogin := Survey.RequireLogin s;
     Survey.AllowMultiple := Survey.AllowMultiple s;
     Survey.ResponseCount := Survey.ResponseCount s;
     Survey.Questions := Survey.Questions s |}.

Definition set_StartDate (v : option GoTime.t) (s : Survey.t) : Survey.t :=
  {| Survey.ID := Survey.ID s; Survey.CreatorID := Survey.CreatorID s;
     Survey.Status := Survey.Status s;
     Survey.MaxResponses := Survey.MaxResponses s;
     Survey.RewardPerResponse := Survey.RewardPerResponse s;
     Survey.TotalRewardPool := Survey.TotalRewardPool s;
     Survey.StartDate := v;
     Survey.EndDate := Survey.EndDate s;
     Survey.EstimatedDuration := Survey.EstimatedDuration s;
     Survey.RequireLogin := Survey.RequireLogin s;
     Survey.AllowMultiple := Survey.AllowMultiple s;
     Survey.ResponseCount := Survey.ResponseCount s;
     Survey.Questions := Survey.Questions s |}.

Definition set_EndDate (v : option GoTime.t) (s : Survey.t) : Survey.t :=
  {| Survey.ID := Survey.ID s; Survey.CreatorID := Survey.CreatorID s;
     Survey.Status := Survey.Status s;
     Survey.MaxResponses := Survey.MaxResponses s;
     Survey.RewardPerResponse := Survey.RewardPerResponse s;
     Survey.TotalRewardPool := Survey.TotalRewardPool s;
     Survey.StartDate := Survey.StartDate s;
     Survey.EndDate := v;
     Survey.EstimatedDuration := Survey.EstimatedDuration s;
     Survey.RequireLogin := Survey.RequireLogin s;
     Survey.AllowMultiple := Survey.AllowMultiple s;
     Survey.ResponseCount := Survey.ResponseCount s;
     Survey.Questions := Survey.Questions s |}.

End SurveyMethods.

(** ** internal/dto/survey.go and response.go: further requests and replies *)

(** [string(status)] and [string(q.Type)]. *)
Definition SurveyStatus_string (s : SurveyStatus) : string :=
  match s with
  | SurveyStatusDraft => "draft"
  | SurveyStatusPublished => "published"
  | SurveyStatusPaused => "paused"
  | SurveyStatusCompleted => "completed"
  | SurveyStatusCancelled => "cancelled"
  end.

Definition QuestionType_string (t : QuestionType) : string :=
  match t with
  | QuestionTypeMultipleChoice => "multiple_choice"
  | QuestionTypeSingleChoice => "single_choice"
  | QuestionTypeText => "text"
  | QuestionTypeTextArea => "textarea"
  | QuestionTypeRating => "rating"
  | QuestionTypeYesNo => "yes_no"
  | QuestionTypeScale => "scale"
  | QuestionTypeDate => "date"
  | QuestionTypeNumber => "number"
  end.

Module dtoSurvey.

Record PublishSurveyRequest := {
  StartDate : option GoTime.t;
  EndDate : option GoTime.t
}.

(** The fields of the reply that the survey and question models carry. *)
Record QuestionResponse := {
  question_ID : N;
  question_Type : string;
  question_Required : bool;
  question_MinLength : option Z;
  question_MaxLength : option Z;
  question_MinValue : option float;
  question_MaxValue : option float
}.

Record SurveyResponse := {
  survey_ID : N;
  survey_CreatorID : N;
  survey_Status : string;
  survey_MaxResponses : Z;
  survey_RewardPerResponse : float;
  survey_TotalRewardPool : float;
  survey_EstimatedDuration : Z;
  survey_ResponseCount : Z;
  survey_RequireLogin : bool;
  survey_AllowMultiple : bool;
  survey_StartDate : option GoTime.t;
  survey_EndDate : option GoTime.t;
  survey_Questions : list QuestionResponse
}.

End dtoSurvey.

Module dtoQueries.

(** The fields of the request the service reads. *)
Record ListResponsesRequest := {
  Page : Z;
  Limit : Z
}.

(** The reply without [SurveyTitle]: the survey model carries no title. *)
Record ResponseItemResponse := {
  item_ID : N;
  item_SurveyID : N;
  item_Status : string;
  item_StartedAt : GoTime.t;
  item_CompletedAt : option GoTime.t;
  item_Duration : Z;
  item_RewardEarned : float;
  item_XpEarned : Z;
  item_QualityScore : float;
  item_Progress : float
}.

Record ResponseListResponse := {
  Responses : list ResponseItemResponse;
  Total : Z;
  list_Page : Z;
  list_Limit : Z;
  TotalPages : Z
}.

(** The reply without [LastAnsweredAt]: answer rows carry no time stamps
    here. *)
Record SurveyProgressResponse := {
  progress_ResponseID : N;
  progress_SurveyID : N;
  progress_Status : string;
  Progress : float;
  QuestionsTotal : Z;
  QuestionsAnswered : Z;
  TimeSpent : Z;
  TimeLeft : option Z;
  progress_StartedAt : GoTime.t
}.

End dtoQueries.

(** ** internal/repository/survey_repository.go: the writes of the catalog *)

Module surveyRepository.

(** The database's refusal of a second pool for one survey: the column
    [survey_id] of the pools is unique. *)
Definition duplicate_key : error :=
  "duplicate key value violates unique constraint".

(** [db.Transaction]: [tx.Save(survey)], then [tx.Create(pool)]; when the
    second fails the first is rolled back.  [poolID] is the key the database
    gives the new row. *)
Definition PublishWithRewardPool (poolID : N) (survey : Survey.t)
    (pool : RewardPool.t) : Repo unit :=
  fun st =>
    match pools st !! RewardPool.SurveyID pool with
    | Some _ => (inl duplicate_key, st)
    | None =>
        (inr tt,
         {| surveys := <[Survey.ID survey := survey]> (surveys st);
            responses := responses st;
            answers := answers st;
            pools :=
              <[RewardPool.SurveyID pool :=
                  {| RewardPool.ID := poolID;
                     RewardPool.SurveyID := RewardPool.SurveyID pool;
                     RewardPool.TotalAmount := RewardPool.TotalAmount pool;
                     RewardPool.RewardPerResponse :=
                       RewardPool.RewardPerResponse pool;
                     RewardPool.MaxResponses := RewardPool.MaxResponses pool;
                     RewardPool.CurrentResponses :=
                       RewardPool.CurrentResponses pool;
                     RewardPool.PaidOut := RewardPool.PaidOut pool;
                     RewardPool.RemainingAmount :=
                       RewardPool.RemainingAmount pool;
                     RewardPool.IsActive := RewardPool.IsActive pool |}]>
                (pools st);
            transactions := transactions st;
            total_earned := total_earned st;
            next_response_id := next_response_id st |})
    end.

(** [db.Delete(&models.Survey{}, id)]: the row is no longer found; a missing
    row is no error. *)
Definition Delete (id : N) : Repo unit :=
  fun st =>
    (inr tt,
     {| surveys := delete id (surveys st);
        responses := responses st;
        answers := answers st;
        pools := pools st;
        transactions := transactions st;
        total_earned := total_earned st;
        next_response_id := next_response_id st |}).

End surveyRepository.

(** ** internal/service/survey_service.go: the survey service *)

Module surveyService.

Definition parseEstimatedTime (timeStr : string) : Z :=
  if bool_decide (timeStr = "1-3 min") then 3
  else if bool_decide (timeStr = "3-5 min") then 5
  else if bool_decide (timeStr = "5-10 min") then 10
  else if bool_decide (timeStr = "10-15 min") then 15
  else if bool_decide (timeStr = "15+ min") then 20
  else 10.

Definition surveyToDTO (survey : Survey.t) : dtoSurvey.SurveyResponse :=
  let questions :=
    map (fun q =>
           {| dtoSurvey.question_ID := Question.ID q;
              dtoSurvey.question_Type := QuestionType_string (Question.Type_ q);
              dtoSurvey.question_Required := Question.Required q;
              dtoSurvey.question_MinLength := Question.MinLength q;
              dtoSurvey.question_MaxLength := Question.MaxLength q;
              dtoSurvey.question_MinValue := Question.MinValue q;
              dtoSurvey.question_MaxValue := Question.MaxValue q |})
        (Survey.Questions survey) in
  {| dtoSurvey.survey_ID := Survey.ID survey;
     dtoSurvey.survey_CreatorID := Survey.CreatorID survey;
     dtoSurvey.survey_Status := SurveyStatus_string (Survey.Status survey);
     dtoSurvey.survey_MaxResponses := Survey.MaxResponses survey;
     dtoSurvey.survey_RewardPerResponse := Survey.RewardPerResponse survey;
     dtoSurvey.survey_TotalRewardPool := Survey.TotalRewardPool survey;
     dtoSurvey.survey_EstimatedDuration := Survey.EstimatedDuration survey;
     dtoSurvey.survey_ResponseCount := Survey.ResponseCount survey;
     dtoSurvey.survey_RequireLogin := Survey.RequireLogin survey;
     dtoSurvey.survey_AllowMultiple := Survey.AllowMultiple survey;
     dtoSurvey.survey_StartDate := Survey.StartDate survey;
     dtoSurvey.survey_EndDate := Survey.EndDate survey;
     dtoSurvey.survey_Questions := questions |}.

(** The pool [PublishSurvey] builds for the survey it publishes. *)
Definition rewardPool (surveyID : N) (survey : Survey.t) : RewardPool.t :=
  {| RewardPool.ID := 0;
     RewardPool.SurveyID := surveyID;
     RewardPool.TotalAmount := Survey.TotalRewardPool survey;
     RewardPool.RewardPerResponse := Survey.RewardPerResponse survey;
     RewardPool.MaxResponses := Survey.MaxResponses survey;
     RewardPool.CurrentResponses := 0;
     RewardPool.PaidOut := 0;
     RewardPool.RemainingAmount := Survey.TotalRewardPool survey;
     RewardPool.IsActive := true |}.

(** [poolID] is the key the database gives the pool. *)
Definition PublishSurvey (poolID userID surveyID : N)
    (req : dtoSurvey.PublishSurveyRequest) : Repo dtoSurvey.SurveyResponse :=
  survey <- surveyRepo.GetByID surveyID ;;
  reject (negb (Survey.CreatorID survey =? userID)%N) "unauthorized" (
  reject (negb (bool_decide (Survey.Status survey = SurveyStatusDraft)))
    "only draft surveys can be published" (
  reject (GoInt.len (Survey.Questions survey) =? 0)%Z
    "survey must have at least one question" (
  let survey := SurveyMethods.set_Status SurveyStatusPublished survey in
  let survey :=
    match dtoSurvey.StartDate req with
    | Some d => SurveyMethods.set_StartDate (Some d) survey
    | None => survey
    end in
  let survey :=
    match dtoSurvey.EndDate req with
    | Some d => SurveyMethods.set_EndDate (Some d) survey
    | None => survey
    end in
  _ <- surveyRepository.PublishWithRewardPool poolID survey
         (rewardPool surveyID survey) ;;
  ret (surveyToDTO survey)))).

Definition GetSurvey (surveyID : N) : Repo dtoSurvey.SurveyResponse :=
  survey <- surveyRepo.GetByID surveyID ;;
  ret (surveyToDTO survey).

Definition DeleteSurvey (userID surveyID : N) : Repo unit :=
  survey <- surveyRepo.GetByID surveyID ;;
  reject (negb (Survey.CreatorID survey =? userID)%N) "unauthorized" (
  reject (negb (bool_decide (Survey.Status survey = SurveyStatusDraft)))
    "only draft surveys can be deleted" (
  surveyRepository.Delete surveyID)).

End surveyService.

(** ** internal/services/response_service.go: the read operations *)

Module responseQueries.

Definition responseToItemDTO (response : Response.t)
  : dtoQueries.ResponseItemResponse :=
  let questions := Survey.Questions (Response.Survey_ response) in
  let progress :=
    if (0 <? GoInt.len questions)%Z
    then (GoFloat.of_int (GoInt.len (Response.Answers response))
          / GoFloat.of_int (GoInt.len questions) * 100)%float
    else 0%float in
  let rewardEarned :=
    match Response.Transaction response with
    | Some transaction => RewardTransaction.Amount transaction
    | None => 0%float
    end in
  let xpEarned :=
    match Response.Transaction response with
    | Some _ => GoFloat.to_int (rewardEarned * 10)%float
    | None => 0%Z
    end in
  {| dtoQueries.item_ID := Response.ID response;
     dtoQueries.item_SurveyID := Response.SurveyID response;
     dtoQueries.item_Status := ResponseStatus_string (Response.Status response);
     dtoQueries.item_StartedAt := Response.StartedAt response;
     dtoQueries.item_CompletedAt := Response.CompletedAt response;
     dtoQueries.item_Duration := Response.Duration response;
     dtoQueries.item_RewardEarned := rewardEarned;
     dtoQueries.item_XpEarned := xpEarned;
     dtoQueries.item_QualityScore := Response.QualityScore response;
     dtoQueries.item_Progress := progress |}.

(** [GetByUserID] is the method of the response repository, which is not
    among the sources: it gives a page of responses and the count of all.
    The reply is [None] when the division panics. *)
Definition GetUserResponses
    (GetByUserID : N -> dtoQueries.ListResponsesRequest
                   -> Repo (list Response.t * Z))
    (userID : N) (req : dtoQueries.ListResponsesRequest)
  : Repo (option dtoQueries.ResponseListResponse) :=
  found <- GetByUserID userID req ;;
  let responses := fst found in
  let total := snd found in
  let items := map responseToItemDTO responses in
  match GoIntDiv.quo total (dtoQueries.Limit req),
        GoIntDiv.rem total (dtoQueries.Limit req) with
  | Some totalPages, Some remainder =>
      let totalPages :=
        if (0 <? remainder)%Z then GoInt.incr totalPages else totalPages in
      ret (Some {| dtoQueries.Responses := items;
                   dtoQueries.Total := total;
                   dtoQueries.list_Page := dtoQueries.Page req;
                   dtoQueries.list_Limit := dtoQueries.Limit req;
                   dtoQueries.TotalPages := totalPages |})
  | _, _ => ret None
  end.

(** [now] is what [time.Now()] returned. *)
Definition GetResponseProgress (now : GoTime.t) (userID responseID : N)
  : Repo dtoQueries.SurveyProgressResponse :=
  response <- responseRepo.GetWithAnswers responseID ;;
  reject (negb (Response.UserID response =? userID)%N) "unauthorized" (
  survey <- surveyRepo.GetByID (Response.SurveyID response) ;;
  let questionsTotal := GoInt.len (Survey.Questions survey) in
  let questionsAnswered := GoInt.len (Response.Answers response) in
  let progress :=
    (GoFloat.of_int questionsAnswered / GoFloat.of_int questionsTotal
     * 100)%float in
  let timeSpent := Response.CalculateDuration now response in
  let timeLeft :=
    if (0 <? Survey.EstimatedDuration survey)%Z then
      let maxTime := GoInt.wrap64 (Survey.EstimatedDuration survey * 60) in
      let remaining := GoInt.wrap64 (maxTime - timeSpent) in
      if (0 <? remaining)%Z then Some remaining else None
    else None in
  ret {| dtoQueries.progress_ResponseID := Response.ID response;
         dtoQueries.progress_SurveyID := Response.SurveyID response;
         dtoQueries.progress_Status :=
           ResponseStatus_string (Response.Status response);
         dtoQueries.Progress := progress;
         dtoQueries.QuestionsTotal := questionsTotal;
         dtoQueries.QuestionsAnswered := questionsAnswered;
         dtoQueries.TimeSpent := timeSpent;
         dtoQueries.TimeLeft := timeLeft;
         dtoQueries.progress_StartedAt := Response.StartedAt response |}).

End responseQueries.

(** ** internal/middleware/auth.go *)

Module middleware.

(** [strings.Split(s, sep)] for a separator of one byte. *)
Fixpoint Split (s : string) (sep : ascii) : list string :=
  match s with
  | EmptyString => [EmptyString]
  | String c rest =>
      if Ascii.eqb c sep then EmptyString :: Split rest sep
      else
        match Split rest sep with
        | part :: parts => String c part :: parts
        | [] => [String c EmptyString]
        end
  end.

(** What [c.JSON(code, gin.H{...})] followed by [c.Abort()] sends. *)
Record reply := {
  code : Z;
  Error : string;
  Message : string
}.

Definition StatusUnauthorized : Z := 401.
Definition StatusForbidden : Z := 403.

Definition validateToken (token : string) : error + N :=
  if bool_decide (token = "mock-valid-token") then inr 1%N
  else inl "invalid token".

Definition checkAdminStatus (userID : N) : bool := (userID =? 1)%N.

(** The handler on the value of the [Authorization] header, the empty string
    when the request has none: the reply it aborts with, or the user id it
    sets in the context before [c.Next()]. *)
Definition AuthMiddleware (authHeader : string) : reply + N :=
  if bool_decide (authHeader = "") then
    inl {| code := StatusUnauthorized; Error := "unauthorized";
           Message := "Authorization header required" |}
  else
    let tokenParts := Split authHeader " " in
    if negb (Z.of_nat (length tokenParts) =? 2)%Z
       || negb (bool_decide (nth 0 tokenParts "" = "Bearer")) then
      inl {| code := StatusUnauthorized; Error := "unauthorized";
             Message := "Invalid authorization header format" |}
    else
      let token := nth 1 tokenParts "" in
      match validateToken token with
      | inl _ =>
          inl {| code := StatusUnauthorized; Error := "unauthorized";
                 Message := "Invalid or expired token" |}
      | inr userID => inr userID
      end.

(** The context's value for the key [user_id], if any; only [AuthMiddleware]
    sets it, to a [uint]. *)
Definition GetUserID (user_id : option N) : N :=
  match user_id with
  | Some id => id
  | None => 0%N
  end.

(** The reply the handler aborts with, or [None] when it calls [c.Next()]. *)
Definition AdminMiddleware (user_id : option N) : option reply :=
  let userID := GetUserID user_id in
  if (userID =? 0)%N then
    Some {| code := StatusUnauthorized; Error := "unauthorized";
            Message := "User authentication required" |}
  else if negb (checkAdminStatus userID) then
    Some {| code := StatusForbidden; Error := "forbidden";
            Message := "Admin privileges required" |}
  else None.

End middleware.

(** ** Vocabulary of the further properties *)

(** The survey as [PublishSurvey] saves it. *)
Definition published_survey (req : dtoSurvey.PublishSurveyRequest)
    (survey : Survey.t) : Survey.t :=
  let survey := SurveyMethods.set_Status SurveyStatusPublished survey in
  let survey :=
    match dtoSurvey.StartDate req with
    | Some d => SurveyMethods.set_StartDate (Some d) survey
    | None => survey
    end in
  match dtoSurvey.EndDate req with
  | Some d => SurveyMethods.set_EndDate (Some d) survey
  | None => survey
  end.

(** [st'] differs from [st] in the surveys and the pools at most. *)
Definition same_but_catalog (st st' : Store) : Prop :=
  responses st' = responses st /\ answers st' = answers st
  /\ transactions st' = transactions st
  /\ total_earned st' = total_earned st
  /\ next_response_id st' = next_response_id st.

(** The response [CompleteSurvey] writes back, from the response as the
    repository loaded it: completed, with the duration of the request and the
    quality score. *)
Definition completed_response (now : GoTime.t) (duration : Z)
    (survey : Survey.t) (loaded : Response.t) : Response.t :=
  let response :=
    Response.set_Duration duration (Response.MarkAsCompleted now loaded) in
  Response.set_QualityScore
    (responseService.calculateQualityScore response survey) response.


(** The nanoseconds from the instant [b] to the instant [a], as a number
    with no bound. *)
Definition elapsed (a b : GoTime.t) : Z :=
  (GoTime.unix a - GoTime.unix b) * GoTime.Second
  + (GoTime.nsec a - GoTime.nsec b).

(** The call [m] leaves the part [f] of the tables as it was, whatever it
    returns. *)
Definition keeps {A X : Type} (f : Store -> X) (m : Repo A) : Prop :=
  forall st, f (snd (m st)) = f st.

(** The part of the tables that holds money: pools, transactions, balances. *)
Definition money (st : Store)
  : gmap N RewardPool.t * list RewardTransaction.t * gmap N float :=
  (pools st, transactions st, total_earned st).

(** The pool after [n] calls of [ProcessReward], whatever each returned. *)
Definition settlements (n : nat) (rp : RewardPool.t) : RewardPool.t :=
  Nat.iter n (fun rp => snd (RewardPool.ProcessReward rp)) rp.

(** ** Further examples *)

Module Examples.

(** A balance whose available amount is out of date. *)
Definition balance : UserBalance.t :=
  {| UserBalance.UserID := 3; UserBalance.TotalEarned := 150;
     UserBalance.TotalWithdrawn := 40; UserBalance.AvailableBalance := 0;
     UserBalance.PendingBalance := 10;
     UserBalance.LastUpdatedAt := Scenario.started_at |}.

(** A request to publish that sets no dates. *)
Definition publish_now : dtoSurvey.PublishSurveyRequest :=
  {| dtoSurvey.StartDate := None; dtoSurvey.EndDate := None |}.

(** The survey of the scenario before its publication, and the catalog that
    holds it. *)
Definition draft : Survey.t :=
  SurveyMethods.set_Status SurveyStatusDraft Scenario.survey.

Definition drafts : Store :=
  {| surveys := {[ 1%N := draft ]};
     responses := ∅;
     answers := ∅;
     pools := ∅;
     transactions := [];
     total_earned := {[ 3%N := 0%float ]};
     next_response_id := 7 |}.

(** The survey of the scenario with a third question, optional, of at least
    three characters; and the tables that hold it with the started
    response. *)
Definition optional_question : Question.t :=
  {| Question.ID := 3; Question.SurveyID := 1;
     Question.Type_ := QuestionTypeText; Question.Required := false;
     Question.MinLength := Some 3; Question.MaxLength := None;
     Question.MinValue := None; Question.MaxValue := None |}.

Definition longer_survey : Survey.t :=
  {| Survey.ID := 1; Survey.CreatorID := 2;
     Survey.Status := SurveyStatusPublished; Survey.MaxResponses := 100;
     Survey.RewardPerResponse := 50; Survey.TotalRewardPool := 5000;
     Survey.StartDate := None; Survey.EndDate := None;
     Survey.EstimatedDuration := 10; Survey.RequireLogin := true;
     Survey.AllowMultiple := false; Survey.ResponseCount := 0;
     Survey.Questions :=
       [Scenario.text_question; Scenario.scale_question; optional_question] |}.

Definition longer_store : Store :=
  {| surveys := {[ 1%N := longer_survey ]};
     responses := {[ 7%N := Scenario.response ]};
     answers := ∅;
     pools := {[ 1%N := Scenario.full_pool ]};
     transactions := [];
     total_earned := {[ 3%N := 0%float ]};
     next_response_id := 8 |}.

(** The response of the scenario, started nine tenths into a second; an
    instant one second and two tenths after that start; and the tables that
    hold this response. *)
Definition late_start : GoTime.t :=
  {| GoTime.unix := 1000; GoTime.nsec := 900000000; GoTime.offset := 0 |}.

Definition soon_after : GoTime.t :=
  {| GoTime.unix := 1002; GoTime.nsec := 100000000; GoTime.offset := 0 |}.

Definition late_response : Response.t :=
  {| Response.ID := 7; Response.SurveyID := 1; Response.UserID := 3;
     Response.Status := ResponseStatusStarted;
     Response.StartedAt := late_start; Response.CompletedAt := None;
     Response.Duration := 0; Response.IPAddress := "10.0.0.1";
     Response.UserAgent := "agent"; Response.Timezone := "UTC";
     Response.Language := "en"; Response.QualityScore := 0;
     Response.IsValid := true; Response.Survey_ := Survey.zero;
     Response.Answers := []; Response.Transaction := None |}.

Definition late_store : Store :=
  {| surveys := {[ 1%N := Scenario.survey ]};
     responses := {[ 7%N := late_response ]};
     answers := ∅;
     pools := {[ 1%N := Scenario.full_pool ]};
     transactions := [];
     total_earned := {[ 3%N := 0%float ]};
     next_response_id := 8 |}.

(** The survey of the scenario with no estimated duration. *)
Definition untimed_survey : Survey.t :=
  {| Survey.ID := 1; Survey.CreatorID := 2;
     Survey.Status := SurveyStatusPublished; Survey.MaxResponses := 100;
     Survey.RewardPerResponse := 50; Survey.TotalRewardPool := 5000;
     Survey.StartDate := None; Survey.EndDate := None;
     Survey.EstimatedDuration := 0; Survey.RequireLogin := true;
     Survey.AllowMultiple := false; Survey.ResponseCount := 0;
     Survey.Questions := [Scenario.text_question; Scenario.scale_question] |}.

(** The pool of the scenario with two responses left. *)
Definition nearly_spent_pool : RewardPool.t :=
  {| RewardPool.ID := 1; RewardPool.SurveyID := 1;
     RewardPool.TotalAmount := 5000; RewardPool.RewardPerResponse := 50;
     RewardPool.MaxResponses := 100; RewardPool.CurrentResponses := 98;
     RewardPool.PaidOut := 4900; RewardPool.RemainingAmount := 100;
     RewardPool.IsActive := true |}.

End Examples.

(** * Properties *)

(** ** Go's integers *)

Module GoIntFacts.

Lemma incr_below (c m : Z) :
  GoInt.in_range m -> GoInt.min_int <= c -> c < m -> GoInt.incr c = c + 1.
Proof.
  unfold GoInt.in_range, GoInt.incr, GoInt.wrap64, GoInt.min_int, GoInt.max_int.
  intros Hm Hc Hlt.
  rewrite Z.mod_small by lia. lia.
Qed.

Lemma len_cons {A} (x : A) (xs : list A) : GoInt.len (x :: xs) = GoInt.len xs + 1.
Proof. unfold GoInt.len. cbn [length]. lia. Qed.

Lemma len_nonneg {A} (xs : list A) : 0 <= GoInt.len xs.
Proof. unfold GoInt.len. lia. Qed.

End GoIntFacts.

(** ** Binary64 arithmetic *)

(** The kernel's floats are specified by the functions of [SpecFloat]; the
    lemmas below bound what those functions return on numbers far from the
    ends of the exponent range, which is all the program computes with. *)

Module Binary64Facts.

Lemma digits2_pos_bounds (p : positive) :
  2 ^ (Z.pos (digits2_pos p) - 1) <= Z.pos p < 2 ^ Z.pos (digits2_pos p).
Proof.
  induction p as [p IH | p IH |]; cbn [digits2_pos].
  - rewrite Pos2Z.inj_succ. change (Z.pos p~1) with (2 * Z.pos p + 1).
    replace (Z.succ (Z.pos (digits2_pos p)) - 1)
      with (Z.succ (Z.pos (digits2_pos p) - 1)) by lia.
    rewrite !Z.pow_succ_r by lia.
    destruct IH as [IH1 IH2]. revert IH1 IH2.
    generalize (2 ^ (Z.pos (digits2_pos p) - 1))
               (2 ^ Z.pos (digits2_pos p)). lia.
  - rewrite Pos2Z.inj_succ. change (Z.pos p~0) with (2 * Z.pos p).
    replace (Z.succ (Z.pos (digits2_pos p)) - 1)
      with (Z.succ (Z.pos (digits2_pos p) - 1)) by lia.
    rewrite !Z.pow_succ_r by lia.
    destruct IH as [IH1 IH2]. revert IH1 IH2.
    generalize (2 ^ (Z.pos (digits2_pos p) - 1))
               (2 ^ Z.pos (digits2_pos p)). lia.
  - cbn. lia.
Qed.

Lemma Zdigits2_nonneg (x : Z) : 0 <= Zdigits2 x.
Proof. destruct x; cbn; lia. Qed.

Lemma Zdigits2_lt (x : Z) : 0 <= x -> x < 2 ^ Zdigits2 x.
Proof.
  destruct x as [| p | p]; cbn [Zdigits2]; intros H; [cbn; lia | | lia].
  apply digits2_pos_bounds.
Qed.

Lemma Zdigits2_le (x k : Z) : 0 <= k -> 0 <= x < 2 ^ k -> Zdigits2 x <= k.
Proof.
  intros Hk [H0 Hlt]. destruct x as [| p | p]; cbn [Zdigits2]; [lia | | lia].
  destruct (Z.le_gt_cases (Z.pos (digits2_pos p)) k) as [|Hgt]; [assumption |].
  pose proof (digits2_pos_bounds p) as [Hlo _].
  assert (2 ^ k <= 2 ^ (Z.pos (digits2_pos p) - 1))
    by (apply Z.pow_le_mono_r; lia).
  lia.
Qed.

Lemma Zdigits2_mono (x y : Z) : 0 <= x <= y -> Zdigits2 x <= Zdigits2 y.
Proof.
  intros [H0 Hxy]. apply Zdigits2_le; [apply Zdigits2_nonneg |].
  pose proof (Zdigits2_lt y). lia.
Qed.

Lemma Zdigits2_succ (x : Z) : 0 <= x -> Zdigits2 (x + 1) <= Zdigits2 x + 1.
Proof.
  intros H. apply Zdigits2_le; [pose proof (Zdigits2_nonneg x); lia |].
  pose proof (Zdigits2_lt x H).
  rewrite Z.pow_add_r by (try apply Zdigits2_nonneg; lia). lia.
Qed.

Lemma Zdigits2_mul (x y : Z) :
  0 <= x -> 0 <= y -> Zdigits2 (x * y) <= Zdigits2 x + Zdigits2 y.
Proof.
  intros Hx Hy.
  pose proof (Zdigits2_nonneg x). pose proof (Zdigits2_nonneg y).
  apply Zdigits2_le; [lia |].
  pose proof (Zdigits2_lt x Hx). pose proof (Zdigits2_lt y Hy).
  rewrite Z.pow_add_r by lia. split; [nia | nia].
Qed.

(** Dividing by [2 ^ n] takes [n] digits away, unless nothing is left. *)
Lemma Zdigits2_div_pow2 (x n : Z) :
  0 <= x -> 0 <= n -> Zdigits2 (x / 2 ^ n) + n <= Z.max (Zdigits2 x) n.
Proof.
  intros Hx Hn.
  assert (H2n : 0 < 2 ^ n) by (apply Z.pow_pos_nonneg; lia).
  assert (Hq : 0 <= x / 2 ^ n) by (apply Z.div_pos; lia).
  destruct (Z.eq_dec (x / 2 ^ n) 0) as [-> | Hnz]; [cbn; lia |].
  destruct (x / 2 ^ n) as [| q | q] eqn:E; [lia | | lia].
  cbn [Zdigits2].
  pose proof (digits2_pos_bounds q) as [Hlo _].
  pose proof (Zdigits2_lt x Hx) as Hhi.
  assert (Hmul : Z.pos q * 2 ^ n <= x).
  { rewrite <- E. rewrite Z.mul_comm. apply Z.mul_div_le. lia. }
  assert (Hpow : 2 ^ (Z.pos (digits2_pos q) - 1 + n) <= x).
  { rewrite Z.pow_add_r by lia. nia. }
  destruct (Z.le_gt_cases (Z.pos (digits2_pos q) + n) (Zdigits2 x)) as [|Hgt];
    [lia |].
  assert (2 ^ Zdigits2 x <= 2 ^ (Z.pos (digits2_pos q) - 1 + n))
    by (apply Z.pow_le_mono_r; lia).
  lia.
Qed.

(** *** Shifting a mantissa to the right *)

Lemma shr_1_m (mrs : shr_record) :
  0 <= shr_m mrs -> shr_m (shr_1 mrs) = shr_m mrs / 2.
Proof.
  destruct mrs as [m r s]. cbn [shr_m]. intros H.
  destruct m as [| [p | p |] | p]; cbn [shr_1 shr_m]; try lia;
    try reflexivity.
  - change (Z.pos p~1) with (2 * Z.pos p + 1).
    apply Z.div_unique with 1; lia.
  - change (Z.pos p~0) with (2 * Z.pos p).
    apply Z.div_unique with 0; lia.
Qed.

Lemma iter_shr_1_m (n : positive) (mrs : shr_record) :
  0 <= shr_m mrs ->
  shr_m (SpecFloat.iter_pos shr_1 n mrs) = shr_m mrs / 2 ^ Z.pos n.
Proof.
  revert mrs. induction n as [n IH | n IH |]; intros mrs H; cbn [SpecFloat.iter_pos].
  - assert (H1 : 0 <= shr_m (shr_1 mrs))
      by (rewrite shr_1_m by assumption; apply Z.div_pos; lia).
    assert (H2 : 0 <= shr_m (SpecFloat.iter_pos shr_1 n (shr_1 mrs)))
      by (rewrite IH by assumption; apply Z.div_pos;
          [assumption | apply Z.pow_pos_nonneg; lia]).
    rewrite IH, IH, shr_1_m by assumption.
    rewrite !Z.div_div by (try apply Z.pow_pos_nonneg; lia).
    f_equal. change (Z.pos n~1) with (2 * Z.pos n + 1).
    rewrite Z.pow_add_r, Z.pow_mul_r by lia.
    change (2 ^ 2) with 4. rewrite Z.pow_1_r.
    replace (4 ^ Z.pos n) with (2 ^ Z.pos n * 2 ^ Z.pos n); [lia |].
    rewrite <- Z.pow_mul_l. reflexivity.
  - assert (H2 : 0 <= shr_m (SpecFloat.iter_pos shr_1 n mrs))
      by (rewrite IH by assumption; apply Z.div_pos;
          [assumption | apply Z.pow_pos_nonneg; lia]).
    rewrite IH, IH by assumption.
    rewrite !Z.div_div by (try apply Z.pow_pos_nonneg; lia).
    f_equal. change (Z.pos n~0) with (2 * Z.pos n).
    rewrite Z.pow_mul_r by lia. change (2 ^ 2) with 4.
    rewrite <- Z.pow_mul_l. reflexivity.
  - rewrite shr_1_m by assumption. reflexivity.
Qed.

Lemma shr_record_of_loc_m (m : Z) (l : location) :
  shr_m (shr_record_of_loc m l) = m.
Proof. destruct l as [| []]; reflexivity. Qed.

(** What [shr_fexp] returns for a mantissa that is not negative: a mantissa
    that is not negative, an exponent that did not go down and is the
    canonical one at most, and no more magnitude than before. *)
Lemma shr_fexp_spec (m e : Z) (l : location) :
  0 <= m ->
  let '(mrs, e') := shr_fexp prec emax m e l in
  0 <= shr_m mrs <= m
  /\ e <= e' <= Z.max e (fexp prec emax (Zdigits2 m + e))
  /\ Zdigits2 (shr_m mrs) + e' <= Z.max (Zdigits2 m + e) e'.
Proof.
  intros Hm. unfold shr_fexp, shr.
  destruct (fexp prec emax (Zdigits2 m + e) - e) as [| n | n] eqn:En.
  - rewrite shr_record_of_loc_m. lia.
  - rewrite iter_shr_1_m by (rewrite shr_record_of_loc_m; assumption).
    rewrite shr_record_of_loc_m.
    assert (H2n : 0 < 2 ^ Z.pos n) by (apply Z.pow_pos_nonneg; lia).
    pose proof (Zdigits2_div_pow2 m (Z.pos n) Hm ltac:(lia)).
    assert (0 <= m / 2 ^ Z.pos n) by (apply Z.div_pos; lia).
    assert (m / 2 ^ Z.pos n <= m)
      by (apply Z.div_le_upper_bound; [lia | nia]).
    lia.
  - rewrite shr_record_of_loc_m. lia.
Qed.

Lemma round_nearest_even_spec (m : Z) (l : location) :
  m <= round_nearest_even m l <= m + 1.
Proof.
  unfold round_nearest_even.
  destruct l as [| []]; try destruct (Z.even m); lia.
Qed.

(** *** Rounding *)

Lemma fexp_eq (x : Z) : fexp prec emax x = Z.max (x - 53) (-1074).
Proof. reflexivity. Qed.

(** Rounding a mantissa that is not negative, of magnitude [B] at most, well
    inside the exponent range: the result is a zero or a finite number of the
    given sign, of magnitude [B + 1] at most, and its exponent did not go
    down. *)
Lemma binary_round_aux_small (s : bool) (mx e : Z) (l : location) (B : Z) :
  0 <= mx -> Zdigits2 mx + e <= B -> -1074 <= B <= 970 ->
  match binary_round_aux prec emax s mx e l with
  | S754_zero s' => s' = s
  | S754_finite s' m e' =>
      s' = s /\ Z.pos (digits2_pos m) + e' <= B + 1 /\ e <= e'
  | S754_infinity _ | S754_nan => False
  end.
Proof.
  intros Hm Hmag HB. unfold binary_round_aux.
  pose proof (Zdigits2_nonneg mx) as Hd.
  pose proof (shr_fexp_spec mx e l Hm) as H1.
  destruct (shr_fexp prec emax mx e l) as [mrs' e'].
  destruct H1 as ([Hm'0 Hm'] & [He' He'up] & Hmag').
  pose proof (round_nearest_even_spec (shr_m mrs') (loc_of_shr_record mrs'))
    as [Hr1 Hr2].
  set (m1 := round_nearest_even (shr_m mrs') (loc_of_shr_record mrs')) in *.
  assert (Hm1 : 0 <= m1) by lia.
  assert (Hd1 : Zdigits2 m1 <= Zdigits2 (shr_m mrs') + 1).
  { etransitivity; [apply Zdigits2_mono; split; [exact Hm1 | exact Hr2] |].
    now apply Zdigits2_succ. }
  pose proof (shr_fexp_spec m1 e' loc_Exact Hm1) as H2.
  destruct (shr_fexp prec emax m1 e' loc_Exact) as [mrs'' e''].
  destruct H2 as ([Hm''0 Hm''] & [He'' He''up] & Hmag'').
  rewrite fexp_eq in *.
  destruct (shr_m mrs'') as [| m | m] eqn:Em; [reflexivity | | lia].
  cbn [Zdigits2] in Hmag''.
  assert (Hle : (e'' <=? emax - prec) = true).
  { apply Z.leb_le. change (emax - prec) with 971. lia. }
  rewrite Hle. repeat split; lia.
Qed.

(** The sign of a rounded number is the sign that was asked for. *)
Lemma binary_round_aux_sign (s : bool) (mx e : Z) (l : location) :
  match binary_round_aux prec emax s mx e l with
  | S754_zero s' | S754_infinity s' | S754_finite s' _ _ => s' = s
  | S754_nan => True
  end.
Proof.
  unfold binary_round_aux.
  destruct (shr_fexp prec emax mx e l) as [mrs' e'].
  destruct (shr_fexp prec emax _ e' loc_Exact) as [mrs'' e''].
  destruct (shr_m mrs''); [reflexivity | | exact I].
  destruct (_ <=? _); reflexivity.
Qed.

(** *** Shifting a mantissa to the left *)

Lemma Pos_iter_xO (m d : positive) :
  Z.pos (Pos.iter xO m d) = Z.pos m * 2 ^ Z.pos d.
Proof.
  induction d as [| d IH] using Pos.peano_ind.
  - cbn. lia.
  - rewrite Pos.iter_succ, Pos2Z.inj_succ, Z.pow_succ_r by lia.
    change (Z.pos (Pos.iter xO m d)~0) with (2 * Z.pos (Pos.iter xO m d)).
    rewrite IH. lia.
Qed.

Lemma shl_align_spec (mx : positive) (ex ex' : Z) :
  let '(mz, ez) := shl_align mx ex ex' in
  ez = Z.min ex ex' /\ Z.pos mz = Z.pos mx * 2 ^ (ex - ez).
Proof.
  unfold shl_align. destruct (ex' - ex) as [| d | d] eqn:E.
  - split; [lia |]. rewrite Z.sub_diag. cbn. lia.
  - split; [lia |]. rewrite Z.sub_diag. cbn. lia.
  - split; [lia |]. rewrite Pos_iter_xO. f_equal. f_equal. lia.
Qed.

Lemma Zdigits2_shl (m k : Z) :
  0 <= m -> 0 <= k -> Zdigits2 (m * 2 ^ k) <= Zdigits2 m + k.
Proof.
  intros Hm Hk. pose proof (Zdigits2_nonneg m).
  assert (0 < 2 ^ k) by (apply Z.pow_pos_nonneg; lia).
  apply Zdigits2_le; [lia |].
  pose proof (Zdigits2_lt m Hm).
  rewrite Z.pow_add_r by lia. split; nia.
Qed.

Lemma binary_round_small (s : bool) (m : positive) (e B : Z) :
  Z.pos (digits2_pos m) + e <= B -> -1074 <= B <= 970 ->
  match binary_round prec emax s m e with
  | S754_zero s' => s' = s
  | S754_finite s' m' e' =>
      s' = s /\ Z.pos (digits2_pos m') + e' <= B + 1
      /\ Z.min e (fexp prec emax (Z.pos (digits2_pos m) + e)) <= e'
  | S754_infinity _ | S754_nan => False
  end.
Proof.
  intros Hmag HB. unfold binary_round.
  pose proof (shl_align_spec m e (fexp prec emax (Z.pos (digits2_pos m) + e)))
    as H.
  destruct (shl_align m e _) as [mz ez]. destruct H as [Hez Hmz].
  assert (Hd : Zdigits2 (Z.pos mz) + ez <= B).
  { rewrite Hmz.
    pose proof (Zdigits2_shl (Z.pos m) (e - ez) ltac:(lia) ltac:(lia)).
    cbn [Zdigits2] in *. lia. }
  pose proof (binary_round_aux_small s (Z.pos mz) ez loc_Exact B
                ltac:(lia) Hd HB) as H.
  destruct (binary_round_aux prec emax s (Z.pos mz) ez loc_Exact);
    try exact H.
  destruct H as (? & ? & ?). repeat split; try assumption. lia.
Qed.

Lemma binary_normalize_small (m e B : Z) (szero : bool) :
  Zdigits2 m + e <= B -> -1074 <= B <= 970 ->
  SFsmall (B + 1) (binary_normalize prec emax m e szero).
Proof.
  intros Hmag HB. destruct m as [| p | p]; cbn [binary_normalize Zdigits2] in *.
  - exact I.
  - pose proof (binary_round_small false p e B Hmag HB) as H.
    destruct (binary_round prec emax false p e); cbn; try exact H; tauto.
  - pose proof (binary_round_small true p e B Hmag HB) as H.
    destruct (binary_round prec emax true p e); cbn; try exact H; tauto.
Qed.

(** *** The operations on small numbers *)

Lemma SFsmall_weaken (B B' : Z) (x : spec_float) :
  B <= B' -> SFsmall B x -> SFsmall B' x.
Proof. destruct x; cbn; auto; lia. Qed.

Lemma SFmul_small (B1 B2 : Z) (x y : spec_float) :
  SFsmall B1 x -> SFsmall B2 y -> -1074 <= B1 + B2 <= 970 ->
  SFsmall (B1 + B2 + 1) (SF64mul x y).
Proof.
  intros Hx Hy HB.
  destruct x as [sx | sx | | sx mx ex], y as [sy | sy | | sy my ey];
    cbn in Hx, Hy |- *; try tauto.
  pose proof (Zdigits2_mul (Z.pos mx) (Z.pos my) ltac:(lia) ltac:(lia)) as Hd.
  change (Z.pos mx * Z.pos my) with (Z.pos (mx * my)) in Hd.
  cbn [Zdigits2] in Hd.
  pose proof (binary_round_aux_small (xorb sx sy) (Z.pos (mx * my)) (ex + ey)
                loc_Exact (B1 + B2) ltac:(lia)
                ltac:(cbn [Zdigits2]; lia) HB) as H.
  destruct (binary_round_aux _ _ _ _ _ _); cbn; try exact H; tauto.
Qed.

Lemma SFdiv_small (B L : Z) (x : spec_float) (sy : bool) (my : positive)
    (ey : Z) :
  SFsmall B x -> L <= ey -> -1074 <= B - L <= 970 ->
  SFsmall (B - L + 1) (SF64div x (S754_finite sy my ey)).
Proof.
  intros Hx HL HB.
  destruct x as [sx | sx | | sx mx ex]; cbn in Hx |- *; try tauto.
  unfold SFdiv_core_binary.
  set (e' := Z.min _ _).
  set (m' := match ex - ey - e' with
             | 0 => Z.pos mx
             | Z.pos _ => Z.shiftl (Z.pos mx) (ex - ey - e')
             | Z.neg _ => 0
             end).
  assert (He' : e' <= ex - ey) by (subst e'; lia).
  assert (Hm' : 0 <= m' /\ Zdigits2 m' <= Z.pos (digits2_pos mx) + (ex - ey - e')).
  { subst m'. destruct (ex - ey - e') as [| p | p] eqn:E; [cbn; lia | | lia].
    rewrite Z.shiftl_mul_pow2 by lia.
    pose proof (Zdigits2_shl (Z.pos mx) (Z.pos p) ltac:(lia) ltac:(lia)).
    cbn [Zdigits2] in *.
    assert (0 < 2 ^ Z.pos p) by (apply Z.pow_pos_nonneg; lia).
    split; [nia | lia]. }
  destruct Hm' as [Hm'0 Hm'd].
  destruct (Z.div_eucl m' (Z.pos my)) as [q r] eqn:Eq.
  assert (Hq : q = m' / Z.pos my) by (unfold Z.div; now rewrite Eq).
  assert (Hq0 : 0 <= q) by (subst q; apply Z.div_pos; lia).
  assert (Hqm : q <= m')
    by (subst q; apply Z.div_le_upper_bound; [lia | nia]).
  pose proof (Zdigits2_mono q m' ltac:(lia)) as Hdq.
  pose proof (binary_round_aux_small (xorb sx sy) q e'
                (new_location (Z.pos my) r) (B - L) Hq0 ltac:(lia) HB) as H.
  destruct (binary_round_aux _ _ _ _ _ _); cbn; try exact H; tauto.
Qed.

Lemma Zdigits2_abs (x : Z) : Zdigits2 x = Zdigits2 (Z.abs x).
Proof. destruct x; reflexivity. Qed.

Lemma cond_Zopp_abs (b : bool) (m : Z) : Z.abs (cond_Zopp b m) = Z.abs m.
Proof. destruct b; cbn; lia. Qed.

(** The aligned mantissas of a sum or a difference. *)
Lemma aligned_small (op : Z -> Z -> Z) (sx sy : bool) (mx my : positive)
    (ex ey B1 B2 : Z) :
  (forall a b, Z.abs (op a b) <= Z.abs a + Z.abs b) ->
  Z.pos (digits2_pos mx) + ex <= B1 ->
  Z.pos (digits2_pos my) + ey <= B2 ->
  let ez := Z.min ex ey in
  Zdigits2 (op (cond_Zopp sx (Z.pos (fst (shl_align mx ex ez))))
               (cond_Zopp sy (Z.pos (fst (shl_align my ey ez))))) + ez
  <= Z.max B1 B2 + 1.
Proof.
  intros Hop Hx Hy ez.
  pose proof (shl_align_spec mx ex ez) as H1.
  pose proof (shl_align_spec my ey ez) as H2.
  destruct (shl_align mx ex ez) as [mx' ex'], (shl_align my ey ez) as [my' ey'].
  cbn [fst]. destruct H1 as [-> H1], H2 as [-> H2].
  replace (Z.min ex ez) with ez in H1 by lia.
  replace (Z.min ey ez) with ez in H2 by lia.
  set (M := op _ _). rewrite Zdigits2_abs.
  assert (HM : Z.abs M <= Z.pos mx' + Z.pos my').
  { subst M. etransitivity; [apply Hop |]. rewrite !cond_Zopp_abs. lia. }
  pose proof (digits2_pos_bounds mx) as [_ Hbx].
  pose proof (digits2_pos_bounds my) as [_ Hby].
  set (K := Z.max B1 B2 + 1 - ez).
  assert (HK : 0 <= K) by (subst K; lia).
  assert (Hpx : Z.pos mx' < 2 ^ (K - 1)).
  { rewrite H1.
    apply Z.lt_le_trans with (2 ^ Z.pos (digits2_pos mx) * 2 ^ (ex - ez)).
    - assert (0 < 2 ^ (ex - ez)) by (apply Z.pow_pos_nonneg; lia). nia.
    - rewrite <- Z.pow_add_r by lia. apply Z.pow_le_mono_r; subst K; lia. }
  assert (Hpy : Z.pos my' < 2 ^ (K - 1)).
  { rewrite H2.
    apply Z.lt_le_trans with (2 ^ Z.pos (digits2_pos my) * 2 ^ (ey - ez)).
    - assert (0 < 2 ^ (ey - ez)) by (apply Z.pow_pos_nonneg; lia). nia.
    - rewrite <- Z.pow_add_r by lia. apply Z.pow_le_mono_r; subst K; lia. }
  assert (HK1 : 1 <= K) by (subst K; lia).
  assert (Hpow : 2 ^ K = 2 * 2 ^ (K - 1)).
  { replace K with (Z.succ (K - 1)) at 1 by lia. apply Z.pow_succ_r. lia. }
  assert (Zdigits2 (Z.abs M) <= K)
    by (apply Zdigits2_le; [lia | lia]).
  subst K. lia.
Qed.

Lemma SFsub_small (B1 B2 : Z) (x y : spec_float) :
  SFsmall B1 x -> SFsmall B2 y -> -1074 <= Z.max B1 B2 + 1 <= 970 ->
  SFsmall (Z.max B1 B2 + 2) (SF64sub x y).
Proof.
  intros Hx Hy HB.
  destruct x as [sx | sx | | sx mx ex], y as [sy | sy | | sy my ey];
    cbn in Hx, Hy |- *; try tauto.
  - destruct sx, sy; exact I.
  - lia.
  - lia.
  - replace (Z.max B1 B2 + 2) with (Z.max B1 B2 + 1 + 1) by lia.
    apply binary_normalize_small; [| exact HB].
    apply (aligned_small Z.sub); [intros; lia | assumption | assumption].
Qed.

(** *** Numbers that do not round to zero *)

Lemma Zdigits2_ge (x j : Z) : 2 ^ (j - 1) <= x -> 1 <= j -> j <= Zdigits2 x.
Proof.
  intros Hx Hj.
  assert (0 < 2 ^ (j - 1)) by (apply Z.pow_pos_nonneg; lia).
  pose proof (Zdigits2_lt x ltac:(lia)) as Hlt.
  pose proof (Zdigits2_nonneg x).
  destruct (Z.le_gt_cases j (Zdigits2 x)) as [| Hgt]; [assumption |].
  assert (2 ^ Zdigits2 x <= 2 ^ (j - 1)) by (apply Z.pow_le_mono_r; lia).
  lia.
Qed.

Lemma Zdigits2_low (x : Z) : 0 < x -> 2 ^ (Zdigits2 x - 1) <= x.
Proof.
  destruct x as [| p | p]; [lia | | lia]. intros _. cbn [Zdigits2].
  apply digits2_pos_bounds.
Qed.

(** Dividing by [2 ^ k] with [k] below the number of digits leaves a positive
    number with [k] digits less, at least. *)
Lemma div_pow2_pos (m k : Z) :
  0 < m -> 0 <= k <= Zdigits2 m - 1 ->
  0 < m / 2 ^ k /\ Zdigits2 m - k <= Zdigits2 (m / 2 ^ k).
Proof.
  intros Hm Hk.
  assert (H2k : 0 < 2 ^ k) by (apply Z.pow_pos_nonneg; lia).
  pose proof (Zdigits2_low m Hm) as Hlow.
  assert (Hq : 2 ^ (Zdigits2 m - k - 1) <= m / 2 ^ k).
  { apply Z.div_le_lower_bound; [lia |].
    rewrite <- Z.pow_add_r by lia.
    replace (k + (Zdigits2 m - k - 1)) with (Zdigits2 m - 1) by lia.
    exact Hlow. }
  assert (0 < 2 ^ (Zdigits2 m - k - 1)) by (apply Z.pow_pos_nonneg; lia).
  split; [lia |]. apply Zdigits2_ge; [exact Hq | lia].
Qed.

Lemma shr_fexp_exact (m e : Z) (l : location) :
  0 <= m ->
  let k := Z.max 0 (fexp prec emax (Zdigits2 m + e) - e) in
  let '(mrs, e') := shr_fexp prec emax m e l in
  shr_m mrs = m / 2 ^ k /\ e' = e + k.
Proof.
  intros Hm. unfold shr_fexp, shr.
  destruct (fexp prec emax (Zdigits2 m + e) - e) as [| n | n] eqn:En;
    cbn [Z.max Z.compare].
  - rewrite shr_record_of_loc_m, Z.div_1_r. lia.
  - rewrite iter_shr_1_m by (rewrite shr_record_of_loc_m; assumption).
    rewrite shr_record_of_loc_m. replace (Z.max 0 (Z.pos n)) with (Z.pos n) by lia.
    lia.
  - rewrite shr_record_of_loc_m.
    replace (Z.max 0 (Z.neg n)) with 0 by lia.
    rewrite Z.div_1_r. lia.
Qed.

Lemma binary_round_aux_nonzero (s : bool) (mx e : Z) (l : location) :
  0 < mx -> -1021 <= Zdigits2 mx + e ->
  forall s', binary_round_aux prec emax s mx e l <> S754_zero s'.
Proof.
  intros Hm Hmag s'. unfold binary_round_aux.
  pose proof (Zdigits2_low mx Hm) as Hlow.
  assert (Hd : 1 <= Zdigits2 mx) by (apply Zdigits2_ge; [cbn; lia | lia]).
  pose proof (shr_fexp_exact mx e l ltac:(lia)) as H1. cbv zeta in H1.
  destruct (shr_fexp prec emax mx e l) as [mrs' e']. destruct H1 as [Hm' He'].
  rewrite fexp_eq in *.
  set (k1 := Z.max 0 (Z.max (Zdigits2 mx + e - 53) (-1074) - e)) in *.
  destruct (div_pow2_pos mx k1 Hm ltac:(lia)) as [Hpos1 Hdig1].
  rewrite <- Hm' in Hpos1, Hdig1.
  pose proof (round_nearest_even_spec (shr_m mrs') (loc_of_shr_record mrs'))
    as [Hr1 Hr2].
  set (m1 := round_nearest_even (shr_m mrs') (loc_of_shr_record mrs')) in *.
  assert (Hm1 : 0 < m1) by lia.
  assert (Hd1 : Zdigits2 (shr_m mrs') <= Zdigits2 m1)
    by (apply Zdigits2_mono; lia).
  pose proof (shr_fexp_exact m1 e' loc_Exact ltac:(lia)) as H2. cbv zeta in H2.
  destruct (shr_fexp prec emax m1 e' loc_Exact) as [mrs'' e''].
  destruct H2 as [Hm'' He'']. rewrite fexp_eq in *.
  set (k2 := Z.max 0 (Z.max (Zdigits2 m1 + e' - 53) (-1074) - e')) in *.
  assert (Hd1' : 1 <= Zdigits2 m1).
  { pose proof (Zdigits2_low m1 Hm1).
    apply Zdigits2_ge; [cbn; lia | lia]. }
  destruct (div_pow2_pos m1 k2 Hm1 ltac:(lia)) as [Hpos2 _].
  rewrite <- Hm'' in Hpos2.
  destruct (shr_m mrs'') as [| m | m]; [lia | | lia].
  destruct (_ <=? _); discriminate.
Qed.

(** *** Conversion from an [int] *)

Lemma of_int_spec (z : Z) :
  0 <= z <= GoInt.max_int ->
  Prim2SF (GoFloat.of_int z) = binary_normalize prec emax z 0 false.
Proof.
  intros Hz. unfold GoFloat.of_int.
  replace (0 <=? z) with true by (symmetry; apply Z.leb_le; lia).
  rewrite of_uint63_spec, Uint63.of_Z_spec.
  rewrite Z.mod_small; [reflexivity |].
  unfold GoInt.max_int in Hz. change Uint63.wB with (2 ^ 63). lia.
Qed.

Lemma of_int_small (z : Z) :
  0 <= z <= GoInt.max_int -> SFsmall 64 (Prim2SF (GoFloat.of_int z)).
Proof.
  intros Hz. rewrite of_int_spec by assumption.
  apply (binary_normalize_small z 0 63); [| lia].
  unfold GoInt.max_int in Hz.
  pose proof (Zdigits2_le z 63 ltac:(lia) ltac:(lia)). lia.
Qed.

Lemma of_int_positive (z : Z) :
  1 <= z <= GoInt.max_int ->
  exists m e, Prim2SF (GoFloat.of_int z) = S754_finite false m e /\ -52 <= e.
Proof.
  intros Hz. rewrite of_int_spec by lia.
  destruct z as [| p | p]; [lia | | lia]. cbn [binary_normalize].
  unfold GoInt.max_int in Hz.
  pose proof (Zdigits2_le (Z.pos p) 63 ltac:(lia) ltac:(lia)) as Hd.
  cbn [Zdigits2] in Hd.
  pose proof (binary_round_small false p 0 63 ltac:(lia) ltac:(lia)) as Hsmall.
  assert (Hnz : forall s', binary_round prec emax false p 0 <> S754_zero s').
  { unfold binary_round.
    pose proof (shl_align_spec p 0 (fexp prec emax (Z.pos (digits2_pos p) + 0)))
      as H.
    destruct (shl_align p 0 _) as [mz ez]. destruct H as [Hez _].
    rewrite fexp_eq in Hez.
    apply binary_round_aux_nonzero; [lia |].
    assert (1 <= Zdigits2 (Z.pos mz)) by (cbn [Zdigits2]; lia). lia. }
  destruct (binary_round prec emax false p 0) as [s' | | | s' m e];
    [now elim (Hnz s') | contradiction | contradiction |].
  destruct Hsmall as (-> & _ & He). exists m, e. split; [reflexivity |].
  rewrite fexp_eq in He. lia.
Qed.

(** *** Comparisons *)

Lemma SFcompare_antisym (x y : spec_float) :
  SFcompare y x = option_map CompOpp (SFcompare x y).
Proof.
  destruct x as [sx | sx | | sx mx ex], y as [sy | sy | | sy my ey];
    try destruct sx; try destruct sy; try reflexivity;
    cbn [SFcompare option_map]; f_equal;
    rewrite (Z.compare_antisym ex ey);
    destruct (ex ?= ey); cbn [CompOpp]; try reflexivity;
    try f_equal; symmetry; exact (Pos.compare_cont_antisym mx my Eq).
Qed.

Lemma SFcompare_defined (x y : spec_float) :
  x <> S754_nan -> y <> S754_nan -> exists c, SFcompare x y = Some c.
Proof.
  intros Hx Hy.
  destruct x as [sx | sx | | sx mx ex], y as [sy | sy | | sy my ey];
    try congruence; cbn [SFcompare]; eauto.
Qed.

(** For numbers, "not less" is "greater or equal". *)
Lemma not_ltb_leb (x y : float) :
  Prim2SF x <> S754_nan -> Prim2SF y <> S754_nan ->
  (x <? y)%float = false -> (y <=? x)%float = true.
Proof.
  intros Hx Hy. rewrite ltb_spec, leb_spec. unfold SFltb, SFleb.
  rewrite (SFcompare_antisym (Prim2SF x) (Prim2SF y)).
  destruct (SFcompare_defined _ _ Hx Hy) as [c ->].
  destruct c; cbn; congruence.
Qed.

Lemma SFsmall_not_nan (B : Z) (x : spec_float) : SFsmall B x -> x <> S754_nan.
Proof. destruct x; cbn; congruence || tauto. Qed.

(** The clamp brings every number into the range; a NaN goes through. *)
Lemma clamp_score_range (score : float) :
  Prim2SF score <> S754_nan ->
  GoFloat.between 0 5 (responseService.clamp_score score) = true.
Proof.
  intros Hnan. unfold responseService.clamp_score, GoFloat.between.
  destruct (score <? 0)%float eqn:Hneg; [vm_compute; reflexivity |].
  destruct (5 <? score)%float eqn:Hbig; [vm_compute; reflexivity |].
  rewrite (not_ltb_leb score 0 Hnan ltac:(vm_compute; discriminate) Hneg).
  rewrite (not_ltb_leb 5 score ltac:(vm_compute; discriminate) Hnan Hbig).
  reflexivity.
Qed.

Lemma clamp_score_nan (score : float) :
  Prim2SF score = S754_nan ->
  Prim2SF (responseService.clamp_score score) = S754_nan.
Proof.
  intros Hnan. unfold responseService.clamp_score.
  assert (H1 : (score <? 0)%float = false)
    by (rewrite ltb_spec, Hnan; reflexivity).
  rewrite H1.
  assert (H2 : (5 <? score)%float = false).
  { rewrite ltb_spec, Hnan. unfold SFltb.
    destruct (Prim2SF 5) as [| | |]; reflexivity. }
  now rewrite H2.
Qed.

(** *** The operations of the program on small numbers *)

Lemma mul_small (B1 B2 B : Z) (x y : float) :
  small B1 x -> small B2 y -> -1074 <= B1 + B2 <= 970 -> B1 + B2 + 1 <= B ->
  small B (x * y)%float.
Proof.
  intros Hx Hy HB Hle. unfold small. rewrite mul_spec.
  eapply SFsmall_weaken; [exact Hle |]. now apply SFmul_small.
Qed.

Lemma div_small (B0 L B : Z) (x y : float) :
  small B0 x ->
  (exists m e, Prim2SF y = S754_finite false m e /\ L <= e) ->
  -1074 <= B0 - L <= 970 -> B0 - L + 1 <= B ->
  small B (x / y)%float.
Proof.
  intros Hx (m & e & Hy & He) HB Hle. unfold small. rewrite div_spec, Hy.
  eapply SFsmall_weaken; [exact Hle |]. now apply SFdiv_small.
Qed.

Lemma sub_small (B1 B2 B : Z) (x y : float) :
  small B1 x -> small B2 y -> -1074 <= Z.max B1 B2 + 1 <= 970 ->
  Z.max B1 B2 + 2 <= B ->
  small B (x - y)%float.
Proof.
  intros Hx Hy HB Hle. unfold small. rewrite sub_spec.
  eapply SFsmall_weaken; [exact Hle |]. now apply SFsub_small.
Qed.

(** *** Signs, floors and integer parts *)

Lemma binary_round_aux_not_negative (mx e : Z) (l : location) :
  SFnot_negative (binary_round_aux prec emax false mx e l).
Proof.
  pose proof (binary_round_aux_sign false mx e l) as H.
  destruct (binary_round_aux prec emax false mx e l) as [| s | | s m e'];
    cbn; try exact I; now rewrite H.
Qed.

Lemma SFmul_not_negative (x y : spec_float) :
  SFnot_negative x -> SFnot_negative y -> SFnot_negative (SF64mul x y).
Proof.
  destruct x as [sx | [|] | | [|] mx ex], y as [sy | [|] | | [|] my ey];
    cbn; try tauto.
  intros _ _. apply binary_round_aux_not_negative.
Qed.

Lemma SFdiv_five_not_negative (x : spec_float) :
  SFnot_negative x -> SFnot_negative (SF64div x (Prim2SF 5)).
Proof.
  change (Prim2SF 5) with (S754_finite false 5629499534213120 (-50)).
  destruct x as [sx | [|] | | [|] mx ex]; cbn [SFnot_negative]; try tauto;
    intros _; unfold SF64div, SFdiv; cbn [xorb]; try exact I.
  destruct (SFdiv_core_binary _ _ _ _ _ _) as [[mz ez] lz].
  apply binary_round_aux_not_negative.
Qed.

Lemma of_int_not_negative (z : Z) :
  0 <= z <= GoInt.max_int -> SFnot_negative (Prim2SF (GoFloat.of_int z)).
Proof.
  intros Hz. rewrite of_int_spec by assumption.
  destruct z as [| p | p]; [exact I | | lia]. cbn [binary_normalize].
  unfold binary_round. destruct (shl_align _ _ _) as [mz ez].
  apply binary_round_aux_not_negative.
Qed.

Lemma leb_zero_not_negative (x : float) :
  (0 <=? x)%float = true -> SFnot_negative (Prim2SF x).
Proof.
  rewrite leb_spec. change (Prim2SF 0) with (S754_zero false).
  destruct (Prim2SF x) as [s | [|] | | [|] m e]; cbn; try tauto; discriminate.
Qed.

(** A whole number below [2 ^ k], as a binary64 number. *)
Lemma of_int_small_below (z k : Z) :
  0 <= k <= 62 -> 0 <= z < 2 ^ k -> small (k + 1) (GoFloat.of_int z).
Proof.
  intros Hk Hz.
  assert (2 ^ k <= 2 ^ 62) by (apply Z.pow_le_mono_r; lia).
  unfold small. rewrite of_int_spec by (unfold GoInt.max_int; lia).
  apply (binary_normalize_small z 0 k); [| lia].
  pose proof (Zdigits2_le z k ltac:(lia) Hz). lia.
Qed.

(** A number between 0 and 5 is below [2 ^ 3] and is not negative. *)
Lemma between_0_5_small (q : float) :
  GoFloat.between 0 5 q = true ->
  small 3 q /\ SFnot_negative (Prim2SF q).
Proof.
  unfold GoFloat.between. intros H. apply andb_prop in H as [H0 H5].
  pose proof (leb_zero_not_negative q H0) as Hsign.
  split; [| exact Hsign].
  unfold small. pose proof (Prim2SF_valid q) as Hvalid.
  rewrite leb_spec in H5.
  change (Prim2SF 5) with (S754_finite false 5629499534213120 (-50)) in H5.
  destruct (Prim2SF q) as [s | [|] | | [|] m e]; cbn [SFnot_negative] in Hsign;
    cbn [SFsmall]; try tauto; try discriminate.
  cbn [valid_binary] in Hvalid. unfold bounded, canonical_mantissa in Hvalid.
  apply andb_prop in Hvalid as [Hcan _]. apply Z.eqb_eq in Hcan.
  rewrite fexp_eq in Hcan.
  unfold SFleb in H5. cbn [SFcompare] in H5.
  destruct (e ?= -50) eqn:Hc; try discriminate.
  - apply Z.compare_eq in Hc. lia.
  - rewrite Z.compare_lt_iff in Hc. lia.
Qed.

(** Dividing by a number of full mantissa: the magnitude goes down by the
    magnitude of the divisor, up to rounding. *)
Lemma SFdiv_small_tight (B D : Z) (x : spec_float) (sy : bool) (my : positive)
    (ey : Z) :
  SFsmall B x -> D <= Z.pos (digits2_pos my) + ey ->
  -1074 <= B - D + 1 <= 970 ->
  SFsmall (B - D + 2) (SF64div x (S754_finite sy my ey)).
Proof.
  intros Hx HD HB.
  destruct x as [sx | sx | | sx mx ex]; cbn in Hx |- *; try tauto.
  unfold SFdiv_core_binary.
  set (e' := Z.min _ _).
  set (m' := match ex - ey - e' with
             | 0 => Z.pos mx
             | Z.pos _ => Z.shiftl (Z.pos mx) (ex - ey - e')
             | Z.neg _ => 0
             end).
  assert (He' : e' <= ex - ey) by (subst e'; lia).
  assert (He'2 : e' <= Z.max (Z.pos (digits2_pos mx) + ex
                              - (Z.pos (digits2_pos my) + ey) - 53) (-1074)).
  { subst e'. cbn [Zdigits2]. rewrite fexp_eq. lia. }
  assert (Hm' : 0 <= m' /\ Zdigits2 m' <= Z.pos (digits2_pos mx) + (ex - ey - e')).
  { subst m'. destruct (ex - ey - e') as [| p | p] eqn:E; [cbn; lia | | lia].
    rewrite Z.shiftl_mul_pow2 by lia.
    pose proof (Zdigits2_shl (Z.pos mx) (Z.pos p) ltac:(lia) ltac:(lia)).
    cbn [Zdigits2] in *.
    assert (0 < 2 ^ Z.pos p) by (apply Z.pow_pos_nonneg; lia).
    split; [nia | lia]. }
  destruct Hm' as [Hm'0 Hm'd].
  destruct (Z.div_eucl m' (Z.pos my)) as [q r] eqn:Eq.
  assert (Hq : q = m' / Z.pos my) by (unfold Z.div; now rewrite Eq).
  assert (Hq0 : 0 <= q) by (subst q; apply Z.div_pos; lia).
  set (dy := Z.pos (digits2_pos my)) in *.
  assert (Hdq : Zdigits2 q + (dy - 1) <= Z.max (Zdigits2 m') (dy - 1)).
  { pose proof (digits2_pos_bounds my) as [Hlow _]. fold dy in Hlow.
    assert (H2 : 0 < 2 ^ (dy - 1)) by (apply Z.pow_pos_nonneg; subst dy; lia).
    pose proof (Zdigits2_div_pow2 m' (dy - 1) Hm'0 ltac:(subst dy; lia)) as H.
    assert (Hle : q <= m' / 2 ^ (dy - 1)).
    { subst q. apply Z.div_le_compat_l; lia. }
    assert (0 <= m' / 2 ^ (dy - 1)) by (apply Z.div_pos; lia).
    pose proof (Zdigits2_mono q (m' / 2 ^ (dy - 1)) ltac:(lia)). lia. }
  pose proof (Zdigits2_nonneg q).
  pose proof (binary_round_aux_small (xorb sx sy) q e'
                (new_location (Z.pos my) r) (B - D + 1) Hq0 ltac:(lia) HB) as H1.
  replace (B - D + 2) with (B - D + 1 + 1) by lia.
  destruct (binary_round_aux _ _ _ _ _ _); cbn; try exact H1; tauto.
Qed.

(** A number that is not negative and is below [2 ^ 63] has the same floor
    and integer part, and they fit an [int]. *)
Lemma floor_to_int (x : float) :
  small 63 x -> SFnot_negative (Prim2SF x) ->
  GoFloat.floor x = Some (GoFloat.to_int x) /\ 0 <= GoFloat.to_int x.
Proof.
  unfold small, GoFloat.floor, GoFloat.to_int. intros Hsmall Hsign.
  destruct (Prim2SF x) as [s | [|] | | [|] m e]; cbn in Hsign, Hsmall;
    try tauto.
  - cbn. auto with zarith.
  - cbn [GoFloat.SFtrunc GoFloat.SFfloor].
    set (v := if 0 <=? e then Z.pos m * 2 ^ e else Z.pos m / 2 ^ (- e)).
    assert (Hv : 0 <= v < 2 ^ 63).
    { pose proof (digits2_pos_bounds m) as [_ Hm].
      set (d := Z.pos (digits2_pos m)) in *.
      assert (Hd : 1 <= d) by (subst d; lia).
      subst v. destruct (0 <=? e) eqn:He.
      - apply Z.leb_le in He.
        assert (0 < 2 ^ e) by (apply Z.pow_pos_nonneg; lia).
        assert (2 ^ d * 2 ^ e <= 2 ^ 63)
          by (rewrite <- Z.pow_add_r by lia; apply Z.pow_le_mono_r; lia).
        split; [nia | nia].
      - apply Z.leb_gt in He.
        assert (0 < 2 ^ (- e)) by (apply Z.pow_pos_nonneg; lia).
        split; [apply Z.div_pos; lia |].
        apply Z.div_lt_upper_bound; [lia |].
        destruct (Z.le_gt_cases 0 (d + e)) as [Hde | Hde].
        + assert (2 ^ d <= 2 ^ (- e) * 2 ^ 63).
          { rewrite <- Z.pow_add_r by lia. apply Z.pow_le_mono_r; lia. }
          lia.
        + assert (2 ^ d <= 2 ^ (- e)) by (apply Z.pow_le_mono_r; lia).
          assert (0 < 2 ^ 63) by (apply Z.pow_pos_nonneg; lia). nia. }
    replace (GoInt.min_int <=? v) with true
      by (symmetry; apply Z.leb_le; unfold GoInt.min_int; lia).
    replace (v <=? GoInt.max_int) with true
      by (symmetry; apply Z.leb_le; unfold GoInt.max_int; lia).
    cbn [andb]. split; [reflexivity | lia].
Qed.

End Binary64Facts.

(** ** Whole numbers in binary64 *)

(** Below [2 ^ 53] the whole numbers are binary64 numbers, and their sums,
    differences and comparisons are exact. *)

Module WholeFacts.
Import GoIntFacts Binary64Facts.

Lemma Zdigits2_shl_eq (m k : Z) :
  0 < m -> 0 <= k -> Zdigits2 (m * 2 ^ k) = Zdigits2 m + k.
Proof.
  intros Hm Hk. apply Z.le_antisymm; [apply Zdigits2_shl; lia |].
  pose proof (Zdigits2_low m Hm) as Hlow.
  assert (Hd : 1 <= Zdigits2 m).
  { apply Zdigits2_ge; [cbn; lia | lia]. }
  apply Zdigits2_ge; [| lia].
  replace (Zdigits2 m + k - 1) with (Zdigits2 m - 1 + k) by lia.
  rewrite Z.pow_add_r by lia.
  apply Z.mul_le_mono_nonneg_r; [apply Z.pow_nonneg; lia | exact Hlow].
Qed.

(** Shifting out zeros loses nothing. *)
Lemma iter_shr_1_exact (n : positive) (m : Z) :
  0 <= m ->
  SpecFloat.iter_pos shr_1 n
    {| shr_m := m * 2 ^ Z.pos n; shr_r := false; shr_s := false |}
  = {| shr_m := m; shr_r := false; shr_s := false |}.
Proof.
  revert m. induction n as [n IH | n IH |]; intros m Hm;
    cbn [SpecFloat.iter_pos].
  - assert (H1 : shr_1 {| shr_m := m * 2 ^ Z.pos n~1; shr_r := false;
                          shr_s := false |}
                 = {| shr_m := m * 2 ^ Z.pos n * 2 ^ Z.pos n; shr_r := false;
                      shr_s := false |}).
    { change (Z.pos n~1) with (2 * Z.pos n + 1).
      rewrite Z.pow_add_r, Z.pow_1_r by lia.
      replace (2 * Z.pos n) with (Z.pos n + Z.pos n) by lia.
      rewrite Z.pow_add_r by lia.
      set (x := m * 2 ^ Z.pos n * 2 ^ Z.pos n).
      assert (0 <= x) by (subst x; apply Z.mul_nonneg_nonneg;
        [apply Z.mul_nonneg_nonneg |]; try apply Z.pow_nonneg; lia).
      replace (m * (2 ^ Z.pos n * 2 ^ Z.pos n * 2)) with (2 * x)
        by (subst x; ring).
      destruct x as [| x | x]; [reflexivity | reflexivity | lia]. }
    rewrite H1, IH, IH; [reflexivity | lia |].
    apply Z.mul_nonneg_nonneg; [lia | apply Z.pow_nonneg; lia].
  - change (Z.pos n~0) with (2 * Z.pos n).
    replace (2 * Z.pos n) with (Z.pos n + Z.pos n) by lia.
    rewrite Z.pow_add_r, Z.mul_assoc by lia.
    rewrite IH, IH; [reflexivity | lia |].
    apply Z.mul_nonneg_nonneg; [lia | apply Z.pow_nonneg; lia].
  - change (2 ^ 1) with 2. replace (m * 2) with (2 * m) by ring.
    destruct m as [| m | m]; [reflexivity | reflexivity | lia].
Qed.

Lemma shr_exact (m e n : Z) :
  0 <= m -> 0 <= n ->
  shr {| shr_m := m * 2 ^ n; shr_r := false; shr_s := false |} e n
  = ({| shr_m := m; shr_r := false; shr_s := false |}, e + n).
Proof.
  intros Hm Hn. unfold shr. destruct n as [| n | n]; [| | lia].
  - rewrite Z.pow_0_r, Z.mul_1_r, Z.add_0_r. reflexivity.
  - now rewrite iter_shr_1_exact.
Qed.

(** A full mantissa with zeros behind it rounds to itself. *)
Lemma binary_round_aux_exact (s : bool) (m : positive) (n e : Z) :
  0 <= n -> Z.pos (digits2_pos m) = 53 -> -1074 <= e <= 971 ->
  binary_round_aux prec emax s (Z.pos m * 2 ^ n) (e - n) loc_Exact
  = S754_finite s m e.
Proof.
  intros Hn Hd He. unfold binary_round_aux, shr_fexp.
  rewrite Zdigits2_shl_eq by lia. cbn [Zdigits2]. rewrite Hd, fexp_eq.
  replace (Z.max (53 + n + (e - n) - 53) (-1074) - (e - n)) with n by lia.
  cbn [shr_record_of_loc]. rewrite shr_exact by lia.
  cbn [shr_m loc_of_shr_record round_nearest_even Zdigits2].
  rewrite Hd, fexp_eq.
  replace (e - n + n) with e by lia.
  replace (Z.max (53 + e - 53) (-1074) - e) with 0 by lia.
  cbn [shr shr_m].
  replace (e <=? emax - prec) with true
    by (symmetry; apply Z.leb_le; change (emax - prec) with 971; lia).
  reflexivity.
Qed.

Lemma digits_whole (p : positive) :
  Z.pos p < 2 ^ 53 -> Z.pos (digits2_pos p) <= 53.
Proof.
  intros H. apply (Zdigits2_le (Z.pos p) 53); lia.
Qed.

(** Rounding a whole number written with zeros behind it. *)
Lemma binary_round_whole (p M : positive) (k : Z) :
  Z.pos p < 2 ^ 53 -> 0 <= k -> Z.pos M = Z.pos p * 2 ^ k ->
  binary_round prec emax false M (- k) = SFwhole (Z.pos p).
Proof.
  intros Hp Hk HM. pose proof (digits_whole p Hp) as Hd.
  unfold binary_round.
  assert (HdM : Z.pos (digits2_pos M) = Z.pos (digits2_pos p) + k).
  { change (Zdigits2 (Z.pos M) = Zdigits2 (Z.pos p) + k).
    rewrite HM. apply Zdigits2_shl_eq; lia. }
  rewrite HdM, fexp_eq.
  pose proof (shl_align_spec M (- k)
                (Z.max (Z.pos (digits2_pos p) + k + - k - 53) (-1074))) as H.
  destruct (shl_align M (- k) _) as [mz ez]. destruct H as [Hez Hmz].
  set (d := Z.pos (digits2_pos p)) in *.
  set (m53 := Z.to_pos (Z.pos p * 2 ^ (53 - d))).
  assert (H2 : 0 < 2 ^ (53 - d)) by (apply Z.pow_pos_nonneg; lia).
  assert (Hm53 : Z.pos m53 = Z.pos p * 2 ^ (53 - d))
    by (subst m53; apply Z2Pos.id; nia).
  assert (Hd53 : Z.pos (digits2_pos m53) = 53).
  { change (Zdigits2 (Z.pos m53) = 53). rewrite Hm53.
    rewrite Zdigits2_shl_eq by lia. cbn [Zdigits2]. fold d. lia. }
  assert (Hshape : Z.pos mz = Z.pos m53 * 2 ^ (d - 53 - ez)).
  { rewrite Hmz, HM, Hm53, <- !Z.mul_assoc, <- !Z.pow_add_r by lia.
    f_equal. f_equal. lia. }
  rewrite Hshape.
  replace ez with (d - 53 - (d - 53 - ez)) at 2 by lia.
  rewrite binary_round_aux_exact by lia.
  reflexivity.
Qed.

Lemma of_int_whole (n : Z) :
  0 <= n < 2 ^ 53 -> Prim2SF (GoFloat.of_int n) = SFwhole n.
Proof.
  intros Hn.
  rewrite of_int_spec by (unfold GoInt.max_int; lia).
  destruct n as [| p | p]; [reflexivity | | lia].
  cbn [binary_normalize].
  apply (binary_round_whole p p 0); [lia | lia |].
  rewrite Z.pow_0_r. lia.
Qed.

(** The mantissa of a whole number, aligned on a lower exponent. *)
Lemma aligned_whole (p : positive) (ez : Z) :
  Z.pos p < 2 ^ 53 -> ez <= Z.pos (digits2_pos p) - 53 ->
  Z.pos (fst (shl_align
                (Z.to_pos (Z.pos p * 2 ^ (53 - Z.pos (digits2_pos p))))
                (Z.pos (digits2_pos p) - 53) ez))
  = Z.pos p * 2 ^ (- ez).
Proof.
  intros Hp Hez. pose proof (digits_whole p Hp) as Hd.
  set (d := Z.pos (digits2_pos p)) in *.
  assert (H2 : 0 < 2 ^ (53 - d)) by (apply Z.pow_pos_nonneg; lia).
  pose proof (shl_align_spec (Z.to_pos (Z.pos p * 2 ^ (53 - d))) (d - 53) ez)
    as H.
  destruct (shl_align _ _ _) as [mz ez']. destruct H as [-> Hmz].
  cbn [fst]. rewrite Hmz, Z2Pos.id by nia.
  rewrite <- Z.mul_assoc, <- Z.pow_add_r by lia. f_equal. f_equal. lia.
Qed.

Lemma SFadd_whole (a b : Z) :
  0 <= a -> 0 <= b -> a + b < 2 ^ 53 ->
  SF64add (SFwhole a) (SFwhole b) = SFwhole (a + b).
Proof.
  intros Ha Hb Hab.
  destruct a as [| p | p], b as [| q | q]; try lia; try reflexivity.
  cbn [SFwhole]. unfold SF64add, SFadd.
  set (ez := Z.min _ _).
  rewrite !aligned_whole by (subst ez; lia).
  cbn [cond_Zopp].
  change (Z.pos p + Z.pos q) with (Z.pos (p + q)).
  assert (Hk : 0 <= - ez).
  { pose proof (digits_whole p ltac:(lia)). subst ez. lia. }
  assert (0 < 2 ^ (- ez)) by (apply Z.pow_pos_nonneg; lia).
  destruct (Z.pos p * 2 ^ (- ez) + Z.pos q * 2 ^ (- ez)) as [| M | M] eqn:EM;
    [nia | | nia].
  cbn [binary_normalize].
  pose proof (binary_round_whole (p + q) M (- ez)) as HR.
  rewrite Z.opp_involutive in HR. apply HR; [lia | lia |].
  rewrite <- EM, Pos2Z.inj_add. ring.
Qed.

Lemma SFsub_whole (a b : Z) :
  0 <= b <= a -> a < 2 ^ 53 ->
  SF64sub (SFwhole a) (SFwhole b) = SFwhole (a - b).
Proof.
  intros Hba Ha.
  destruct a as [| p | p], b as [| q | q]; try lia; try reflexivity.
  cbn [SFwhole]. unfold SF64sub, SFsub.
  set (ez := Z.min _ _).
  rewrite !aligned_whole by (subst ez; lia).
  cbn [cond_Zopp].
  assert (Hk : 0 <= - ez).
  { pose proof (digits_whole p ltac:(lia)). subst ez. lia. }
  assert (0 < 2 ^ (- ez)) by (apply Z.pow_pos_nonneg; lia).
  destruct (Z.eq_dec (Z.pos p) (Z.pos q)) as [Heq | Hne].
  - rewrite Heq, !Z.sub_diag. reflexivity.
  - destruct (Z.pos p - Z.pos q) as [| r | r] eqn:Er; [lia | | lia].
    destruct (Z.pos p * 2 ^ (- ez) - Z.pos q * 2 ^ (- ez)) as [| M | M] eqn:EM;
      [nia | | nia].
    cbn [binary_normalize].
    pose proof (binary_round_whole r M (- ez)) as HR.
    rewrite Z.opp_involutive in HR. apply HR; [lia | lia |].
    rewrite <- EM, <- Er. ring.
Qed.

Lemma SFcompare_whole (a b : Z) :
  0 <= a < 2 ^ 53 -> 0 <= b < 2 ^ 53 ->
  SFcompare (SFwhole a) (SFwhole b) = Some (a ?= b).
Proof.
  intros Ha Hb.
  destruct a as [| p | p], b as [| q | q]; try lia; try reflexivity.
  cbn [SFwhole SFcompare]. f_equal.
  pose proof (digits_whole p ltac:(lia)) as Hdp.
  pose proof (digits_whole q ltac:(lia)) as Hdq.
  pose proof (digits2_pos_bounds p) as [Hp1 Hp2].
  pose proof (digits2_pos_bounds q) as [Hq1 Hq2].
  set (dp := Z.pos (digits2_pos p)) in *.
  set (dq := Z.pos (digits2_pos q)) in *.
  change (Z.pos p ?= Z.pos q) with (p ?= q)%positive.
  destruct (dp - 53 ?= dq - 53) eqn:Hc.
  - apply Z.compare_eq in Hc. assert (Hdd : dp = dq) by lia.
    rewrite <- Hdd.
    assert (H2 : 0 < 2 ^ (53 - dp)) by (apply Z.pow_pos_nonneg; lia).
    change ((Z.to_pos (Z.pos p * 2 ^ (53 - dp))
             ?= Z.to_pos (Z.pos q * 2 ^ (53 - dp)))%positive
            = (p ?= q)%positive).
    rewrite !Pos2Z.inj_compare, !Z2Pos.id by nia.
    rewrite !(Z.mul_comm _ (2 ^ (53 - dp))).
    now rewrite <- Zmult_compare_compat_l by lia.
  - rewrite Z.compare_lt_iff in Hc. symmetry. apply Pos.compare_lt_iff.
    apply Pos2Z.pos_lt_pos.
    assert (2 ^ dp <= 2 ^ (dq - 1)) by (apply Z.pow_le_mono_r; lia). lia.
  - rewrite Z.compare_gt_iff in Hc. symmetry. apply Pos.compare_gt_iff.
    apply Pos2Z.pos_lt_pos.
    assert (2 ^ dq <= 2 ^ (dp - 1)) by (apply Z.pow_le_mono_r; lia). lia.
Qed.

Lemma whole_spec (x : float) (n : Z) : whole x n -> Prim2SF x = SFwhole n.
Proof. intros [Hn ->]. now apply of_int_whole. Qed.

Lemma whole_intro (x : float) (n : Z) :
  0 <= n < 2 ^ 53 -> Prim2SF x = SFwhole n -> whole x n.
Proof.
  intros Hn Hx. split; [exact Hn |].
  apply Prim2SF_inj. now rewrite of_int_whole.
Qed.

Lemma whole_add (x y : float) (a b : Z) :
  whole x a -> whole y b -> a + b < 2 ^ 53 -> whole (x + y)%float (a + b).
Proof.
  intros Hx Hy Hab. pose proof Hx as [Ha _]. pose proof Hy as [Hb _].
  apply whole_intro; [lia |].
  rewrite add_spec, (whole_spec x a Hx), (whole_spec y b Hy).
  apply SFadd_whole; lia.
Qed.

Lemma whole_sub (x y : float) (a b : Z) :
  whole x a -> whole y b -> b <= a -> whole (x - y)%float (a - b).
Proof.
  intros Hx Hy Hba. pose proof Hx as [Ha _]. pose proof Hy as [Hb _].
  apply whole_intro; [lia |].
  rewrite sub_spec, (whole_spec x a Hx), (whole_spec y b Hy).
  apply SFsub_whole; lia.
Qed.

Lemma whole_compare (x y : float) (a b : Z) :
  whole x a -> whole y b ->
  SFcompare (Prim2SF x) (Prim2SF y) = Some (a ?= b).
Proof.
  intros Hx Hy. pose proof Hx as [Ha _]. pose proof Hy as [Hb _].
  rewrite (whole_spec x a Hx), (whole_spec y b Hy).
  now apply SFcompare_whole.
Qed.

Lemma whole_leb (x y : float) (a b : Z) :
  whole x a -> whole y b -> (x <=? y)%float = (a <=? b).
Proof.
  intros Hx Hy. rewrite leb_spec. unfold SFleb, Z.leb.
  rewrite (whole_compare x y a b Hx Hy). now destruct (a ?= b).
Qed.

Lemma whole_ltb (x y : float) (a b : Z) :
  whole x a -> whole y b -> (x <? y)%float = (a <? b).
Proof.
  intros Hx Hy. rewrite ltb_spec. unfold SFltb, Z.ltb.
  rewrite (whole_compare x y a b Hx Hy). now destruct (a ?= b).
Qed.

Lemma whole_eqb (x y : float) (a b : Z) :
  whole x a -> whole y b -> (x =? y)%float = (a =? b).
Proof.
  intros Hx Hy. rewrite FloatAxioms.eqb_spec. unfold SFeqb.
  rewrite (whole_compare x y a b Hx Hy).
  destruct (Z.eqb_spec a b) as [-> | Hne].
  - now rewrite Z.compare_refl.
  - destruct (a ?= b) eqn:E; [| reflexivity | reflexivity].
    apply Z.compare_eq in E. contradiction.
Qed.

End WholeFacts.

(** ** The reward pool *)

Module RewardPoolFacts.
Import RewardPool GoIntFacts WholeFacts.

(** A successful call is exactly a call on a pool that can pay. *)
Lemma ProcessReward_result (rp : t) :
  fst (ProcessReward rp) = None <-> CanProcessReward rp = true.
Proof.
  unfold ProcessReward.
  destruct (CanProcessReward rp); simpl; split; congruence.
Qed.

(** The pool as a successful call leaves it, field by field. *)
Lemma ProcessReward_fields (rp : t) :
  CanProcessReward rp = true ->
  let rp' := snd (ProcessReward rp) in
  CurrentResponses rp' = GoInt.incr (CurrentResponses rp)
  /\ PaidOut rp' = (PaidOut rp + RewardPerResponse rp)%float
  /\ RemainingAmount rp' = (RemainingAmount rp - RewardPerResponse rp)%float
  /\ IsActive rp' =
       negb ((MaxResponses rp <=? CurrentResponses rp')%Z
             || (RemainingAmount rp' <? RewardPerResponse rp)%float).
Proof.
  intros Hcan. unfold ProcessReward. rewrite Hcan. cbn [negb].
  assert (Hact : IsActive rp = true).
  { unfold CanProcessReward, IsAvailable in Hcan.
    destruct (IsActive rp); [reflexivity | discriminate]. }
  cbn.
  match goal with |- context [if ?c then _ else _] => destruct c eqn:E end;
    cbn; rewrite ?E, ?Hact; auto.
Qed.

(** The fields a call does not write. *)
Lemma ProcessReward_keeps (rp : t) :
  let rp' := snd (ProcessReward rp) in
  ID rp' = ID rp
  /\ SurveyID rp' = SurveyID rp
  /\ TotalAmount rp' = TotalAmount rp
  /\ RewardPerResponse rp' = RewardPerResponse rp
  /\ MaxResponses rp' = MaxResponses rp.
Proof.
  unfold ProcessReward.
  destruct (CanProcessReward rp); cbn [negb snd]; [| repeat split].
  cbn. match goal with |- context [if ?c then _ else _] => destruct c end;
    cbn; repeat split.
Qed.

(** C10.  [ProcessReward] writes only [CurrentResponses], [PaidOut],
    [RemainingAmount] and [IsActive]: the pool's id, survey id, total amount,
    reward per response and maximum of responses are the same after every
    call; and a call on a pool for which [CanProcessReward] is false returns
    the error and leaves the whole pool as it was. *)
Theorem ProcessReward_frame (rp : t) :
  let rp' := snd (ProcessReward rp) in
  (ID rp' = ID rp
   /\ SurveyID rp' = SurveyID rp
   /\ TotalAmount rp' = TotalAmount rp
   /\ RewardPerResponse rp' = RewardPerResponse rp
   /\ MaxResponses rp' = MaxResponses rp)
  /\ (if CanProcessReward rp then fst (ProcessReward rp) = None
      else ProcessReward rp
           = (Some "cannot process reward: insufficient funds or pool inactive",
              rp)).
Proof.
  split; [apply ProcessReward_keeps |].
  unfold ProcessReward.
  destruct (CanProcessReward rp); cbn [negb fst]; reflexivity.
Qed.

(** C2, as the code has it.  Every successful settlement adds the reward per
    response to the paid-out amount, takes it from the remaining amount, and
    leaves the pool inactive exactly when the count of responses has reached
    the maximum or the remaining amount is below the reward.  When the
    amounts are whole numbers below [2 ^ 53], which binary64 adds and
    subtracts without rounding, the settlement preserves
    [remaining = total - paid_out] and [paid_out <= total]. *)
Theorem ProcessReward_invariant (rp : t) :
  CanProcessReward rp = true ->
  let rp' := snd (ProcessReward rp) in
  fst (ProcessReward rp) = None
  /\ PaidOut rp' = (PaidOut rp + RewardPerResponse rp)%float
  /\ RemainingAmount rp' = (RemainingAmount rp - RewardPerResponse rp)%float
  /\ IsActive rp'
     = negb ((MaxResponses rp' <=? CurrentResponses rp')%Z
             || (RemainingAmount rp' <? RewardPerResponse rp')%float)
  /\ forall total paid remaining reward : Z,
       whole (TotalAmount rp) total ->
       whole (PaidOut rp) paid ->
       whole (RemainingAmount rp) remaining ->
       whole (RewardPerResponse rp) reward ->
       invariant rp = true ->
       (PaidOut rp <=? TotalAmount rp)%float = true ->
       invariant rp' = true
       /\ (PaidOut rp' <=? TotalAmount rp')%float = true
       /\ whole (PaidOut rp') (paid + reward)
       /\ whole (RemainingAmount rp') (remaining - reward).
Proof.
  intros Hcan rp'.
  pose proof (ProcessReward_fields rp Hcan) as Hf.
  pose proof (ProcessReward_keeps rp) as Hframe.
  cbv zeta in Hf, Hframe. fold rp' in Hf, Hframe.
  destruct Hf as (_ & Hpaid & Hrem & Hact).
  destruct Hframe as (_ & _ & Htot & Hrew & Hmax).
  split; [now apply ProcessReward_result |].
  split; [exact Hpaid |]. split; [exact Hrem |].
  split; [rewrite Hact, Hrew, Hmax; reflexivity |].
  intros total paid remaining reward HT HP HR Hr Hinv Hle.
  pose proof HT as [HTn _]. pose proof HP as [HPn _].
  pose proof HR as [HRn _]. pose proof Hr as [Hrn _].
  rewrite (whole_leb _ _ _ _ HP HT) in Hle. apply Z.leb_le in Hle.
  unfold invariant in Hinv.
  rewrite (whole_eqb _ _ remaining (total - paid) HR
             (whole_sub _ _ _ _ HT HP Hle)) in Hinv.
  apply Z.eqb_eq in Hinv.
  assert (Hpay : reward <= remaining).
  { unfold CanProcessReward in Hcan. apply andb_prop in Hcan as [_ Hcan'].
    rewrite (whole_leb _ _ _ _ Hr HR) in Hcan'. now apply Z.leb_le. }
  assert (HP' : whole (PaidOut rp') (paid + reward))
    by (rewrite Hpaid; apply whole_add; [assumption | assumption | lia]).
  assert (HR' : whole (RemainingAmount rp') (remaining - reward))
    by (rewrite Hrem; now apply whole_sub).
  assert (HT' : whole (TotalAmount rp') total) by now rewrite Htot.
  split.
  { unfold invariant.
    rewrite (whole_eqb _ _ (remaining - reward) (total - (paid + reward)) HR'
               (whole_sub _ _ _ _ HT' HP' ltac:(lia))).
    apply Z.eqb_eq. lia. }
  split.
  { rewrite (whole_leb _ _ _ _ HP' HT'). apply Z.leb_le. lia. }
  split; [exact HP' | exact HR'].
Qed.

(** The first settlement on the scenario's pool: 5000 in all, 50 per
    response. *)
Lemma ProcessReward_invariant_witness :
  let rp' := snd (ProcessReward Scenario.full_pool) in
  invariant rp' = true
  /\ (PaidOut rp' <=? TotalAmount rp')%float = true
  /\ whole (PaidOut rp') (0 + 50)
  /\ whole (RemainingAmount rp') (5000 - 50).
Proof.
  refine (proj2 (proj2 (proj2 (proj2
            (ProcessReward_invariant Scenario.full_pool _))))
            5000 0 5000 50 _ _ _ _ _ _);
    try (vm_compute; reflexivity);
    (split; [lia | vm_compute; reflexivity]).
Defined.

(** The state above is the one the program reaches: two settlements on the
    pool as [PublishSurvey] creates it. *)
Example drifting_pool_reached :
  snd (ProcessReward (snd (ProcessReward
    {| ID := 1; SurveyID := 1; TotalAmount := (0.1 * GoFloat.of_int 10)%float;
       RewardPerResponse := 0.1; MaxResponses := 10; CurrentResponses := 0;
       PaidOut := 0; RemainingAmount := (0.1 * GoFloat.of_int 10)%float;
       IsActive := true |})))
  = Scenario.drifting_pool.
Proof. vm_compute. reflexivity. Qed.

(** The third settlement succeeds on a pool that satisfies the invariant and
    leaves one that does not: 1 - 0.30000000000000004 is 0.7 and the remaining
    amount is 0.7000000000000001. *)
Lemma ProcessReward_breaks_invariant :
  invariant Scenario.drifting_pool = true
  /\ fst (ProcessReward Scenario.drifting_pool) = None
  /\ invariant (snd (ProcessReward Scenario.drifting_pool)) = false.
Proof. vm_compute. auto. Qed.

End RewardPoolFacts.

(** ** Starting a response *)

Module StartFacts.
Import responseService.

Lemma IsActive_under_capacity (now : GoTime.t) (survey : Survey.t) :
  Survey.IsActive now survey = true ->
  Survey.ResponseCount survey < Survey.MaxResponses survey.
Proof.
  unfold Survey.IsActive. intros H.
  repeat match type of H with (if ?c then _ else _) = _ =>
    destruct c eqn:?; try discriminate end.
  lia.
Qed.

Lemma IsActive_at_capacity (now : GoTime.t) (survey : Survey.t) :
  Survey.MaxResponses survey <= Survey.ResponseCount survey ->
  Survey.IsActive now survey = false.
Proof.
  intros H. destruct (Survey.IsActive now survey) eqn:E; [| reflexivity].
  apply IsActive_under_capacity in E. lia.
Qed.

(** C9.  In [StartSurvey] the check "survey has reached maximum
    participants" cannot fire: a survey that passed [IsActive] has fewer
    responses than its maximum, so no call returns that error, and a survey
    at capacity is turned away as "survey is not active". *)
Theorem StartSurvey_capacity_branch_unreachable
    (now : GoTime.t) (userID surveyID : N) (req : dto.StartSurveyRequest)
    (st : Store) :
  fst (StartSurvey now userID surveyID req st)
    <> inl "survey has reached maximum participants"
  /\ (forall survey,
        Survey.IsActive now survey = true ->
        Survey.ResponseCount survey < Survey.MaxResponses survey)
  /\ (forall survey,
        surveys st !! surveyID = Some survey ->
        Survey.MaxResponses survey <= Survey.ResponseCount survey ->
        StartSurvey now userID surveyID req st
        = (inl "survey is not active", st)).
Proof.
  split; [| split].
  - unfold StartSurvey, bind, surveyRepo.GetByID.
    destruct (surveys st !! surveyID) as [survey|]; [| cbn; discriminate].
    unfold reject at 1.
    destruct (Survey.IsActive now survey) eqn:Hact; [| cbn; discriminate].
    apply IsActive_under_capacity in Hact.
    cbn [negb]. unfold reject at 1.
    destruct (Survey.RequireLogin survey && (userID =? 0)%N);
      [cbn; discriminate |].
    destruct (Survey.AllowMultiple survey); cbn [negb].
    + unfold ret at 1. unfold reject.
      destruct (Survey.MaxResponses survey <=? Survey.ResponseCount survey)%Z
        eqn:Hcap; [lia |].
      cbn. discriminate.
    + unfold responseRepo.HasUserResponded, reject, fail, ret.
      destruct (bool_decide _); [cbn; discriminate |].
      destruct (Survey.MaxResponses survey <=? Survey.ResponseCount survey)%Z
        eqn:Hcap; [lia |].
      cbn. discriminate.
  - intros survey. apply IsActive_under_capacity.
  - intros survey Hs Hcap.
    unfold StartSurvey, bind, surveyRepo.GetByID. rewrite Hs.
    rewrite (IsActive_at_capacity now survey Hcap). reflexivity.
Qed.

(** A second user starts a response on the scenario's survey. *)
Example StartSurvey_scenario :
  fst (StartSurvey Scenario.now 4 1
         {| dto.start_Timezone := "UTC"; dto.start_Language := "en";
            dto.start_IPAddress := "10.0.0.2"; dto.start_UserAgent := "agent" |}
         (Scenario.store Scenario.full_pool))
  = inr {| dto.started_ResponseID := 8; dto.started_SurveyID := 1;
           dto.started_Status := "started";
           dto.started_StartedAt := Scenario.now;
           dto.started_TimeLeft := Some 600 |}.
Proof. vm_compute. reflexivity. Qed.

End StartFacts.

(** ** The completion certificate *)

Module CertificateFacts.
Import responseService.

Lemma append_empty_r (s : string) : s ++ "" = s.
Proof.
  induction s as [| c s IH]; [reflexivity |].
  change (String c (s ++ "") = String c s). now rewrite IH.
Qed.

Lemma generateNFTCertificate_eq (r : Response.t) (s : Survey.t) :
  generateNFTCertificate r s
  = certificate_format (Survey.ID s) (Response.UserID r) (Response.ID r).
Proof.
  unfold generateNFTCertificate, certificate_format. cbn.
  now rewrite append_empty_r.
Qed.

(** The certificate of a response and a survey is the string
    "NFT-CERT-{survey id}-{user id}-{response id}"; it depends on these three
    identifiers only. *)
Lemma generateNFTCertificate_identifiers (r r' : Response.t) (s s' : Survey.t) :
  Survey.ID s' = Survey.ID s ->
  Response.UserID r' = Response.UserID r ->
  Response.ID r' = Response.ID r ->
  generateNFTCertificate r' s' = generateNFTCertificate r s.
Proof.
  intros Hs Hu Hr. rewrite !generateNFTCertificate_eq. congruence.
Qed.

Example certificate_scenario :
  generateNFTCertificate Scenario.response Scenario.survey = "NFT-CERT-1-3-7".
Proof. vm_compute. reflexivity. Qed.

End CertificateFacts.

(** ** Validating one answer *)

Module ValidateFacts.
Import responseService.

(** What validation does with the range of a rating or scale question when
    the answer carries a rating. *)
Lemma ValidateAnswer_rating_range (a : Answer.t) (question : Question.t)
    (rating : Z) (lo hi : float) :
  Question.Type_ question = QuestionTypeRating
  \/ Question.Type_ question = QuestionTypeScale ->
  Question.Required question = false ->
  Question.MinValue question = Some lo ->
  Question.MaxValue question = Some hi ->
  AnswerValue.Rating (Answer.AnswerValue_ a) = Some rating ->
  Answer.ValidateAnswer a question
  = if (GoFloat.of_int rating <? lo)%float then Some "rating below minimum"
    else if (hi <? GoFloat.of_int rating)%float then Some "rating above maximum"
    else None.
Proof.
  intros Hty Hreq Hlo Hhi Hr. unfold Answer.ValidateAnswer.
  rewrite Hreq, Hlo, Hhi, Hr. cbn [andb].
  destruct Hty as [-> | ->]; reflexivity.
Qed.

(** C7.  For a rating or scale question, an answer that carries no rating is
    never checked against the question's range, whatever its scale value and
    whatever the bounds: validation can only fail as "answer is required". *)
Theorem ValidateAnswer_ignores_scale (a : Answer.t) (question : Question.t) :
  Question.Type_ question = QuestionTypeRating
  \/ Question.Type_ question = QuestionTypeScale ->
  AnswerValue.Rating (Answer.AnswerValue_ a) = None ->
  Answer.ValidateAnswer a question
  = (if Question.Required question
        && (Answer.IsSkipped a || bool_decide (Answer.AnswerText a = ""))
     then Some "answer is required" else None).
Proof.
  intros Hty Hr. unfold Answer.ValidateAnswer. rewrite Hr.
  destruct (_ && _); [reflexivity |].
  destruct Hty as [-> | ->]; reflexivity.
Qed.

(** On a scale question with range 1 to 10, the scale answer 11 passes and
    the rating answer 11 is refused. *)
Lemma ValidateAnswer_ignores_scale_witness :
  Answer.ValidateAnswer
    (make_answer 7 2 (Scenario.scale_answer 11) 20 false)
    Scenario.scale_question
  = None
  /\ Answer.ValidateAnswer
       (make_answer 7 2 (Scenario.rating_answer 11) 20 false)
       Scenario.scale_question
     = Some "rating above maximum".
Proof.
  split.
  - rewrite (ValidateAnswer_ignores_scale
               (make_answer 7 2 (Scenario.scale_answer 11) 20 false)
               Scenario.scale_question);
      [vm_compute; reflexivity | right; reflexivity | reflexivity].
  - vm_compute. reflexivity.
Defined.

End ValidateFacts.

(** ** Stepping through a service call *)

Module RepoFacts.

Lemma bind_inr {A B} (m : Repo A) (k : A -> Repo B) st a st' :
  m st = (inr a, st') -> bind m k st = k a st'.
Proof. intros H. unfold bind. now rewrite H. Qed.

Lemma bind_inl {A B} (m : Repo A) (k : A -> Repo B) st e st' :
  m st = (inl e, st') -> bind m k st = (inl e, st').
Proof. intros H. unfold bind. now rewrite H. Qed.

Lemma reject_false {A} cond msg (k : Repo A) :
  cond = false -> reject cond msg k = k.
Proof. now intros ->. Qed.

Lemma reject_true {A} cond msg (k : Repo A) st :
  cond = true -> reject cond msg k st = (inl msg, st).
Proof. now intros ->. Qed.

Lemma GetByID_found rid st response :
  responses st !! rid = Some response ->
  responseRepo.GetByID rid st
  = (inr (Response.set_Answers (stored_answers rid st) response), st).
Proof. intros H. unfold responseRepo.GetByID. now rewrite H. Qed.

(** The two guards every operation on a response starts with let the owner
    of a started response through. *)
Lemma owner_started_checks uid response :
  Response.UserID response = uid ->
  Response.Status response = ResponseStatusStarted ->
  negb (Response.UserID response =? uid)%N = false
  /\ negb (bool_decide (Response.Status response = ResponseStatusStarted))
     = false.
Proof.
  intros -> ->. rewrite N.eqb_refl.
  now rewrite bool_decide_eq_true_2 by reflexivity.
Qed.

Lemma same_but_answers_refl st : same_but_answers st st.
Proof. repeat split. Qed.

Lemma same_but_answers_trans st1 st2 st3 :
  same_but_answers st1 st2 -> same_but_answers st2 st3 ->
  same_but_answers st1 st3.
Proof. unfold same_but_answers. intuition congruence. Qed.

End RepoFacts.

(** ** Submitting and updating answers *)

Module SubmitFacts.
Import responseService RepoFacts.

Lemma submit_each_frame survey rid answers st :
  same_but_answers st (snd (submit_each survey rid answers st)).
Proof.
  revert st. induction answers as [| req rest IH]; intros st; cbn.
  - apply same_but_answers_refl.
  - destruct (Survey.GetQuestionByID _ _) as [e | question]; [apply IH |].
    destruct (Answer.ValidateAnswer _ _); [apply same_but_answers_refl |].
    unfold bind. cbn.
    eapply same_but_answers_trans; [| apply IH]. repeat split.
Qed.


Lemma SubmitAnswers_started uid rid answers st response survey :
  responses st !! rid = Some response ->
  Response.UserID response = uid ->
  Response.Status response = ResponseStatusStarted ->
  surveys st !! Response.SurveyID response = Some survey ->
  SubmitAnswers uid rid answers st = submit_each survey rid answers st.
Proof.
  intros Hr Hu Hs Hsv.
  destruct (owner_started_checks uid response Hu Hs) as [Hown Hstarted].
  unfold SubmitAnswers.
  rewrite (bind_inr _ _ _ _ _ (GetByID_found _ _ _ Hr)).
  cbn [Response.UserID Response.Status Response.SurveyID Response.set_Answers].
  rewrite (reject_false _ _ _ Hown), (reject_false _ _ _ Hstarted).
  erewrite bind_inr
    by (unfold surveyRepo.GetByID; rewrite Hsv; reflexivity).
  reflexivity.
Qed.








(** C6.  [UpdateAnswer] writes the answer of the owner of a started response
    without looking up the question and without validating: for every
    question id and every answer the call is the upsert of the answer row. *)
Theorem UpdateAnswer_does_not_validate uid rid qid req st response :
  responses st !! rid = Some response ->
  Response.UserID response = uid ->
  Response.Status response = ResponseStatusStarted ->
  UpdateAnswer uid rid qid req st
  = responseRepo.UpsertAnswer
      (make_answer rid qid (dto.update_Answer req) (dto.update_TimeSpent req)
         (dto.update_IsSkipped req)) st.
Proof.
  intros Hr Hu Hs.
  destruct (owner_started_checks uid response Hu Hs) as [Hown Hstarted].
  unfold UpdateAnswer.
  rewrite (bind_inr _ _ _ _ _ (GetByID_found _ _ _ Hr)).
  cbn [Response.UserID Response.Status Response.set_Answers].
  now rewrite (reject_false _ _ _ Hown), (reject_false _ _ _ Hstarted).
Qed.

(** A skipped answer to the required text question: the update stores it,
    the batch of that one answer is refused and stores nothing. *)
Lemma UpdateAnswer_does_not_validate_witness :
  let st := Scenario.store Scenario.full_pool in
  let value := Scenario.text_answer "" in
  fst (UpdateAnswer 3 7 1 (Scenario.update value true) st) = inr tt
  /\ stored_answers 7 (snd (UpdateAnswer 3 7 1 (Scenario.update value true) st))
     = [make_answer 7 1 value 20 true]
  /\ fst (SubmitAnswers 3 7 [Scenario.submit 1 value true] st)
     = inl "answer is required"
  /\ stored_answers 7 (snd (SubmitAnswers 3 7 [Scenario.submit 1 value true] st))
     = [].
Proof.
  cbv zeta.
  rewrite (UpdateAnswer_does_not_validate 3 7 1
             (Scenario.update (Scenario.text_answer "") true)
             (Scenario.store Scenario.full_pool) Scenario.response)
    by reflexivity.
  vm_compute. auto.
Defined.

(** The update of an answer to a question the survey does not have is stored
    as well; a batch skips it. *)
Example UpdateAnswer_unknown_question :
  let st := Scenario.store Scenario.full_pool in
  stored_answers 7
    (snd (UpdateAnswer 3 7 99 (Scenario.update (Scenario.scale_answer 4) false)
            st))
  = [make_answer 7 99 (Scenario.scale_answer 4) 20 false]
  /\ SubmitAnswers 3 7 [Scenario.submit 99 (Scenario.scale_answer 4) false] st
     = (inr tt, st).
Proof. vm_compute. auto. Qed.

End SubmitFacts.

(** ** Completing a response *)

Module CompleteFacts.
Import responseService RepoFacts SubmitFacts.

(** C1, as the code has it.  When the pool of the survey cannot pay,
    [CompleteSurvey] returns "insufficient reward pool" after it has written
    the response back: the stored response is completed, stamped, and carries
    the reported duration and the quality score. *)
Theorem CompleteSurvey_persists_before_settling
    now uid req st st1 response survey pool :
  responses st !! dto.ResponseID req = Some response ->
  Response.ID response = dto.ResponseID req ->
  Response.UserID response = uid ->
  Response.Status response = ResponseStatusStarted ->
  surveys st !! Response.SurveyID response = Some survey ->
  pools st !! Survey.ID survey = Some pool ->
  RewardPool.CanProcessReward pool = false ->
  SubmitAnswers uid (dto.ResponseID req) (dto.Answers req) st = (inr tt, st1) ->
  let result := CompleteSurvey now uid req st in
  fst result = inl "insufficient reward pool"
  /\ exists stored,
       responses (snd result) !! dto.ResponseID req = Some stored
       /\ Response.Status stored = ResponseStatusCompleted
       /\ Response.CompletedAt stored = Some now
       /\ Response.Duration stored = dto.Duration req
       /\ Response.QualityScore stored
          = calculateQualityScore
              (Response.set_Duration (dto.Duration req)
                 (Response.MarkAsCompleted now
                    (Response.set_Answers
                       (stored_answers (dto.ResponseID req) st) response)))
              survey.
Proof.
  intros Hr Hid Hu Hs Hsv Hp Hcan Hsub.
  assert (Hframe : same_but_answers st st1).
  { rewrite (SubmitAnswers_started _ _ _ _ _ _ Hr Hu Hs Hsv) in Hsub.
    pose proof (submit_each_frame survey (dto.ResponseID req)
                  (dto.Answers req) st) as H. now rewrite Hsub in H. }
  destruct Hframe as (Hsurveys & Hresponses & Hpools & _).
  assert (Hfinal :
    (match dto.Answers req with
     | [] => ret tt
     | _ => SubmitAnswers uid (dto.ResponseID req) (dto.Answers req)
     end) st = (inr tt, st1)).
  { destruct (dto.Answers req) eqn:E; [| exact Hsub].
    rewrite (SubmitAnswers_started _ _ _ _ _ _ Hr Hu Hs Hsv) in Hsub.
    cbn in Hsub. exact Hsub. }
  destruct (owner_started_checks uid response Hu Hs) as [Hown Hstarted].
  cbv zeta. unfold CompleteSurvey.
  rewrite (bind_inr _ _ _ _ _ (GetByID_found _ _ _ Hr)).
  cbn [Response.UserID Response.Status Response.SurveyID Response.set_Answers].
  rewrite (reject_false _ _ _ Hown), (reject_false _ _ _ Hstarted).
  rewrite (bind_inr _ _ _ _ _ Hfinal).
  erewrite bind_inr
    by (unfold surveyRepo.GetByID; rewrite Hsurveys, Hsv; reflexivity).
  erewrite bind_inr by reflexivity.
  erewrite bind_inl.
  2:{ unfold processRewards.
      erewrite bind_inr
        by (unfold rewardRepo.GetPoolBySurveyID; cbn [pools set_responses];
            rewrite Hpools, Hp; reflexivity).
      apply reject_true. now rewrite Hcan. }
  cbn [fst snd]. split; [reflexivity |].
  eexists. cbn [responses set_responses].
  rewrite <- Hid.
  change (Response.ID response) with
    (Response.ID
       (Response.set_QualityScore
          (calculateQualityScore
             (Response.set_Duration (dto.Duration req)
                (Response.MarkAsCompleted now
                   (Response.set_Answers
                      (stored_answers (Response.ID response) st) response)))
             survey)
          (Response.set_Duration (dto.Duration req)
             (Response.MarkAsCompleted now
                (Response.set_Answers
                   (stored_answers (Response.ID response) st) response))))) at 1.
  rewrite lookup_insert_eq.
  split; [reflexivity |].
  cbn -[calculateQualityScore]. repeat split.
Qed.

(** The scenario of the specification: 30 left in the pool, 50 per response.
    The call fails and the response is stored as completed. *)
Lemma CompleteSurvey_persists_before_settling_witness :
  let result :=
    CompleteSurvey Scenario.now 3 (Scenario.complete [])
      (Scenario.store Scenario.short_pool) in
  fst result = inl "insufficient reward pool"
  /\ exists stored,
       responses (snd result) !! 7%N = Some stored
       /\ Response.Status stored = ResponseStatusCompleted
       /\ Response.CompletedAt stored = Some Scenario.now
       /\ Response.Duration stored = 180
       /\ Response.QualityScore stored
          = calculateQualityScore
              (Response.set_Duration 180
                 (Response.MarkAsCompleted Scenario.now
                    (Response.set_Answers
                       (stored_answers 7 (Scenario.store Scenario.short_pool))
                       Scenario.response)))
              Scenario.survey.
Proof.
  apply (CompleteSurvey_persists_before_settling Scenario.now 3
           (Scenario.complete []) (Scenario.store Scenario.short_pool)
           (Scenario.store Scenario.short_pool) Scenario.response
           Scenario.survey Scenario.short_pool);
    vm_compute; reflexivity.
Defined.

(** The same on a pool the program reaches, the one its last settlement
    closed; nothing is paid, and the user cannot try again: the response is no
    longer started. *)
Example CompleteSurvey_spent_pool :
  let st := Scenario.store Scenario.spent_pool in
  let result := CompleteSurvey Scenario.now 3 (Scenario.complete []) st in
  fst result = inl "insufficient reward pool"
  /\ Response.Status <$> (responses (snd result) !! 7%N)
     = Some ResponseStatusCompleted
  /\ transactions (snd result) = []
  /\ total_earned (snd result) !! 3%N = Some 0%float
  /\ fst (CompleteSurvey Scenario.now 3 (Scenario.complete []) (snd result))
     = inl "response is not active".
Proof. vm_compute. auto. Qed.

(** The scenario of the specification that succeeds: three minutes on
    answered questions, no skip, a pool that can pay. *)
Example CompleteSurvey_scenario :
  let st :=
    snd (SubmitAnswers 3 7
           [Scenario.submit 1 (Scenario.text_answer "hello") false;
            Scenario.submit 2 (Scenario.scale_answer 4) false]
           (Scenario.store Scenario.full_pool)) in
  fst (CompleteSurvey Scenario.now 3 (Scenario.complete []) st)
  = inr {| dto.completion_ResponseID := 7;
           dto.completion_Status := "completed";
           dto.completion_CompletedAt := Some Scenario.now;
           dto.completion_Duration := 180;
           dto.RewardEarned := 50;
           dto.XpEarned := 100;
           dto.NFTCertificate := Some "NFT-CERT-1-3-7";
           dto.TransactionHash := None;
           dto.Message :=
             "Survey completed successfully! Your rewards will be processed shortly."
        |}.
Proof. vm_compute. reflexivity. Qed.

End CompleteFacts.

(** ** The quality score *)

Module ScoreFacts.
Import responseService GoIntFacts Binary64Facts.

(** The counter of skipped required answers grows by one per answer at
    most. *)
Lemma count_skipped_required_bounds questions answers c :
  0 <= c -> c + GoInt.len answers <= GoInt.max_int ->
  c <= count_skipped_required questions answers c <= c + GoInt.len answers.
Proof.
  revert c. induction answers as [| answer rest IH]; intros c Hc Hmax.
  - cbn. unfold GoInt.len. cbn. lia.
  - cbn [count_skipped_required]. rewrite len_cons in *.
    pose proof (len_nonneg rest).
    destruct (_ && _).
    + rewrite (incr_below c GoInt.max_int);
        [| unfold GoInt.in_range, GoInt.min_int, GoInt.max_int; lia
         | unfold GoInt.min_int; lia | lia].
      specialize (IH (c + 1) ltac:(lia) ltac:(lia)). lia.
    + specialize (IH c ltac:(lia) ltac:(lia)). lia.
Qed.

(** C5, as the code has it.  For a survey with at least one question the
    quality score is a number between 0 and 5, whatever the answers and the
    duration.  For a response with no answer and a duration that is not
    negative the pacing test (duration divided by zero, compared with 5) is
    false, so the penalty is not applied, and the score is 0. *)
Theorem calculateQualityScore_range (response : Response.t) (survey : Survey.t) :
  1 <= GoInt.len (Survey.Questions survey) <= GoInt.max_int ->
  GoInt.len (Response.Answers response) <= GoInt.max_int ->
  GoFloat.between 0 5 (calculateQualityScore response survey) = true
  /\ (Response.Answers response = [] ->
      0 <= Response.Duration response <= GoInt.max_int ->
      (GoFloat.of_int (Response.Duration response)
       / GoFloat.of_int (GoInt.len (Response.Answers response)) <? 5)%float
      = false
      /\ calculateQualityScore response survey = 0%float).
Proof.
  intros Ht Ha.
  pose proof (len_nonneg (Response.Answers response)) as Ha0.
  split.
  - apply clamp_score_range, (SFsmall_not_nan 190).
    fold (small 190).
    pose proof (count_skipped_required_bounds (Survey.Questions survey)
                  (Response.Answers response) 0 ltac:(lia) ltac:(lia)) as Hk.
    set (k := count_skipped_required _ _ 0) in *.
    assert (Hrate : small 117
              (GoFloat.of_int (GoInt.len (Response.Answers response))
               / GoFloat.of_int (GoInt.len (Survey.Questions survey)))%float).
    { apply (div_small 64 (-52));
        [apply of_int_small; lia | apply of_int_positive; lia | lia | lia]. }
    assert (Hfive : small 3 5%float) by (vm_compute; discriminate).
    assert (Hbase : small 121
              (5 * (GoFloat.of_int (GoInt.len (Response.Answers response))
                    / GoFloat.of_int (GoInt.len (Survey.Questions survey))))%float)
      by (apply (mul_small 3 117); [assumption | assumption | lia | lia]).
    set (base := (5 * _)%float) in *.
    assert (Hpaced : small 122
              (if (GoFloat.of_int (Response.Duration response)
                   / GoFloat.of_int (GoInt.len (Response.Answers response)) <? 5)%float
               then (base * 0.7)%float else base)).
    { destruct (_ <? _)%float.
      - apply (mul_small 121 0);
          [assumption | vm_compute; discriminate | lia | lia].
      - apply (SFsmall_weaken 121); [lia | assumption]. }
    set (paced := if (_ <? 5)%float then _ else _) in *.
    destruct (0 <? k) eqn:Hpos.
    + apply (mul_small 122 64); [assumption | | lia | lia].
      apply (sub_small 1 62); [vm_compute; discriminate | | lia | lia].
      apply (mul_small 64 (-3));
        [apply of_int_small; lia | vm_compute; discriminate | lia | lia].
    + apply (SFsmall_weaken 122); [lia | assumption].
  - intros Hnil Hd. unfold calculateQualityScore. rewrite Hnil.
    change (GoInt.len []) with 0.
    change (count_skipped_required (Survey.Questions survey) [] 0) with 0.
    change (GoFloat.of_int 0) with 0%float.
    destruct (of_int_positive (GoInt.len (Survey.Questions survey)) Ht)
      as (m & e & Hq & _).
    assert (Hrate : (0 / GoFloat.of_int (GoInt.len (Survey.Questions survey)))%float
                    = 0%float).
    { apply Prim2SF_inj. rewrite div_spec, Hq. reflexivity. }
    rewrite Hrate.
    assert (Hpace : (GoFloat.of_int (Response.Duration response) / 0 <? 5)%float
                    = false).
    { rewrite ltb_spec, div_spec.
      destruct (Z.eq_dec (Response.Duration response) 0) as [-> | Hnz];
        [reflexivity |].
      destruct (of_int_positive (Response.Duration response) ltac:(lia))
        as (md & ed & -> & _).
      reflexivity. }
    rewrite Hpace. split; [reflexivity |]. vm_compute. reflexivity.
Qed.

(** A response of the scenario with both questions answered, scored on the
    scenario's survey. *)
Lemma calculateQualityScore_range_witness :
  GoFloat.between 0 5
    (calculateQualityScore
       (Response.set_Duration 180
          (Response.set_Answers
             [answer_of 7 (Scenario.submit 1 (Scenario.text_answer "hello") false);
              answer_of 7 (Scenario.submit 2 (Scenario.scale_answer 4) false)]
             Scenario.response))
       Scenario.survey)
  = true.
Proof.
  refine (proj1 (calculateQualityScore_range _ _ _ _));
    vm_compute; try split; discriminate.
Defined.

(** A survey without questions and a response without answers: zero divided
    by zero is not a number, the clamp lets it through, and the score is
    neither at least 0 nor at most 5. *)
Lemma calculateQualityScore_no_questions :
  GoInt.len (Response.Answers Scenario.response)
    <= GoInt.len (Survey.Questions Survey.zero)
  /\ 0 <= Response.Duration Scenario.response
  /\ Prim2SF (calculateQualityScore Scenario.response
                Survey.zero)
     = S754_nan
  /\ GoFloat.between 0 5
       (calculateQualityScore Scenario.response Survey.zero)
     = false.
Proof. vm_compute. repeat split; discriminate. Qed.

End ScoreFacts.

(** ** Settling the reward *)

Module SettleFacts.
Import responseService RepoFacts GoIntFacts Binary64Facts.

Lemma scaled_not_negative (estimated : Z) (q : float) :
  0 <= estimated <= GoInt.max_int ->
  (0 <=? q)%float = true ->
  SFnot_negative (Prim2SF (GoFloat.of_int estimated * 10 * (q / 5))%float).
Proof.
  intros He Hq. rewrite !mul_spec, div_spec.
  apply SFmul_not_negative.
  - apply SFmul_not_negative; [now apply of_int_not_negative |].
    vm_compute. exact I.
  - apply SFdiv_five_not_negative. now apply leb_zero_not_negative.
Qed.

(** The experience value before truncation is below [2 ^ 63]. *)
Lemma scaled_small (estimated : Z) (q : float) :
  0 <= estimated < 2 ^ 54 ->
  GoFloat.between 0 5 q = true ->
  small 63 (GoFloat.of_int estimated * 10 * (q / 5))%float.
Proof.
  intros He Hq.
  apply (mul_small 60 2); [| | lia | lia].
  - apply (mul_small 55 4); [| | lia | lia].
    + apply (of_int_small_below estimated 54); [lia | exact He].
    + vm_compute. discriminate.
  - unfold small. rewrite div_spec.
    change (Prim2SF 5) with (S754_finite false 5629499534213120 (-50)).
    apply (SFdiv_small_tight 3 3);
      [now apply between_0_5_small | vm_compute; discriminate | lia].
Qed.

(** C3.  A settlement on a pool that can pay, for a response whose quality
    score [q] is between 0 and 5, on a survey whose estimated duration is not
    negative and is below [2 ^ 54] minutes: the pool's count of responses goes
    up by one, its paid-out amount goes up and its remaining amount goes down
    by the pool's reward per response; the transaction recorded and the amount
    added to the user's earnings are the survey's reward per response times
    [q / 5]; the experience points returned are the floor of the estimated
    duration times 10 times [q / 5]; and these points are credited nowhere:
    the tables after the call are the tables before it with the pool debited,
    the transaction recorded and the earnings raised, and they would be the
    same whatever number of points had been handed to the user repository. *)
Theorem processRewards_settles
    (response : Response.t) (survey : Survey.t) (pool : RewardPool.t)
    (st : Store) :
  pools st !! Survey.ID survey = Some pool ->
  RewardPool.SurveyID pool = Survey.ID survey ->
  RewardPool.CanProcessReward pool = true ->
  GoInt.in_range (RewardPool.MaxResponses pool) ->
  GoInt.min_int <= RewardPool.CurrentResponses pool ->
  0 <= Survey.EstimatedDuration survey < 2 ^ 54 ->
  GoFloat.between 0 5 (Response.QualityScore response) = true ->
  let multiplier := (Response.QualityScore response / 5)%float in
  let amount := (Survey.RewardPerResponse survey * multiplier)%float in
  let scaled :=
    (GoFloat.of_int (Survey.EstimatedDuration survey) * 10 * multiplier)%float in
  let transaction := reward_transaction response survey pool amount in
  let pool' := snd (RewardPool.ProcessReward pool) in
  exists xp st',
    processRewards response survey st = (inr (amount, xp), st')
    /\ GoFloat.floor scaled = Some xp
    /\ RewardPool.CurrentResponses pool' = RewardPool.CurrentResponses pool + 1
    /\ RewardPool.PaidOut pool'
       = (RewardPool.PaidOut pool + RewardPool.RewardPerResponse pool)%float
    /\ RewardPool.RemainingAmount pool'
       = (RewardPool.RemainingAmount pool
          - RewardPool.RewardPerResponse pool)%float
    /\ st'
       = {| surveys := surveys st;
            responses := responses st;
            answers := answers st;
            pools := <[Survey.ID survey := pool']> (pools st);
            transactions := transaction :: transactions st;
            total_earned :=
              alter (fun total => (total + amount)%float)
                (Response.UserID response) (total_earned st);
            next_response_id := next_response_id st |}
    /\ (forall points : float,
          st' = snd (userRepo.UpdateBalance (Response.UserID response) amount
                       points
                       (snd (rewardRepo.ProcessReward pool transaction st)))).
Proof.
  intros Hp Hsid Hcan Hmax Hcur Hest Hq multiplier amount scaled transaction
    pool'.
  assert (Hq0 : (0 <=? Response.QualityScore response)%float = true).
  { unfold GoFloat.between in Hq. now apply andb_prop in Hq as [Hq0 _]. }
  assert (Hest' : 0 <= Survey.EstimatedDuration survey <= GoInt.max_int).
  { assert (2 ^ 54 <= GoInt.max_int) by (vm_compute; discriminate). lia. }
  destruct (floor_to_int scaled (scaled_small _ _ Hest Hq)
              (scaled_not_negative _ _ Hest' Hq0)) as [Hfloor _].
  assert (HPR : RewardPool.ProcessReward pool = (None, pool')).
  { subst pool'. destruct (RewardPool.ProcessReward pool) as [[e |] p] eqn:E.
    - apply (f_equal fst) in E. cbn in E.
      apply RewardPoolFacts.ProcessReward_result in Hcan. congruence.
    - reflexivity. }
  assert (Hrepo : rewardRepo.ProcessReward pool transaction st
                  = (inr tt,
                     {| surveys := surveys st; responses := responses st;
                        answers := answers st;
                        pools := <[Survey.ID survey := pool']> (pools st);
                        transactions := transaction :: transactions st;
                        total_earned := total_earned st;
                        next_response_id := next_response_id st |})).
  { unfold rewardRepo.ProcessReward. rewrite HPR, Hsid. reflexivity. }
  exists (GoFloat.to_int scaled). eexists.
  split; [| split; [exact Hfloor |]].
  - unfold processRewards.
    erewrite bind_inr
      by (unfold rewardRepo.GetPoolBySurveyID; rewrite Hp; reflexivity).
    rewrite reject_false by (now rewrite Hcan).
    cbv zeta.
    fold multiplier. fold amount. fold scaled. fold transaction.
    erewrite bind_inr by exact Hrepo.
    erewrite bind_inr by reflexivity.
    reflexivity.
  - pose proof (RewardPoolFacts.ProcessReward_fields pool Hcan) as Hf.
    cbv zeta in Hf. fold pool' in Hf.
    destruct Hf as (Hc & Hpaid & Hrem & _).
    split.
    { rewrite Hc.
      unfold RewardPool.CanProcessReward, RewardPool.IsAvailable in Hcan.
      apply andb_prop in Hcan as [Hcan _].
      apply andb_prop in Hcan as [_ Hlt]. apply Z.ltb_lt in Hlt.
      now apply (incr_below _ (RewardPool.MaxResponses pool)). }
    split; [exact Hpaid |]. split; [exact Hrem |].
    split; [reflexivity |].
    intros points. rewrite Hrepo. reflexivity.
Qed.

(** The settlement of the scenario: 50 paid, 100 experience points. *)
Lemma processRewards_settles_witness :
  exists st',
    processRewards Scenario.scored_response Scenario.survey
      (Scenario.store Scenario.full_pool)
    = (inr (50%float, 100), st')
    /\ (RewardPool.CurrentResponses <$> pools st' !! 1%N) = Some 1
    /\ total_earned st' !! 3%N = Some 50%float.
Proof.
  destruct (processRewards_settles Scenario.scored_response Scenario.survey
              Scenario.full_pool (Scenario.store Scenario.full_pool))
    as (xp & st' & Hrun & Hfloor & Hcur & _ & _ & Hst & _);
    try (vm_compute; reflexivity);
    try (vm_compute; split; discriminate);
    try (vm_compute; split; [discriminate | reflexivity]);
    try (vm_compute; discriminate).
  exists st'.
  assert (Hxp : xp = 100) by (vm_compute in Hfloor; congruence).
  subst xp. split; [exact Hrun |].
  rewrite Hst. split; vm_compute; reflexivity.
Defined.

(** Two settlements of the scenario's response, one on the survey of ten
    minutes and one on the same survey with no estimate: the first returns
    100 experience points and the second none, and they leave the same
    tables, in which the user's row has gained the 50 earned and nothing
    else. *)
Lemma processRewards_credits_no_points :
  let st := Scenario.store Scenario.full_pool in
  let first := processRewards Scenario.scored_response Scenario.survey st in
  let second :=
    processRewards Scenario.scored_response Examples.untimed_survey st in
  fst first = inr (50%float, 100)
  /\ fst second = inr (50%float, 0)
  /\ snd first = snd second
  /\ total_earned (snd first) = {[ 3%N := 50%float ]}.
Proof. vm_compute. auto. Qed.

End SettleFacts.

(** ** Products of whole numbers *)

Module WholeMulFacts.
Import Binary64Facts WholeFacts.

Lemma SFwhole_digits (p : positive) :
  Z.pos p < 2 ^ 53 ->
  let d := Z.pos (digits2_pos p) in
  let m := Z.to_pos (Z.pos p * 2 ^ (53 - d)) in
  Z.pos m = Z.pos p * 2 ^ (53 - d) /\ Z.pos (digits2_pos m) = 53.
Proof.
  intros Hp d m. pose proof (digits_whole p Hp) as Hd. fold d in Hd.
  assert (H2 : 0 < 2 ^ (53 - d)) by (apply Z.pow_pos_nonneg; lia).
  assert (Hm : Z.pos m = Z.pos p * 2 ^ (53 - d))
    by (subst m; apply Z2Pos.id; nia).
  split; [exact Hm |].
  change (Zdigits2 (Z.pos m) = 53). rewrite Hm.
  rewrite Zdigits2_shl_eq by lia. cbn [Zdigits2]. fold d. lia.
Qed.

(** The product of two whole numbers is computed without rounding when it is
    below [2 ^ 53]. *)
Lemma SFmul_whole (a b : Z) :
  0 <= a -> 0 <= b -> a * b < 2 ^ 53 ->
  SF64mul (SFwhole a) (SFwhole b) = SFwhole (a * b).
Proof.
  intros Ha Hb Hab.
  destruct a as [| p | p], b as [| q | q]; try lia; try reflexivity.
  assert (Hp : Z.pos p < 2 ^ 53) by nia.
  assert (Hq : Z.pos q < 2 ^ 53) by nia.
  change (Z.pos p * Z.pos q) with (Z.pos (p * q)) in *.
  cbn [SFwhole]. unfold SF64mul, SFmul. cbn [xorb].
  pose proof (SFwhole_digits p Hp) as [Hmp _].
  pose proof (SFwhole_digits q Hq) as [Hmq _].
  pose proof (SFwhole_digits (p * q) Hab) as [Hmpq Hdpq].
  pose proof (digits_whole p Hp) as Hdp.
  pose proof (digits_whole q Hq) as Hdq.
  pose proof (digits_whole (p * q) Hab) as Hdpq53.
  set (dp := Z.pos (digits2_pos p)) in *.
  set (dq := Z.pos (digits2_pos q)) in *.
  set (dpq := Z.pos (digits2_pos (p * q))) in *.
  set (mp := Z.to_pos (Z.pos p * 2 ^ (53 - dp))) in *.
  set (mq := Z.to_pos (Z.pos q * 2 ^ (53 - dq))) in *.
  set (mpq := Z.to_pos (Z.pos (p * q) * 2 ^ (53 - dpq))) in *.
  assert (Hlow : dp + dq - 1 <= dpq).
  { pose proof (digits2_pos_bounds p) as [Hlp _].
    pose proof (digits2_pos_bounds q) as [Hlq _].
    fold dp in Hlp. fold dq in Hlq.
    assert (1 <= dp) by (subst dp; lia). assert (1 <= dq) by (subst dq; lia).
    apply (Zdigits2_ge (Z.pos (p * q)) (dp + dq - 1)); [| lia].
    replace (dp + dq - 1 - 1) with ((dp - 1) + (dq - 1)) by lia.
    rewrite Z.pow_add_r by lia. rewrite Pos2Z.inj_mul.
    assert (0 < 2 ^ (dp - 1)) by (apply Z.pow_pos_nonneg; lia).
    assert (0 < 2 ^ (dq - 1)) by (apply Z.pow_pos_nonneg; lia).
    nia. }
  set (n := 53 + dpq - dp - dq).
  assert (Hshape : Z.pos (mp * mq) = Z.pos mpq * 2 ^ n).
  { rewrite Pos2Z.inj_mul, Hmp, Hmq, Hmpq, Pos2Z.inj_mul.
    assert (Hn : 0 <= n) by (subst n; lia).
    replace (2 ^ (53 - dp)) with (2 ^ (53 - dpq) * 2 ^ (dpq - dp)).
    2:{ rewrite <- Z.pow_add_r by lia. f_equal. lia. }
    replace (2 ^ n) with (2 ^ (dpq - dp) * 2 ^ (53 - dq)).
    2:{ rewrite <- Z.pow_add_r by lia. f_equal. subst n. lia. }
    ring. }
  rewrite Hshape.
  replace (dp - 53 + (dq - 53)) with (dpq - 53 - n) by (subst n; lia).
  apply binary_round_aux_exact; [subst n; lia | exact Hdpq |].
  assert (1 <= dpq) by (subst dpq; lia). lia.
Qed.

Lemma whole_mul (x y : float) (a b : Z) :
  whole x a -> whole y b -> a * b < 2 ^ 53 -> whole (x * y)%float (a * b).
Proof.
  intros Hx Hy Hab. pose proof Hx as [Ha _]. pose proof Hy as [Hb _].
  apply whole_intro; [nia |].
  rewrite mul_spec, (whole_spec x a Hx), (whole_spec y b Hy).
  apply SFmul_whole; lia.
Qed.

(** The product of two binary64 numbers does not depend on their order. *)
Lemma SFmul_comm (x y : spec_float) : SF64mul x y = SF64mul y x.
Proof.
  destruct x as [sx | sx | | sx mx ex], y as [sy | sy | | sy my ey];
    cbn; rewrite ?(xorb_comm sx sy); try reflexivity.
  now rewrite (Pos.mul_comm mx my), (Z.add_comm ex ey).
Qed.

Lemma mul_comm (x y : float) : (x * y)%float = (y * x)%float.
Proof. apply Prim2SF_inj. rewrite !mul_spec. apply SFmul_comm. Qed.

Lemma whole_zero : whole 0%float 0.
Proof. split; [lia | reflexivity]. Qed.

Lemma whole_inj (x : float) (a b : Z) : whole x a -> whole x b -> a = b.
Proof.
  intros Ha Hb. pose proof (whole_eqb x x a b Ha Hb) as H1.
  pose proof (whole_eqb x x a a Ha Ha) as H2.
  rewrite Z.eqb_refl in H2. rewrite H2 in H1. symmetry in H1.
  now apply Z.eqb_eq.
Qed.

End WholeMulFacts.

(** ** The reward pool over many settlements *)

Module PoolFacts.
Import RewardPool GoIntFacts WholeFacts WholeMulFacts RewardPoolFacts.

Lemma settlements_S (n : nat) (rp : t) :
  settlements (S n) rp = snd (ProcessReward (settlements n rp)).
Proof. reflexivity. Qed.

Lemma CanProcessReward_below (rp : t) :
  CanProcessReward rp = true ->
  IsActive rp = true /\ CurrentResponses rp < MaxResponses rp
  /\ (RewardPerResponse rp <=? RemainingAmount rp)%float = true.
Proof.
  unfold CanProcessReward, IsAvailable. intros H.
  apply andb_prop in H as [H Hle]. apply andb_prop in H as [H Hlt].
  apply andb_prop in H as [Hact _]. apply Z.ltb_lt in Hlt. auto.
Qed.

(** One call: the count of responses stays, or goes up by one and stays
    within the maximum. *)
Lemma ProcessReward_count (rp : t) :
  GoInt.in_range (MaxResponses rp) ->
  GoInt.min_int <= CurrentResponses rp <= MaxResponses rp ->
  let rp' := snd (ProcessReward rp) in
  CurrentResponses rp <= CurrentResponses rp' <= MaxResponses rp
  /\ CurrentResponses rp' <= CurrentResponses rp + 1
  /\ MaxResponses rp' = MaxResponses rp.
Proof.
  intros Hmax Hcur rp'.
  pose proof (ProcessReward_keeps rp) as Hk. cbv zeta in Hk. fold rp' in Hk.
  destruct Hk as (_ & _ & _ & _ & Hm).
  destruct (CanProcessReward rp) eqn:Hcan.
  - pose proof (ProcessReward_fields rp Hcan) as Hf. cbv zeta in Hf.
    fold rp' in Hf. destruct Hf as (Hc & _).
    apply CanProcessReward_below in Hcan as (_ & Hlt & _).
    rewrite (incr_below _ (MaxResponses rp)) in Hc by (try assumption; lia).
    lia.
  - assert (Hsame : rp' = rp).
    { subst rp'. unfold ProcessReward. now rewrite Hcan. }
    rewrite Hsame. lia.
Qed.

(** X1.  Whatever the number of calls of [ProcessReward] and whatever each
    returns, a pool whose count of responses is within its maximum keeps it
    within its maximum: the count never goes down, goes up by one per call at
    most, and the maximum is not changed. *)
Theorem settlements_within_capacity (rp : t) (n : nat) :
  GoInt.in_range (MaxResponses rp) ->
  GoInt.min_int <= CurrentResponses rp <= MaxResponses rp ->
  let rp' := settlements n rp in
  CurrentResponses rp <= CurrentResponses rp' <= MaxResponses rp
  /\ CurrentResponses rp' <= CurrentResponses rp + Z.of_nat n
  /\ MaxResponses rp' = MaxResponses rp.
Proof.
  intros Hmax Hcur. induction n as [| n IH]; [cbn; lia |].
  cbv zeta in IH |- *. rewrite settlements_S.
  destruct IH as (IH1 & IH2 & IH3).
  pose proof (ProcessReward_count (settlements n rp)) as H.
  cbv zeta in H. rewrite IH3 in H.
  specialize (H Hmax ltac:(lia)). lia.
Qed.

(** Three calls on a pool that has two responses left: two of them settle
    and the third is refused. *)
Lemma settlements_within_capacity_witness :
  let rp' := settlements 3 Examples.nearly_spent_pool in
  98 <= CurrentResponses rp' <= 100 /\ CurrentResponses rp' <= 98 + 3
  /\ MaxResponses rp' = 100.
Proof.
  apply (settlements_within_capacity Examples.nearly_spent_pool 3);
    vm_compute; split; discriminate.
Defined.

Example settlements_nearly_spent :
  CurrentResponses (settlements 3 Examples.nearly_spent_pool) = 100
  /\ PaidOut (settlements 3 Examples.nearly_spent_pool) = 5000%float
  /\ fst (ProcessReward (settlements 2 Examples.nearly_spent_pool))
     = Some "cannot process reward: insufficient funds or pool inactive".
Proof. vm_compute. auto. Qed.

(** X2.  For a reward that is a whole number, 1 at least, and a remaining
    amount that is a whole number, the active flag a successful settlement
    leaves says whether the next settlement can be made: it is the value of
    [CanProcessReward] on the pool as the call leaves it. *)
Theorem ProcessReward_flag_is_CanProcessReward (rp : t) (reward remaining : Z) :
  CanProcessReward rp = true ->
  GoInt.in_range (MaxResponses rp) ->
  GoInt.min_int <= CurrentResponses rp ->
  whole (RewardPerResponse rp) reward -> 1 <= reward ->
  whole (RemainingAmount rp) remaining ->
  let rp' := snd (ProcessReward rp) in
  IsActive rp' = CanProcessReward rp'.
Proof.
  intros Hcan Hmax Hcur Hr Hr1 Hrem rp'.
  pose proof (ProcessReward_fields rp Hcan) as Hf.
  pose proof (ProcessReward_keeps rp) as Hk.
  cbv zeta in Hf, Hk. fold rp' in Hf, Hk.
  destruct Hf as (Hc & _ & Hrem' & Hact).
  destruct Hk as (_ & _ & _ & Hrew & Hm).
  apply CanProcessReward_below in Hcan as (_ & Hlt & Hle).
  rewrite (whole_leb _ _ _ _ Hr Hrem) in Hle. apply Z.leb_le in Hle.
  rewrite (incr_below _ (MaxResponses rp)) in Hc by assumption.
  assert (Hrem'w : whole (RemainingAmount rp') (remaining - reward)).
  { rewrite Hrem'. now apply whole_sub. }
  assert (Hrw : whole (RewardPerResponse rp') reward) by now rewrite Hrew.
  unfold CanProcessReward, IsAvailable.
  rewrite (whole_leb _ _ _ _ Hrw Hrem'w).
  rewrite (whole_ltb _ _ _ _ whole_zero Hrem'w).
  rewrite Hact, Hm, (whole_ltb _ _ _ _ Hrem'w Hr), Hc.
  destruct (Z.leb_spec (MaxResponses rp) (CurrentResponses rp + 1));
    destruct (Z.ltb_spec (remaining - reward) reward);
    destruct (Z.ltb_spec 0 (remaining - reward));
    destruct (Z.ltb_spec (CurrentResponses rp + 1) (MaxResponses rp));
    destruct (Z.leb_spec reward (remaining - reward));
    cbn; try reflexivity; lia.
Qed.

(** The first settlement of the scenario's pool leaves it active and able to
    pay; the last one leaves it neither. *)
Lemma ProcessReward_flag_is_CanProcessReward_witness :
  (let rp' := snd (ProcessReward Scenario.full_pool) in
   IsActive rp' = CanProcessReward rp')
  /\ IsActive (snd (ProcessReward Scenario.full_pool)) = true.
Proof.
  split; [| vm_compute; reflexivity].
  apply (ProcessReward_flag_is_CanProcessReward Scenario.full_pool 50 5000);
    try (vm_compute; reflexivity);
    try (vm_compute; split; discriminate);
    try (vm_compute; discriminate);
    try (split; [vm_compute; split; [discriminate | reflexivity]
                | vm_compute; reflexivity]).
Defined.

(** A pool in the middle of its life: [k] responses paid out of [m], in whole
    amounts. *)
Lemma ProcessReward_whole_step (rp : t) (r m k : Z) :
  1 <= r -> 0 <= k < m -> r * m < 2 ^ 53 ->
  MaxResponses rp = m -> CurrentResponses rp = k -> IsActive rp = true ->
  whole (RewardPerResponse rp) r ->
  whole (TotalAmount rp) (r * m) ->
  whole (PaidOut rp) (k * r) ->
  whole (RemainingAmount rp) ((m - k) * r) ->
  let rp' := snd (ProcessReward rp) in
  fst (ProcessReward rp) = None
  /\ MaxResponses rp' = m /\ CurrentResponses rp' = k + 1
  /\ IsActive rp' = (k + 1 <? m)
  /\ whole (RewardPerResponse rp') r
  /\ whole (TotalAmount rp') (r * m)
  /\ whole (PaidOut rp') ((k + 1) * r)
  /\ whole (RemainingAmount rp') ((m - (k + 1)) * r).
Proof.
  intros Hr Hk Hrm Hmax Hcur Hact Hrw Htot Hpaid Hrem rp'.
  assert (Hcan : CanProcessReward rp = true).
  { unfold CanProcessReward, IsAvailable.
    rewrite Hact, Hmax, Hcur, (whole_leb _ _ _ _ Hrw Hrem),
      (whole_ltb _ _ _ _ whole_zero Hrem).
    repeat (apply andb_true_intro; split); try reflexivity;
      [apply Z.ltb_lt; nia | apply Z.ltb_lt; lia | apply Z.leb_le; nia]. }
  pose proof (ProcessReward_fields rp Hcan) as Hf.
  pose proof (ProcessReward_keeps rp) as Hkp.
  cbv zeta in Hf, Hkp. fold rp' in Hf, Hkp.
  destruct Hf as (Hc & Hp' & Hrem' & Hact').
  destruct Hkp as (_ & _ & Htot' & Hrew' & Hm').
  rewrite Hcur in Hc.
  rewrite (incr_below k m) in Hc
    by (unfold GoInt.in_range, GoInt.min_int, GoInt.max_int; nia).
  assert (Hremw : whole (RemainingAmount rp') ((m - (k + 1)) * r)).
  { rewrite Hrem'. replace ((m - (k + 1)) * r) with ((m - k) * r - r) by ring.
    apply whole_sub; [assumption | assumption | nia]. }
  split; [now apply ProcessReward_result |].
  split; [congruence |]. split; [exact Hc |].
  split.
  { rewrite Hact', Hc, Hmax, (whole_ltb _ _ _ _ Hremw Hrw).
    destruct (Z.leb_spec m (k + 1)); destruct (Z.ltb_spec (k + 1) m);
      destruct (Z.ltb_spec ((m - (k + 1)) * r) r); cbn; try reflexivity;
      try lia; nia. }
  split; [now rewrite Hrew' |]. split; [now rewrite Htot' |].
  split; [| exact Hremw].
  rewrite Hp'. replace ((k + 1) * r) with (k * r + r) by ring.
  apply whole_add; [assumption | assumption | nia].
Qed.

(** X3.  A pool that starts with nothing paid, a reward per response that is
    a whole number [r], 1 at least, a maximum of [m] responses, and [r * m]
    as its total and remaining amounts (below [2 ^ 53]) pays exactly [m]
    responses: each of the first [m] settlements succeeds; after [k] of them
    the count is [k], the paid-out amount [k * r], the remaining amount
    [(m - k) * r], and the remaining amount is the total less the paid-out
    amount; the pool is active and can pay as long as [k < m], and after the
    [m]-th it is inactive and every further call fails. *)
Theorem fresh_pool_pays_every_response (rp : t) (r m : Z) (k : nat) :
  1 <= r -> 1 <= m -> r * m < 2 ^ 53 ->
  MaxResponses rp = m -> CurrentResponses rp = 0 -> IsActive rp = true ->
  whole (RewardPerResponse rp) r ->
  whole (TotalAmount rp) (r * m) ->
  PaidOut rp = 0%float ->
  whole (RemainingAmount rp) (r * m) ->
  Z.of_nat k <= m ->
  let rp' := settlements k rp in
  CurrentResponses rp' = Z.of_nat k
  /\ whole (PaidOut rp') (Z.of_nat k * r)
  /\ whole (RemainingAmount rp') ((m - Z.of_nat k) * r)
  /\ invariant rp' = true
  /\ IsActive rp' = (Z.of_nat k <? m)
  /\ CanProcessReward rp' = (Z.of_nat k <? m)
  /\ (fst (ProcessReward rp') = None <-> Z.of_nat k < m).
Proof.
  intros Hr Hm Hrm Hmax Hcur Hact Hrw Htot Hpaid Hrem Hk rp'.
  assert (Hstate :
    MaxResponses rp' = m /\ CurrentResponses rp' = Z.of_nat k
    /\ IsActive rp' = (Z.of_nat k <? m)
    /\ whole (RewardPerResponse rp') r
    /\ whole (TotalAmount rp') (r * m)
    /\ whole (PaidOut rp') (Z.of_nat k * r)
    /\ whole (RemainingAmount rp') ((m - Z.of_nat k) * r)).
  { subst rp'. induction k as [| k IH].
    - change (settlements 0 rp) with rp. change (Z.of_nat 0) with 0.
      assert (H0 : (0 <? m) = true) by (apply Z.ltb_lt; lia).
      rewrite H0, Hpaid, Z.sub_0_r, (Z.mul_comm m r). change (0 * r) with 0.
      pose proof whole_zero. tauto.
    - rewrite settlements_S.
      destruct (IH ltac:(lia)) as (I1 & I2 & I3 & I4 & I5 & I6 & I7).
      assert (Hkm : (Z.of_nat k <? m) = true) by (apply Z.ltb_lt; lia).
      rewrite Hkm in I3.
      pose proof (ProcessReward_whole_step (settlements k rp) r m (Z.of_nat k)
                    Hr ltac:(lia) Hrm I1 I2 I3 I4 I5 I6 I7) as H.
      cbv zeta in H. rewrite Nat2Z.inj_succ.
      replace (Z.succ (Z.of_nat k)) with (Z.of_nat k + 1) by lia.
      tauto. }
  destruct Hstate as (S1 & S2 & S3 & S4 & S5 & S6 & S7).
  assert (Hcan : CanProcessReward rp' = (Z.of_nat k <? m)).
  { unfold CanProcessReward, IsAvailable.
    rewrite S3, S1, S2, (whole_leb _ _ _ _ S4 S7),
      (whole_ltb _ _ _ _ whole_zero S7).
    destruct (Z.ltb_spec (Z.of_nat k) m);
      destruct (Z.ltb_spec 0 ((m - Z.of_nat k) * r));
      destruct (Z.leb_spec r ((m - Z.of_nat k) * r));
      cbn; try reflexivity; nia. }
  split; [exact S2 |]. split; [exact S6 |]. split; [exact S7 |].
  split.
  { unfold invariant.
    assert (Hle : Z.of_nat k * r <= r * m) by nia.
    rewrite (whole_eqb _ _ _ _ S7 (whole_sub _ _ _ _ S5 S6 Hle)).
    apply Z.eqb_eq. ring. }
  split; [exact S3 |]. split; [exact Hcan |].
  rewrite ProcessReward_result, Hcan. apply Z.ltb_lt.
Qed.

(** The pool of the scenario, 100 responses at 50 each: after all of them the
    5000 are paid, nothing remains, and the pool is inactive. *)
Lemma fresh_pool_pays_every_response_witness :
  let rp' := settlements 100 Scenario.full_pool in
  CurrentResponses rp' = 100
  /\ PaidOut rp' = 5000%float /\ RemainingAmount rp' = 0%float
  /\ IsActive rp' = false.
Proof.
  destruct (fresh_pool_pays_every_response Scenario.full_pool 50 100 100)
    as (H1 & [_ H2] & [_ H3] & _ & H5 & _);
    [lia | lia | reflexivity | reflexivity | reflexivity | reflexivity
    | split; [lia | reflexivity] | split; [lia | reflexivity] | reflexivity
    | split; [lia | reflexivity] | vm_compute; discriminate |].
  cbv zeta. rewrite H1, H2, H3, H5. vm_compute. repeat split.
Defined.

End PoolFacts.

(** ** Reward transactions and user balances *)

Module TransactionFacts.
Import RewardTransactionMethods GoIntFacts.

Lemma MarkAsFailed_n_count (reason : string) (rt : t) (n : nat) :
  0 <= RetryCount rt -> RetryCount rt + Z.of_nat n <= GoInt.max_int ->
  RetryCount (Nat.iter n (MarkAsFailed reason) rt)
  = RetryCount rt + Z.of_nat n.
Proof.
  intros H0. induction n as [| n IH]; intros Hn; [cbn; lia |].
  cbn [Nat.iter nat_rect]. cbn [MarkAsFailed RetryCount].
  change (nat_rect _ rt (fun _ => MarkAsFailed reason) n)
    with (Nat.iter n (MarkAsFailed reason) rt).
  rewrite IH by lia.
  rewrite (incr_below _ GoInt.max_int);
    unfold GoInt.in_range, GoInt.min_int, GoInt.max_int in *; lia.
Qed.

(** X4.  A transaction that has been marked failed [n] times, once at least,
    counts each failure, and can be retried exactly when the count is below 3:
    from a new transaction, after the first and the second failure and no
    longer after the third.  Marking it completed then closes it: it is
    completed, not pending, and cannot be retried. *)
Theorem MarkAsFailed_retry_budget (reason : string) (rt : t) (n : nat)
    (now : GoTime.t) (txHash : string) (blockNumber : Z) :
  0 <= RetryCount rt -> RetryCount rt + Z.of_nat n <= GoInt.max_int ->
  (1 <= n)%nat ->
  let rt' := Nat.iter n (MarkAsFailed reason) rt in
  RetryCount rt' = RetryCount rt + Z.of_nat n
  /\ FailureReason rt' = Some reason
  /\ CanRetry rt' = (RetryCount rt + Z.of_nat n <? 3)
  /\ IsPending rt' = false /\ IsCompleted rt' = false
  /\ (let done := MarkAsCompleted now txHash blockNumber rt' in
      IsCompleted done = true /\ IsPending done = false
      /\ CanRetry done = false /\ RetryCount done = RetryCount rt').
Proof.
  intros H0 Hn H1 rt'.
  pose proof (MarkAsFailed_n_count reason rt n H0 Hn) as Hc. fold rt' in Hc.
  destruct n as [| n]; [lia |].
  assert (Hshape : rt' = MarkAsFailed reason (Nat.iter n (MarkAsFailed reason) rt))
    by reflexivity.
  split; [exact Hc |].
  split; [now rewrite Hshape |].
  split; [unfold CanRetry; rewrite Hc; now rewrite Hshape |].
  split; [now rewrite Hshape |]. split; [now rewrite Hshape |].
  cbv zeta. repeat split.
Qed.

(** The transaction of the scenario after one, two and three failures. *)
Lemma MarkAsFailed_retry_budget_witness :
  let rt :=
    fresh (reward_transaction Scenario.scored_response Scenario.survey
             Scenario.full_pool 50) in
  CanRetry rt = false
  /\ CanRetry (Nat.iter 1 (MarkAsFailed "timeout") rt) = true
  /\ CanRetry (Nat.iter 2 (MarkAsFailed "timeout") rt) = true
  /\ CanRetry (Nat.iter 3 (MarkAsFailed "timeout") rt) = false.
Proof.
  cbv zeta. split; [reflexivity |].
  set (rt := fresh _).
  assert (H0 : 0 <= RetryCount rt) by (vm_compute; discriminate).
  split; [| split].
  - destruct (MarkAsFailed_retry_budget "timeout" rt 1 Scenario.now "0x" 0 H0)
      as (_ & _ & H & _); [vm_compute; discriminate | lia | exact H].
  - destruct (MarkAsFailed_retry_budget "timeout" rt 2 Scenario.now "0x" 0 H0)
      as (_ & _ & H & _); [vm_compute; discriminate | lia | exact H].
  - destruct (MarkAsFailed_retry_budget "timeout" rt 3 Scenario.now "0x" 0 H0)
      as (_ & _ & H & _); [vm_compute; discriminate | lia | exact H].
Defined.

End TransactionFacts.

Module BalanceFacts.
Import UserBalance WholeFacts WholeMulFacts.

(** The totals and the available balance after an update in whole amounts. *)
Lemma UpdateBalance_whole (now : GoTime.t) (ub : t)
    (earnedAmount withdrawnAmount : float)
    (earned withdrawn pending e w : Z) :
  whole (TotalEarned ub) earned ->
  whole (TotalWithdrawn ub) withdrawn ->
  whole (PendingBalance ub) pending ->
  whole earnedAmount e -> whole withdrawnAmount w ->
  earned + e < 2 ^ 53 ->
  withdrawn + w + pending <= earned + e ->
  let ub' := UpdateBalance now earnedAmount withdrawnAmount ub in
  whole (TotalEarned ub') (earned + e)
  /\ whole (TotalWithdrawn ub') (withdrawn + w)
  /\ whole (AvailableBalance ub') (earned + e - (withdrawn + w) - pending).
Proof.
  intros He Hw Hp Hde Hdw Hbound Hle ub'.
  pose proof Hp as [Hp0 _]. pose proof Hdw as [Hw0 _].
  pose proof Hw as [Hww _].
  assert (H1 : whole (TotalEarned ub') (earned + e))
    by (apply whole_add; assumption).
  assert (H2 : whole (TotalWithdrawn ub') (withdrawn + w))
    by (apply whole_add; [assumption | assumption | lia]).
  split; [exact H1 |]. split; [exact H2 |].
  cbn [ub' UpdateBalance AvailableBalance].
  apply whole_sub; [| assumption | lia].
  apply whole_sub; [exact H1 | exact H2 | lia].
Qed.

(** X5.  For amounts that are whole numbers, [UpdateBalance] adds the earned
    and the withdrawn amounts to the totals without rounding and sets the
    available balance to the earned total less the withdrawn total less the
    pending balance, whatever it was before: after the call the three
    amounts satisfy that equation, as the program would test it.  The pending
    balance is not changed. *)
Theorem UpdateBalance_available (now : GoTime.t) (ub : t)
    (earnedAmount withdrawnAmount : float)
    (earned withdrawn pending e w : Z) :
  whole (TotalEarned ub) earned ->
  whole (TotalWithdrawn ub) withdrawn ->
  whole (PendingBalance ub) pending ->
  whole earnedAmount e -> whole withdrawnAmount w ->
  earned + e < 2 ^ 53 ->
  withdrawn + w + pending <= earned + e ->
  let ub' := UpdateBalance now earnedAmount withdrawnAmount ub in
  whole (TotalEarned ub') (earned + e)
  /\ whole (TotalWithdrawn ub') (withdrawn + w)
  /\ whole (AvailableBalance ub') (earned + e - (withdrawn + w) - pending)
  /\ (AvailableBalance ub'
      =? TotalEarned ub' - TotalWithdrawn ub' - PendingBalance ub')%float
     = true
  /\ PendingBalance ub' = PendingBalance ub
  /\ LastUpdatedAt ub' = now.
Proof.
  intros He Hw Hp Hde Hdw Hbound Hle ub'.
  destruct (UpdateBalance_whole now ub earnedAmount withdrawnAmount
              earned withdrawn pending e w He Hw Hp Hde Hdw Hbound Hle)
    as (H1 & H2 & H3).
  fold ub' in H1, H2, H3.
  split; [exact H1 |]. split; [exact H2 |]. split; [exact H3 |].
  split; [| split; reflexivity].
  rewrite (whole_eqb (AvailableBalance ub')
             (TotalEarned ub' - TotalWithdrawn ub' - PendingBalance ub') _ _
             H3 H3).
  apply Z.eqb_refl.
Qed.

(** 50 earned on top of 150, 40 withdrawn, 10 pending: 150 available. *)
Lemma UpdateBalance_available_witness :
  AvailableBalance (UpdateBalance Scenario.now 50 0 Examples.balance)
  = 150%float.
Proof.
  destruct (UpdateBalance_available Scenario.now Examples.balance 50 0
              150 40 10 50 0) as (_ & _ & [_ H] & _);
    try (split; [lia | reflexivity]); try lia.
  rewrite H. reflexivity.
Defined.

(** X6.  A withdrawal that [CanWithdraw] allows never overdraws: for whole
    amounts, on a balance whose available amount is the earned total less the
    withdrawn total less the pending balance, [CanWithdraw amount] holds
    exactly when the amount is 1 at least and the available balance at most,
    and recording the withdrawal with [UpdateBalance 0 amount] then leaves
    the available balance at what it was less the amount, not below zero. *)
Theorem CanWithdraw_never_overdraws (now : GoTime.t) (ub : t) (amount : float)
    (earned withdrawn pending a : Z) :
  whole (TotalEarned ub) earned ->
  whole (TotalWithdrawn ub) withdrawn ->
  whole (PendingBalance ub) pending ->
  whole (AvailableBalance ub) (earned - withdrawn - pending) ->
  whole amount a ->
  CanWithdraw amount ub = (1 <=? a) && (a <=? earned - withdrawn - pending)
  /\ (CanWithdraw amount ub = true ->
      let ub' := UpdateBalance now 0 amount ub in
      whole (AvailableBalance ub') (earned - withdrawn - pending - a)
      /\ (0 <=? AvailableBalance ub')%float = true).
Proof.
  intros He Hw Hp Hav Ha.
  assert (Hcan : CanWithdraw amount ub
                 = (1 <=? a) && (a <=? earned - withdrawn - pending)).
  { unfold CanWithdraw.
    rewrite (whole_leb _ _ _ _ Ha Hav), (whole_ltb _ _ _ _ whole_zero Ha).
    destruct (Z.ltb_spec 0 a); destruct (Z.leb_spec 1 a);
      destruct (Z.leb_spec a (earned - withdrawn - pending)); cbn;
      try reflexivity; lia. }
  split; [exact Hcan |].
  rewrite Hcan. intros H. apply andb_prop in H as [H1 H2].
  apply Z.leb_le in H1, H2.
  pose proof He as [He0 _]. pose proof Hw as [Hw0 _].
  pose proof Hp as [Hp0 _].
  destruct (UpdateBalance_whole now ub 0 amount earned withdrawn pending 0 a
              He Hw Hp whole_zero Ha ltac:(lia) ltac:(lia)) as (_ & _ & Hstep).
  replace (earned + 0 - (withdrawn + a) - pending)
    with (earned - withdrawn - pending - a) in Hstep by lia.
  cbv zeta. split; [exact Hstep |].
  rewrite (whole_leb _ _ _ _ whole_zero Hstep). apply Z.leb_le. lia.
Qed.

(** 100 available: 60 can be withdrawn and leaves 40; 101 cannot. *)
Lemma CanWithdraw_never_overdraws_witness :
  let ub := UpdateBalance Scenario.started_at 0 0 Examples.balance in
  CanWithdraw 60 ub = true
  /\ AvailableBalance (UpdateBalance Scenario.now 0 60 ub) = 40%float
  /\ CanWithdraw 101 ub = false.
Proof.
  cbv zeta. set (ub := UpdateBalance _ 0 0 Examples.balance).
  destruct (CanWithdraw_never_overdraws Scenario.now ub 60 150 40 10 60)
    as [Hcan Hafter]; try (split; [lia | reflexivity]).
  split; [rewrite Hcan; reflexivity |].
  split; [| reflexivity].
  destruct (Hafter ltac:(rewrite Hcan; reflexivity)) as [[_ H] _].
  rewrite H. reflexivity.
Defined.

End BalanceFacts.

(** ** Looking up questions and answers *)

Module LookupFacts.
Import ResponseMethods responseService RepoFacts.

(** X7.  [GetAnswerByQuestionID] returns the first answer of the response
    to the question asked for: the answers before it are to other questions;
    it returns "answer not found" exactly when the response has no answer to
    that question. *)
Theorem GetAnswerByQuestionID_first (r : Response.t) (questionID : N) :
  match GetAnswerByQuestionID r questionID with
  | inr answer =>
      exists before after,
        Response.Answers r = (before ++ answer :: after)%list
        /\ Answer.QuestionID answer = questionID
        /\ Forall (fun a => Answer.QuestionID a <> questionID) before
  | inl e =>
      e = "answer not found"
      /\ Forall (fun a => Answer.QuestionID a <> questionID)
           (Response.Answers r)
  end.
Proof.
  unfold GetAnswerByQuestionID.
  induction (Response.Answers r) as [| a rest IH]; cbn [find_answer].
  - split; [reflexivity | constructor].
  - destruct (N.eqb_spec (Answer.QuestionID a) questionID) as [Heq | Hne].
    + exists [], rest. repeat split; [exact Heq | constructor].
    + destruct (find_answer rest questionID) as [e | answer].
      * destruct IH as [-> IH]. split; [reflexivity | now constructor].
      * destruct IH as (before & after & -> & Hq & Hb).
        exists (a :: before), after. repeat split; [exact Hq |].
        now constructor.
Qed.

(** X8.  [GetQuestionByID] returns the first question of the survey with the
    id asked for, and "question not found" exactly when the survey has no
    question with that id. *)
Theorem GetQuestionByID_first (s : Survey.t) (questionID : N) :
  match Survey.GetQuestionByID s questionID with
  | inr question =>
      exists before after,
        Survey.Questions s = (before ++ question :: after)%list
        /\ Question.ID question = questionID
        /\ Forall (fun q => Question.ID q <> questionID) before
  | inl e =>
      e = "question not found"
      /\ Forall (fun q => Question.ID q <> questionID) (Survey.Questions s)
  end.
Proof.
  unfold Survey.GetQuestionByID.
  induction (Survey.Questions s) as [| q rest IH]; cbn [Survey.find_question].
  - split; [reflexivity | constructor].
  - destruct (N.eqb_spec (Question.ID q) questionID) as [Heq | Hne].
    + exists [], rest. repeat split; [exact Heq | constructor].
    + destruct (Survey.find_question rest questionID) as [e | question].
      * destruct IH as [-> IH]. split; [reflexivity | now constructor].
      * destruct IH as (before & after & -> & Hq & Hb).
        exists (q :: before), after. repeat split; [exact Hq |].
        now constructor.
Qed.

Lemma find_answer_upsert (a : Answer.t) (rows : list Answer.t) (questionID : N) :
  find_answer (responseRepo.upsert a rows) questionID
  = if (Answer.QuestionID a =? questionID)%N then inr a
    else find_answer rows questionID.
Proof.
  induction rows as [| row rest IH]; cbn [responseRepo.upsert find_answer].
  - reflexivity.
  - destruct (N.eqb_spec (Answer.QuestionID row) (Answer.QuestionID a))
      as [Heq | Hne]; cbn [find_answer].
    + rewrite Heq. now destruct (Answer.QuestionID a =? questionID)%N.
    + destruct (N.eqb_spec (Answer.QuestionID row) questionID) as [Hq | Hq].
      * destruct (N.eqb_spec (Answer.QuestionID a) questionID);
          [congruence | reflexivity].
      * exact IH.
Qed.

(** X9.  After [UpdateAnswer] by the owner of a started response, the response
    as the repository loads it has, for the question of the update, the answer
    built from the request, and for every other question the answer it had
    before; the stored response itself, the pools, the transactions and the
    balances are as before. *)
Theorem UpdateAnswer_then_lookup (uid rid qid : N)
    (req : dto.UpdateAnswerRequest) (st : Store) (response : Response.t) :
  responses st !! rid = Some response ->
  Response.UserID response = uid ->
  Response.Status response = ResponseStatusStarted ->
  let result := UpdateAnswer uid rid qid req st in
  fst result = inr tt
  /\ same_but_answers st (snd result)
  /\ exists loaded,
       responseRepo.GetByID rid (snd result) = (inr loaded, snd result)
       /\ GetAnswerByQuestionID loaded qid
          = inr (make_answer rid qid (dto.update_Answer req)
                   (dto.update_TimeSpent req) (dto.update_IsSkipped req))
       /\ forall other loaded0,
            other <> qid ->
            responseRepo.GetByID rid st = (inr loaded0, st) ->
            GetAnswerByQuestionID loaded other
            = GetAnswerByQuestionID loaded0 other.
Proof.
  intros Hr Hu Hs result.
  destruct (owner_started_checks uid response Hu Hs) as [Ho Hst].
  assert (Hrun : result
                 = responseRepo.UpsertAnswer
                     (make_answer rid qid (dto.update_Answer req)
                        (dto.update_TimeSpent req) (dto.update_IsSkipped req))
                     st).
  { subst result. unfold UpdateAnswer.
    erewrite bind_inr by (apply GetByID_found; exact Hr).
    cbn [Response.UserID Response.Status Response.set_Answers].
    rewrite (reject_false _ _ _ Ho), (reject_false _ _ _ Hst). reflexivity. }
  rewrite Hrun. cbn [fst snd responseRepo.UpsertAnswer].
  split; [reflexivity |]. split; [repeat split |].
  eexists. split.
  { unfold responseRepo.GetByID. cbn [responses set_answers]. rewrite Hr.
    reflexivity. }
  cbn [answers set_answers make_answer Answer.ResponseID].
  rewrite lookup_insert_eq. cbn [default option_rect].
  unfold GetAnswerByQuestionID. cbn [Response.Answers Response.set_Answers].
  unfold id.
  split.
  - rewrite find_answer_upsert.
    change (Answer.QuestionID (make_answer rid qid _ _ _)) with qid.
    now rewrite N.eqb_refl.
  - intros other loaded0 Hne Hload.
    unfold responseRepo.GetByID in Hload. rewrite Hr in Hload.
    injection Hload as <-.
    cbn [Response.Answers Response.set_Answers].
    rewrite find_answer_upsert.
    change (Answer.QuestionID (make_answer rid qid _ _ _)) with qid.
    destruct (N.eqb_spec qid other); [congruence | reflexivity].
Qed.

(** The text answer of the scenario, updated from "hello" to "world". *)
Lemma UpdateAnswer_then_lookup_witness :
  let st :=
    snd (UpdateAnswer 3 7 1 (Scenario.update (Scenario.text_answer "hello") false)
           (Scenario.store Scenario.full_pool)) in
  let st' :=
    snd (UpdateAnswer 3 7 1 (Scenario.update (Scenario.text_answer "world") false)
           st) in
  exists loaded,
    responseRepo.GetByID 7 st' = (inr loaded, st')
    /\ exists answer,
         GetAnswerByQuestionID loaded 1 = inr answer
         /\ Answer.AnswerText answer = "world".
Proof.
  cbv zeta.
  set (st := snd (UpdateAnswer 3 7 1 _ (Scenario.store Scenario.full_pool))).
  destruct (UpdateAnswer_then_lookup 3 7 1
              (Scenario.update (Scenario.text_answer "world") false) st
              Scenario.response)
    as (_ & _ & loaded & Hload & Hfind & _); try reflexivity.
  exists loaded. split; [exact Hload |]. eexists. split; [exact Hfind |].
  reflexivity.
Defined.

End LookupFacts.

(** ** The survey service: estimated time, publication, deletion *)

Module SurveyServiceFacts.
Import surveyService SurveyMethods RepoFacts WholeFacts WholeMulFacts.

(** X10.  [CalculateTotalRewardPool] gives the number the survey service
    stores as the total pool, the reward times the number of responses in
    either order; for a reward that is a whole number [r], 1 at least, and a
    product below [2 ^ 53] it is [r] times the maximum of responses, without
    rounding. *)
Theorem CalculateTotalRewardPool_exact (s : Survey.t) (r : Z) :
  whole (Survey.RewardPerResponse s) r -> 1 <= r ->
  0 <= Survey.MaxResponses s ->
  r * Survey.MaxResponses s < 2 ^ 53 ->
  CalculateTotalRewardPool s
  = (Survey.RewardPerResponse s * GoFloat.of_int (Survey.MaxResponses s))%float
  /\ whole (CalculateTotalRewardPool s) (r * Survey.MaxResponses s).
Proof.
  intros Hr Hr1 Hm Hrm. unfold CalculateTotalRewardPool.
  split; [apply mul_comm |].
  rewrite mul_comm. apply whole_mul; [exact Hr | | exact Hrm].
  split; [nia | reflexivity].
Qed.

(** The survey of the scenario: 100 responses at 50 each need 5000. *)
Lemma CalculateTotalRewardPool_exact_witness :
  CalculateTotalRewardPool Scenario.survey = 5000%float.
Proof.
  destruct (CalculateTotalRewardPool_exact Scenario.survey 50)
    as [_ [_ H]];
    [split; [lia | reflexivity] | lia | vm_compute; discriminate
    | reflexivity |].
  rewrite H. reflexivity.
Defined.

(** X11.  Whatever the label, [parseEstimatedTime] gives one of 3, 5, 10, 15
    and 20 minutes, and 10 for every label that is not one of the five it
    knows. *)
Theorem parseEstimatedTime_range (timeStr : string) :
  In (parseEstimatedTime timeStr) [3; 5; 10; 15; 20]
  /\ 3 <= parseEstimatedTime timeStr <= 20
  /\ (~ In timeStr ["1-3 min"; "3-5 min"; "5-10 min"; "10-15 min"; "15+ min"]
      -> parseEstimatedTime timeStr = 10).
Proof.
  unfold parseEstimatedTime.
  repeat (case_bool_decide;
          [subst timeStr; cbn; split; [tauto |]; split; [lia |];
           intros Hnot; exfalso; apply Hnot; tauto |]).
  cbn. split; [tauto |]. split; [lia | reflexivity].
Qed.

(** The run of [PublishSurvey] on a draft with a question, by its creator,
    when the survey has no pool yet. *)
Lemma PublishSurvey_run (poolID uid sid : N)
    (req : dtoSurvey.PublishSurveyRequest) (st : Store) (survey : Survey.t) :
  surveys st !! sid = Some survey ->
  Survey.CreatorID survey = uid ->
  Survey.Status survey = SurveyStatusDraft ->
  Survey.Questions survey <> [] ->
  pools st !! sid = None ->
  PublishSurvey poolID uid sid req st
  = (inr (surveyToDTO (published_survey req survey)),
     snd (surveyRepository.PublishWithRewardPool poolID
            (published_survey req survey)
            (rewardPool sid (published_survey req survey)) st)).
Proof.
  intros Hs Hc Hd Hq Hp. unfold PublishSurvey.
  erewrite bind_inr by (unfold surveyRepo.GetByID; rewrite Hs; reflexivity).
  rewrite reject_false by (rewrite Hc, N.eqb_refl; reflexivity).
  rewrite reject_false
    by (rewrite bool_decide_eq_true_2 by exact Hd; reflexivity).
  rewrite reject_false
    by (destruct (Survey.Questions survey); [congruence | reflexivity]).
  cbv zeta. fold (published_survey req survey).
  unfold bind, surveyRepository.PublishWithRewardPool.
  cbn [rewardPool RewardPool.SurveyID]. rewrite Hp. reflexivity.
Qed.

Lemma published_survey_fields (req : dtoSurvey.PublishSurveyRequest)
    (survey : Survey.t) :
  let published := published_survey req survey in
  Survey.ID published = Survey.ID survey
  /\ Survey.CreatorID published = Survey.CreatorID survey
  /\ Survey.Status published = SurveyStatusPublished
  /\ Survey.MaxResponses published = Survey.MaxResponses survey
  /\ Survey.RewardPerResponse published = Survey.RewardPerResponse survey
  /\ Survey.TotalRewardPool published = Survey.TotalRewardPool survey
  /\ Survey.EstimatedDuration published = Survey.EstimatedDuration survey
  /\ Survey.ResponseCount published = Survey.ResponseCount survey
  /\ Survey.Questions published = Survey.Questions survey.
Proof.
  unfold published_survey.
  destruct (dtoSurvey.StartDate req), (dtoSurvey.EndDate req);
    cbn; repeat split.
Qed.

(** X12.  [PublishSurvey] on a draft with at least one question, called by
    its creator: the survey is saved as published, with the dates of the
    request where it gives any and its questions, reward and maximum as they
    were; a pool is created for it with the survey's total as total and
    remaining amounts, the survey's reward and maximum, nothing paid, no
    response counted, and active; responses, answers, transactions and
    balances are not touched. *)
Theorem PublishSurvey_creates_pool (poolID uid sid : N)
    (req : dtoSurvey.PublishSurveyRequest) (st : Store) (survey : Survey.t) :
  surveys st !! sid = Some survey ->
  Survey.ID survey = sid ->
  Survey.CreatorID survey = uid ->
  Survey.Status survey = SurveyStatusDraft ->
  Survey.Questions survey <> [] ->
  pools st !! sid = None ->
  let published := published_survey req survey in
  exists st' pool,
    PublishSurvey poolID uid sid req st = (inr (surveyToDTO published), st')
    /\ surveys st' = <[sid := published]> (surveys st)
    /\ pools st' = <[sid := pool]> (pools st)
    /\ same_but_catalog st st'
    /\ Survey.Status published = SurveyStatusPublished
    /\ Survey.Questions published = Survey.Questions survey
    /\ Survey.StartDate published
       = match dtoSurvey.StartDate req with
         | Some d => Some d
         | None => Survey.StartDate survey
         end
    /\ Survey.EndDate published
       = match dtoSurvey.EndDate req with
         | Some d => Some d
         | None => Survey.EndDate survey
         end
    /\ RewardPool.ID pool = poolID
    /\ RewardPool.SurveyID pool = sid
    /\ RewardPool.TotalAmount pool = Survey.TotalRewardPool survey
    /\ RewardPool.RemainingAmount pool = Survey.TotalRewardPool survey
    /\ RewardPool.RewardPerResponse pool = Survey.RewardPerResponse survey
    /\ RewardPool.MaxResponses pool = Survey.MaxResponses survey
    /\ RewardPool.CurrentResponses pool = 0
    /\ RewardPool.PaidOut pool = 0%float
    /\ RewardPool.IsActive pool = true.
Proof.
  intros Hs Hid Hc Hd Hq Hp published.
  pose proof (published_survey_fields req survey) as Hf. cbv zeta in Hf.
  fold published in Hf.
  destruct Hf as (F1 & F2 & F3 & F4 & F5 & F6 & F7 & F8 & F9).
  eexists. eexists. split.
  { rewrite (PublishSurvey_run poolID uid sid req st survey Hs Hc Hd Hq Hp).
    fold published. unfold surveyRepository.PublishWithRewardPool.
    cbn [rewardPool RewardPool.SurveyID]. rewrite Hp. reflexivity. }
  cbn [surveys pools snd].
  split; [now rewrite F1, Hid |]. split; [reflexivity |].
  split; [repeat split |].
  split; [exact F3 |]. split; [exact F9 |].
  split.
  { subst published. unfold published_survey.
    destruct (dtoSurvey.StartDate req), (dtoSurvey.EndDate req); reflexivity. }
  split.
  { subst published. unfold published_survey.
    destruct (dtoSurvey.StartDate req), (dtoSurvey.EndDate req); reflexivity. }
  cbn. rewrite F4, F5, F6. repeat split.
Qed.

(** The draft of the scenario, published by its creator. *)
Lemma PublishSurvey_creates_pool_witness :
  exists st',
    snd (PublishSurvey 1 2 1 Examples.publish_now Examples.drafts) = st'
    /\ pools st' !! 1%N = Some Scenario.full_pool
    /\ (Survey.Status <$> surveys st' !! 1%N) = Some SurveyStatusPublished.
Proof.
  destruct (PublishSurvey_creates_pool 1 2 1 Examples.publish_now
              Examples.drafts Examples.draft)
    as (st' & pool & Hrun & Hsurveys & Hpools & _);
    try reflexivity; [discriminate |].
  exists st'. rewrite Hrun. split; [reflexivity |].
  rewrite Hsurveys, !lookup_insert_eq. split; [| reflexivity].
  apply (f_equal snd) in Hrun. cbn [snd] in Hrun. rewrite <- Hrun.
  vm_compute. reflexivity.
Defined.

(** X13.  A call of [PublishSurvey] that returns an error has written
    nothing, and the error is one of: the survey is not found, the caller is
    not its creator, it is not a draft, it has no question, or it has a pool
    already. *)
Theorem PublishSurvey_error_writes_nothing (poolID uid sid : N)
    (req : dtoSurvey.PublishSurveyRequest) (st st' : Store) (e : error) :
  PublishSurvey poolID uid sid req st = (inl e, st') ->
  st' = st
  /\ In e [record_not_found; "unauthorized";
           "only draft surveys can be published";
           "survey must have at least one question";
           surveyRepository.duplicate_key].
Proof.
  unfold PublishSurvey, bind, surveyRepo.GetByID.
  destruct (surveys st !! sid) as [survey |];
    [| intros [= <- <-]; split; [reflexivity | cbn; auto]].
  unfold reject, fail.
  destruct (negb (Survey.CreatorID survey =? uid)%N);
    [intros [= <- <-]; split; [reflexivity | cbn; auto] |].
  destruct (negb (bool_decide (Survey.Status survey = SurveyStatusDraft)));
    [intros [= <- <-]; split; [reflexivity | cbn; auto] |].
  destruct (GoInt.len (Survey.Questions survey) =? 0);
    [intros [= <- <-]; split; [reflexivity | cbn; auto 6] |].
  cbv zeta. unfold surveyRepository.PublishWithRewardPool.
  cbn [rewardPool RewardPool.SurveyID].
  destruct (pools st !! sid);
    [intros [= <- <-]; split; [reflexivity | cbn; auto 6] |].
  discriminate.
Qed.

(** Another user tries to publish the draft of the scenario. *)
Lemma PublishSurvey_error_writes_nothing_witness :
  PublishSurvey 1 3 1 Examples.publish_now Examples.drafts
  = (inl "unauthorized", Examples.drafts).
Proof.
  destruct (PublishSurvey 1 3 1 Examples.publish_now Examples.drafts)
    as [[e | r] st'] eqn:E; [| vm_compute in E; discriminate].
  destruct (PublishSurvey_error_writes_nothing _ _ _ _ _ _ _ E) as [-> _].
  vm_compute in E. injection E as <-. reflexivity.
Defined.

(** The catalog after a publication that went through. *)
Lemma PublishSurvey_store (poolID uid sid : N)
    (req : dtoSurvey.PublishSurveyRequest) (st : Store) (survey : Survey.t) :
  surveys st !! sid = Some survey ->
  Survey.ID survey = sid ->
  Survey.CreatorID survey = uid ->
  Survey.Status survey = SurveyStatusDraft ->
  Survey.Questions survey <> [] ->
  pools st !! sid = None ->
  let st' := snd (PublishSurvey poolID uid sid req st) in
  surveys st' !! sid = Some (published_survey req survey)
  /\ pools st' !! sid
     = Some {| RewardPool.ID := poolID;
               RewardPool.SurveyID := sid;
               RewardPool.TotalAmount := Survey.TotalRewardPool survey;
               RewardPool.RewardPerResponse := Survey.RewardPerResponse survey;
               RewardPool.MaxResponses := Survey.MaxResponses survey;
               RewardPool.CurrentResponses := 0;
               RewardPool.PaidOut := 0;
               RewardPool.RemainingAmount := Survey.TotalRewardPool survey;
               RewardPool.IsActive := true |}.
Proof.
  intros Hs Hid Hc Hd Hq Hp st'. subst st'.
  rewrite (PublishSurvey_run poolID uid sid req st survey Hs Hc Hd Hq Hp).
  cbn [snd]. unfold surveyRepository.PublishWithRewardPool.
  cbn [rewardPool RewardPool.SurveyID]. rewrite Hp. cbn [snd surveys pools].
  pose proof (published_survey_fields req survey) as Hf. cbv zeta in Hf.
  destruct Hf as (F1 & _ & _ & F4 & F5 & F6 & _).
  rewrite F1, Hid, !lookup_insert_eq. split; [reflexivity |].
  cbn. now rewrite F4, F5, F6.
Qed.

(** X14.  A published survey is final for the survey service: after a
    publication that went through, every further [PublishSurvey] and every
    [DeleteSurvey] on it, by its creator or by anyone else, returns an error
    and writes nothing, and [GetSurvey] shows it as published. *)
Theorem published_survey_is_final (poolID uid sid : N)
    (req : dtoSurvey.PublishSurveyRequest) (st : Store) (survey : Survey.t)
    (poolID' uid' : N) (req' : dtoSurvey.PublishSurveyRequest) :
  surveys st !! sid = Some survey ->
  Survey.ID survey = sid ->
  Survey.CreatorID survey = uid ->
  Survey.Status survey = SurveyStatusDraft ->
  Survey.Questions survey <> [] ->
  pools st !! sid = None ->
  let st' := snd (PublishSurvey poolID uid sid req st) in
  PublishSurvey poolID' uid' sid req' st'
  = (inl (if (uid =? uid')%N then "only draft surveys can be published"
          else "unauthorized"), st')
  /\ DeleteSurvey uid' sid st'
     = (inl (if (uid =? uid')%N then "only draft surveys can be deleted"
             else "unauthorized"), st')
  /\ exists reply,
       GetSurvey sid st' = (inr reply, st')
       /\ dtoSurvey.survey_Status reply = "published".
Proof.
  intros Hs Hid Hc Hd Hq Hp st'.
  destruct (PublishSurvey_store poolID uid sid req st survey Hs Hid Hc Hd Hq Hp)
    as [Hsurvey _]. fold st' in Hsurvey.
  pose proof (published_survey_fields req survey) as Hf. cbv zeta in Hf.
  destruct Hf as (_ & F2 & F3 & _).
  assert (Hget : surveyRepo.GetByID sid st'
                 = (inr (published_survey req survey), st')).
  { unfold surveyRepo.GetByID. now rewrite Hsurvey. }
  split; [| split].
  - unfold PublishSurvey. erewrite bind_inr by exact Hget.
    rewrite F2, Hc, F3. unfold reject, fail.
    destruct (uid =? uid')%N; reflexivity.
  - unfold DeleteSurvey. erewrite bind_inr by exact Hget.
    rewrite F2, Hc, F3. unfold reject, fail.
    destruct (uid =? uid')%N; reflexivity.
  - eexists. split.
    + unfold GetSurvey. erewrite bind_inr by exact Hget. reflexivity.
    + cbn. now rewrite F3.
Qed.

(** The survey of the scenario once published: its creator can neither
    publish it again nor delete it. *)
Lemma published_survey_is_final_witness :
  let st' := snd (PublishSurvey 1 2 1 Examples.publish_now Examples.drafts) in
  PublishSurvey 5 2 1 Examples.publish_now st'
  = (inl "only draft surveys can be published", st')
  /\ DeleteSurvey 2 1 st' = (inl "only draft surveys can be deleted", st').
Proof.
  destruct (published_survey_is_final 1 2 1 Examples.publish_now
              Examples.drafts Examples.draft 5 2 Examples.publish_now)
    as (H1 & H2 & _); try reflexivity; [discriminate |].
  cbv zeta. split; [exact H1 | exact H2].
Defined.

(** X15.  [DeleteSurvey] by the creator of a draft removes it and nothing
    else: afterwards the survey is not found, by [GetSurvey] and by
    [PublishSurvey], the other surveys are as they were, and so are the pools,
    the responses and the rest. *)
Theorem DeleteSurvey_removes_draft (uid sid : N) (st : Store)
    (survey : Survey.t) :
  surveys st !! sid = Some survey ->
  Survey.CreatorID survey = uid ->
  Survey.Status survey = SurveyStatusDraft ->
  let st' := snd (DeleteSurvey uid sid st) in
  fst (DeleteSurvey uid sid st) = inr tt
  /\ surveys st' = delete sid (surveys st)
  /\ pools st' = pools st
  /\ same_but_catalog st st'
  /\ GetSurvey sid st' = (inl record_not_found, st')
  /\ (forall poolID u req,
        PublishSurvey poolID u sid req st' = (inl record_not_found, st'))
  /\ (forall other, other <> sid -> surveys st' !! other = surveys st !! other).
Proof.
  intros Hs Hc Hd st'.
  assert (Hrun : DeleteSurvey uid sid st = surveyRepository.Delete sid st).
  { unfold DeleteSurvey.
    erewrite bind_inr by (unfold surveyRepo.GetByID; rewrite Hs; reflexivity).
    rewrite reject_false by (rewrite Hc, N.eqb_refl; reflexivity).
    rewrite reject_false
      by (rewrite bool_decide_eq_true_2 by exact Hd; reflexivity).
    reflexivity. }
  subst st'. rewrite Hrun. cbn [fst snd surveyRepository.Delete].
  set (st' := {| surveys := delete sid (surveys st) |}).
  assert (Hgone : surveyRepo.GetByID sid st' = (inl record_not_found, st')).
  { unfold surveyRepo.GetByID. subst st'. cbn [surveys].
    now rewrite lookup_delete_eq. }
  split; [reflexivity |]. split; [reflexivity |]. split; [reflexivity |].
  split; [repeat split |].
  split; [unfold GetSurvey; now erewrite bind_inl by exact Hgone |].
  split.
  - intros poolID u req. unfold PublishSurvey.
    now erewrite bind_inl by exact Hgone.
  - intros other Hne. subst st'. cbn [surveys].
    now rewrite lookup_delete_ne by congruence.
Qed.

(** The creator deletes the draft of the scenario. *)
Lemma DeleteSurvey_removes_draft_witness :
  let st' := snd (DeleteSurvey 2 1 Examples.drafts) in
  fst (DeleteSurvey 2 1 Examples.drafts) = inr tt
  /\ GetSurvey 1 st' = (inl record_not_found, st').
Proof.
  destruct (DeleteSurvey_removes_draft 2 1 Examples.drafts Examples.draft)
    as (H1 & _ & _ & _ & H2 & _); try reflexivity.
  cbv zeta. split; [exact H1 | exact H2].
Defined.

(** X16.  The pool of a survey just published can pay: when the reward is a
    whole number, 1 at least, the maximum of responses is 1 at least and the
    survey's total is their product (below [2 ^ 53]), the pool the reward
    repository finds for the survey passes [CanProcessReward], its remaining
    amount is its total less its paid-out amount, and its reward per response
    is the survey's. *)
Theorem PublishSurvey_pool_can_pay (poolID uid sid : N)
    (req : dtoSurvey.PublishSurveyRequest) (st : Store) (survey : Survey.t)
    (r : Z) :
  surveys st !! sid = Some survey ->
  Survey.ID survey = sid ->
  Survey.CreatorID survey = uid ->
  Survey.Status survey = SurveyStatusDraft ->
  Survey.Questions survey <> [] ->
  pools st !! sid = None ->
  whole (Survey.RewardPerResponse survey) r -> 1 <= r ->
  1 <= Survey.MaxResponses survey ->
  whole (Survey.TotalRewardPool survey) (r * Survey.MaxResponses survey) ->
  let st' := snd (PublishSurvey poolID uid sid req st) in
  exists pool,
    rewardRepo.GetPoolBySurveyID sid st' = (inr pool, st')
    /\ RewardPool.CanProcessReward pool = true
    /\ RewardPool.invariant pool = true
    /\ RewardPool.RewardPerResponse pool
       = Survey.RewardPerResponse (published_survey req survey).
Proof.
  intros Hs Hid Hc Hd Hq Hp Hr Hr1 Hm Htot st'.
  destruct (PublishSurvey_store poolID uid sid req st survey Hs Hid Hc Hd Hq Hp)
    as [_ Hpool]. fold st' in Hpool.
  pose proof (published_survey_fields req survey) as Hf. cbv zeta in Hf.
  destruct Hf as (_ & _ & _ & _ & F5 & _).
  eexists. split.
  { unfold rewardRepo.GetPoolBySurveyID. rewrite Hpool. reflexivity. }
  split; [| split; [| now rewrite F5]].
  - unfold RewardPool.CanProcessReward, RewardPool.IsAvailable. cbn.
    rewrite (whole_leb _ _ _ _ Hr Htot), (whole_ltb _ _ _ _ whole_zero Htot).
    repeat (apply andb_true_intro; split);
      [apply Z.ltb_lt; nia | apply Z.ltb_lt; lia | apply Z.leb_le; nia].
  - unfold RewardPool.invariant. cbn.
    pose proof Htot as [Hn _].
    rewrite (whole_eqb _ _ _ _ Htot
               (whole_sub _ _ _ _ Htot whole_zero ltac:(lia))).
    apply Z.eqb_eq. lia.
Qed.

(** The pool of the scenario right after the publication. *)
Lemma PublishSurvey_pool_can_pay_witness :
  let st' := snd (PublishSurvey 1 2 1 Examples.publish_now Examples.drafts) in
  exists pool,
    rewardRepo.GetPoolBySurveyID 1 st' = (inr pool, st')
    /\ RewardPool.CanProcessReward pool = true.
Proof.
  destruct (PublishSurvey_pool_can_pay 1 2 1 Examples.publish_now
              Examples.drafts Examples.draft 50)
    as (pool & H1 & H2 & _);
    try first [reflexivity | discriminate | lia | vm_compute; discriminate
              | vm_compute; split;
                [split; [discriminate | reflexivity] | reflexivity]].
  exists pool. split; [exact H1 | exact H2].
Defined.

End SurveyServiceFacts.

(** ** What the response service leaves alone *)

Module FrameFacts.
Import responseService responseQueries RepoFacts.

Section Keeps.
Context {X : Type} (f : Store -> X).

Lemma keeps_ret {A} (a : A) : keeps f (ret a).
Proof. intros st. reflexivity. Qed.

Lemma keeps_fail {A} (e : error) : keeps f (@fail A e).
Proof. intros st. reflexivity. Qed.

Lemma keeps_bind {A B} (m : Repo A) (k : A -> Repo B) :
  keeps f m -> (forall a, keeps f (k a)) -> keeps f (bind m k).
Proof.
  intros Hm Hk st. unfold bind. specialize (Hm st).
  destruct (m st) as [[e | a] st'] eqn:E; cbn [snd] in *.
  - exact Hm.
  - rewrite <- Hm. apply Hk.
Qed.

Lemma keeps_reject {A} (cond : bool) (msg : error) (k : Repo A) :
  keeps f k -> keeps f (reject cond msg k).
Proof. intros Hk. unfold reject. destruct cond; [apply keeps_fail | exact Hk]. Qed.

Lemma keeps_survey_GetByID (id : N) : keeps f (surveyRepo.GetByID id).
Proof. intros st. unfold surveyRepo.GetByID. now destruct (surveys st !! id). Qed.

Lemma keeps_response_GetByID (id : N) : keeps f (responseRepo.GetByID id).
Proof.
  intros st. unfold responseRepo.GetByID. now destruct (responses st !! id).
Qed.

Lemma keeps_HasUserResponded (uid sid : N) :
  keeps f (responseRepo.HasUserResponded uid sid).
Proof. intros st. reflexivity. Qed.

Lemma keeps_UpdateStatistics (sid : N) : keeps f (surveyRepo.UpdateStatistics sid).
Proof. intros st. reflexivity. Qed.

Lemma keeps_GetPoolBySurveyID (sid : N) :
  keeps f (rewardRepo.GetPoolBySurveyID sid).
Proof.
  intros st. unfold rewardRepo.GetPoolBySurveyID. now destruct (pools st !! sid).
Qed.

End Keeps.

Create HintDb keeps.

#[local] Hint Resolve keeps_ret keeps_fail keeps_reject keeps_survey_GetByID
  keeps_response_GetByID keeps_HasUserResponded keeps_UpdateStatistics
  keeps_GetPoolBySurveyID : keeps.

Ltac keeps_step :=
  first [ apply keeps_bind; [| intros ?]
        | apply keeps_reject
        | solve [auto with keeps] ].

(** The writes of the repositories, each on the tables it leaves alone. *)
Lemma keeps_surveys_Create (r : Response.t) : keeps surveys (responseRepo.Create r).
Proof. intros st. reflexivity. Qed.

Lemma keeps_surveys_Update (r : Response.t) : keeps surveys (responseRepo.Update r).
Proof. intros st. reflexivity. Qed.

Lemma keeps_surveys_UpsertAnswer (a : Answer.t) :
  keeps surveys (responseRepo.UpsertAnswer a).
Proof. intros st. reflexivity. Qed.

Lemma keeps_surveys_ProcessReward pool transaction :
  keeps surveys (rewardRepo.ProcessReward pool transaction).
Proof.
  intros st. unfold rewardRepo.ProcessReward.
  now destruct (RewardPool.ProcessReward pool) as [[e |] pool'].
Qed.

Lemma keeps_surveys_UpdateBalance uid earned xp :
  keeps surveys (userRepo.UpdateBalance uid earned xp).
Proof. intros st. reflexivity. Qed.

Lemma keeps_money_Create (r : Response.t) : keeps money (responseRepo.Create r).
Proof. intros st. reflexivity. Qed.

Lemma keeps_money_Update (r : Response.t) : keeps money (responseRepo.Update r).
Proof. intros st. reflexivity. Qed.

Lemma keeps_money_UpsertAnswer (a : Answer.t) :
  keeps money (responseRepo.UpsertAnswer a).
Proof. intros st. reflexivity. Qed.

#[local] Hint Resolve keeps_surveys_Create keeps_surveys_Update
  keeps_surveys_UpsertAnswer keeps_surveys_ProcessReward
  keeps_surveys_UpdateBalance keeps_money_Create keeps_money_Update
  keeps_money_UpsertAnswer : keeps.

Lemma keeps_submit_each {X} (f : Store -> X) survey rid answers :
  (forall a, keeps f (responseRepo.UpsertAnswer a)) ->
  keeps f (submit_each survey rid answers).
Proof.
  intros Hup. induction answers as [| answerReq rest IH]; cbn [submit_each].
  - apply keeps_ret.
  - destruct (Survey.GetQuestionByID survey _); [exact IH |].
    destruct (Answer.ValidateAnswer _ _); [apply keeps_fail |].
    apply keeps_bind; [apply Hup | intros _; exact IH].
Qed.

Lemma keeps_SubmitAnswers {X} (f : Store -> X) uid rid answers :
  (forall a, keeps f (responseRepo.UpsertAnswer a)) ->
  keeps f (SubmitAnswers uid rid answers).
Proof.
  intros Hup. unfold SubmitAnswers. repeat keeps_step.
  now apply keeps_submit_each.
Qed.

(** X17.  No operation of the response service writes a survey: whatever
    they return, [StartSurvey], [SubmitAnswers], [UpdateAnswer],
    [AbandonSurvey] and [CompleteSurvey] leave every survey, and with it its
    count of responses, as it was. *)
Theorem response_service_keeps_surveys (now : GoTime.t) (uid sid rid qid : N)
    (start : dto.StartSurveyRequest) (answers : list dto.SubmitAnswerRequest)
    (update : dto.UpdateAnswerRequest) (complete : dto.CompleteSurveyRequest) :
  keeps surveys (StartSurvey now uid sid start)
  /\ keeps surveys (SubmitAnswers uid rid answers)
  /\ keeps surveys (UpdateAnswer uid rid qid update)
  /\ keeps surveys (AbandonSurvey now uid rid)
  /\ keeps surveys (CompleteSurvey now uid complete).
Proof.
  split; [| split; [| split; [| split]]].
  - unfold StartSurvey. repeat keeps_step.
    destruct (negb (Survey.AllowMultiple a)); repeat keeps_step.
  - apply keeps_SubmitAnswers. auto with keeps.
  - unfold UpdateAnswer. repeat keeps_step.
  - unfold AbandonSurvey. repeat keeps_step.
  - unfold CompleteSurvey. repeat keeps_step.
    destruct (dto.Answers complete); [apply keeps_ret |].
    apply keeps_SubmitAnswers. auto with keeps.
Qed.

(** X18.  No money moves before a completion: whatever they return,
    [StartSurvey], [SubmitAnswers], [UpdateAnswer] and [AbandonSurvey] leave
    the pools, the transactions and the balances as they were; and the two
    read operations, [GetResponse] and [GetResponseProgress], write
    nothing at all. *)
Theorem no_money_moves_before_completion (now : GoTime.t) (uid sid rid qid : N)
    (start : dto.StartSurveyRequest) (answers : list dto.SubmitAnswerRequest)
    (update : dto.UpdateAnswerRequest) :
  keeps money (StartSurvey now uid sid start)
  /\ keeps money (SubmitAnswers uid rid answers)
  /\ keeps money (UpdateAnswer uid rid qid update)
  /\ keeps money (AbandonSurvey now uid rid)
  /\ keeps (fun st => st) (GetResponse uid rid)
  /\ keeps (fun st => st) (GetResponseProgress now uid rid).
Proof.
  split; [| split; [| split; [| split; [| split]]]].
  - unfold StartSurvey. repeat keeps_step.
    destruct (negb (Survey.AllowMultiple a)); repeat keeps_step.
  - apply keeps_SubmitAnswers. auto with keeps.
  - unfold UpdateAnswer. repeat keeps_step.
  - unfold AbandonSurvey. repeat keeps_step.
  - unfold GetResponse, responseRepo.GetWithAnswers. repeat keeps_step.
  - unfold GetResponseProgress, responseRepo.GetWithAnswers. repeat keeps_step.
Qed.

End FrameFacts.

(** ** Rounding between two numbers that binary64 holds *)

Module RoundingFacts.
Import Binary64Facts.

(** What [shr_fexp] returns for a mantissa that is not negative: the
    mantissa divided by the power of two the exponent went up by. *)
Lemma shr_fexp_div (m e : Z) (l : location) :
  0 <= m ->
  let '(mrs, e') := shr_fexp prec emax m e l in
  e <= e' <= Z.max e (fexp prec emax (Zdigits2 m + e))
  /\ shr_m mrs = m / 2 ^ (e' - e).
Proof.
  intros Hm. unfold shr_fexp, shr.
  destruct (fexp prec emax (Zdigits2 m + e) - e) as [| n | n] eqn:En.
  - rewrite shr_record_of_loc_m, Z.sub_diag, Z.pow_0_r, Z.div_1_r. lia.
  - rewrite iter_shr_1_m by (rewrite shr_record_of_loc_m; assumption).
    rewrite shr_record_of_loc_m.
    replace (e + Z.pos n - e) with (Z.pos n) by lia. lia.
  - rewrite shr_record_of_loc_m, Z.sub_diag, Z.pow_0_r, Z.div_1_r. lia.
Qed.

Lemma Zdigits2_below (x b j : Z) :
  0 <= x -> 0 <= j -> x <= b * 2 ^ j -> Zdigits2 x <= Zdigits2 b + j.
Proof.
  intros Hx Hj Hle.
  assert (0 < 2 ^ j) by (apply Z.pow_pos_nonneg; lia).
  assert (Hb : 0 <= b) by nia.
  etransitivity; [apply (Zdigits2_mono x (b * 2 ^ j)); lia |].
  now apply Zdigits2_shl.
Qed.

Lemma pow2_split (k e' e : Z) :
  e <= e' <= k -> 2 ^ (k - e) = 2 ^ (k - e') * 2 ^ (e' - e).
Proof. intros H. rewrite <- Z.pow_add_r by lia. f_equal. lia. Qed.

(** Rounding keeps a number between the numbers of [k] binary places around
    it: when a mantissa [mx] that is not negative, at exponent [ex], is at
    least [a * 2 ^ k] and, with whatever was cut off behind it, below
    [b * 2 ^ k], for a [b] of 53 binary digits at most, the rounded number is
    at least [a * 2 ^ k] and at most [b * 2 ^ k]. *)
Lemma binary_round_aux_between (mx ex : Z) (l : location) (a b k : Z) :
  0 <= mx -> ex <= k -> -1074 <= k <= 971 -> Zdigits2 b <= 53 ->
  a * 2 ^ (k - ex) <= mx -> mx + 1 <= b * 2 ^ (k - ex) ->
  match binary_round_aux prec emax false mx ex l with
  | S754_zero _ => a <= 0
  | S754_finite s m e =>
      s = false /\ e <= k
      /\ a * 2 ^ (k - e) <= Z.pos m <= b * 2 ^ (k - e)
  | S754_infinity _ | S754_nan => False
  end.
Proof.
  intros Hm Hex Hk Hb Ha Hub.
  assert (HP : 0 < 2 ^ (k - ex)) by (apply Z.pow_pos_nonneg; lia).
  unfold binary_round_aux.
  pose proof (shr_fexp_div mx ex l Hm) as H1.
  destruct (shr_fexp prec emax mx ex l) as [mrs' e'].
  destruct H1 as ([He' He'up] & Hm').
  pose proof (Zdigits2_below mx b (k - ex) Hm ltac:(lia) ltac:(lia)) as Hd0.
  rewrite fexp_eq in He'up.
  assert (He'k : e' <= k) by lia.
  assert (HP1 : 0 < 2 ^ (e' - ex)) by (apply Z.pow_pos_nonneg; lia).
  assert (HQ1 : 0 < 2 ^ (k - e')) by (apply Z.pow_pos_nonneg; lia).
  rewrite (pow2_split k e' ex) in Ha, Hub by lia.
  assert (Hlow1 : a * 2 ^ (k - e') <= shr_m mrs').
  { rewrite Hm'. apply Z.div_le_lower_bound; [lia |]. lia. }
  assert (Hup1 : shr_m mrs' + 1 <= b * 2 ^ (k - e')).
  { rewrite Hm'.
    assert (mx / 2 ^ (e' - ex) < b * 2 ^ (k - e')); [| lia].
    apply Z.div_lt_upper_bound; [lia |]. lia. }
  pose proof (round_nearest_even_spec (shr_m mrs') (loc_of_shr_record mrs'))
    as [Hr1 Hr2].
  set (m1 := round_nearest_even (shr_m mrs') (loc_of_shr_record mrs')) in *.
  assert (Hm10 : 0 <= shr_m mrs')
    by (rewrite Hm'; apply Z.div_pos; lia).
  assert (Hm1 : 0 <= m1) by lia.
  pose proof (shr_fexp_div m1 e' loc_Exact Hm1) as H2.
  destruct (shr_fexp prec emax m1 e' loc_Exact) as [mrs'' e''].
  destruct H2 as ([He'' He''up] & Hm'').
  pose proof (Zdigits2_below m1 b (k - e') Hm1 ltac:(lia) ltac:(lia)) as Hd1.
  rewrite fexp_eq in He''up.
  assert (He''k : e'' <= k) by lia.
  assert (HP2 : 0 < 2 ^ (e'' - e')) by (apply Z.pow_pos_nonneg; lia).
  assert (HQ2 : 0 < 2 ^ (k - e'')) by (apply Z.pow_pos_nonneg; lia).
  assert (Hlow2 : a * 2 ^ (k - e'') <= shr_m mrs'').
  { rewrite Hm''. apply Z.div_le_lower_bound; [lia |].
    rewrite (pow2_split k e'' e') in Hlow1 by lia. lia. }
  assert (Hup2 : shr_m mrs'' <= b * 2 ^ (k - e'')).
  { rewrite Hm''. apply Z.div_le_upper_bound; [lia |].
    rewrite (pow2_split k e'' e') in Hup1 by lia. lia. }
  destruct (shr_m mrs'') as [| m | m] eqn:Em.
  - nia.
  - assert (Hle : (e'' <=? emax - prec) = true).
    { apply Z.leb_le. change (emax - prec) with 971. lia. }
    rewrite Hle. repeat split; lia.
  - pose proof (Z.div_pos m1 (2 ^ (e'' - e')) Hm1 HP2). lia.
Qed.

End RoundingFacts.

(** ** Durations in seconds *)

Module TimeFacts.
Import Binary64Facts WholeFacts WholeMulFacts RoundingFacts.

(** A quotient of two positive numbers stays at or below a number of [k]
    binary places that is above the exact quotient. *)
Lemma SFdiv_below (mx my : positive) (ex ey b k : Z) :
  k <= ex - ey ->
  Z.pos (digits2_pos mx) + ex - (Z.pos (digits2_pos my) + ey) - 53 <= k ->
  -1074 <= k <= 971 -> Zdigits2 b <= 53 ->
  Z.pos mx * 2 ^ (ex - ey - k) < b * Z.pos my ->
  match SF64div (S754_finite false mx ex) (S754_finite false my ey) with
  | S754_zero _ => True
  | S754_finite s m e =>
      s = false /\ e <= k /\ Z.pos m <= b * 2 ^ (k - e)
  | S754_infinity _ | S754_nan => False
  end.
Proof.
  intros Hk Hd Hkr Hb Hlt.
  unfold SF64div, SFdiv. cbn [xorb]. unfold SFdiv_core_binary.
  set (e' := Z.min _ _).
  set (m' := match ex - ey - e' with
             | 0 => Z.pos mx
             | Z.pos _ => Z.shiftl (Z.pos mx) (ex - ey - e')
             | Z.neg _ => 0
             end).
  assert (He' : e' <= ex - ey) by (subst e'; lia).
  assert (He'k : e' <= k).
  { subst e'. cbn [Zdigits2]. rewrite fexp_eq. lia. }
  assert (Hm' : m' = Z.pos mx * 2 ^ (ex - ey - e')).
  { subst m'. destruct (ex - ey - e') as [| p | p] eqn:E; [cbn; lia | | lia].
    now rewrite Z.shiftl_mul_pow2 by lia. }
  assert (HP : 0 < 2 ^ (k - e')) by (apply Z.pow_pos_nonneg; lia).
  assert (Hsplit : 2 ^ (ex - ey - e') = 2 ^ (ex - ey - k) * 2 ^ (k - e')).
  { rewrite <- Z.pow_add_r by lia. f_equal. lia. }
  destruct (Z.div_eucl m' (Z.pos my)) as [q r] eqn:Eq.
  assert (Hq : q = m' / Z.pos my) by (unfold Z.div; now rewrite Eq).
  assert (Hm'0 : 0 <= m').
  { rewrite Hm'. apply Z.mul_nonneg_nonneg; [lia |].
    apply Z.pow_nonneg. lia. }
  assert (Hq0 : 0 <= q) by (subst q; apply Z.div_pos; lia).
  assert (Hqb : q + 1 <= b * 2 ^ (k - e')).
  { assert (q < b * 2 ^ (k - e')); [| lia].
    subst q. apply Z.div_lt_upper_bound; [lia |].
    rewrite Hm', Hsplit. nia. }
  pose proof (binary_round_aux_between q e' (new_location (Z.pos my) r)
                0 b k Hq0 He'k Hkr Hb ltac:(lia) Hqb) as H.
  destruct (binary_round_aux _ _ _ _ _ _); try exact H; [exact I |].
  destruct H as (? & ? & ? & ?). auto.
Qed.

(** A sum of two positive numbers stays between the numbers of [k] binary
    places around the exact sum. *)
Lemma SFadd_between (mx my : positive) (ex ey a b k : Z) :
  Z.min ex ey <= k -> -1074 <= k <= 971 -> Zdigits2 b <= 53 ->
  a * 2 ^ (k - Z.min ex ey)
  <= Z.pos mx * 2 ^ (ex - Z.min ex ey) + Z.pos my * 2 ^ (ey - Z.min ex ey) ->
  Z.pos mx * 2 ^ (ex - Z.min ex ey) + Z.pos my * 2 ^ (ey - Z.min ex ey) + 1
  <= b * 2 ^ (k - Z.min ex ey) ->
  match SF64add (S754_finite false mx ex) (S754_finite false my ey) with
  | S754_zero _ => a <= 0
  | S754_finite s m e =>
      s = false /\ e <= k
      /\ a * 2 ^ (k - e) <= Z.pos m <= b * 2 ^ (k - e)
  | S754_infinity _ | S754_nan => False
  end.
Proof.
  intros Hez Hkr Hb Ha Hub.
  unfold SF64add, SFadd. set (ez := Z.min ex ey) in *.
  pose proof (shl_align_spec mx ex ez) as H1.
  destruct (shl_align mx ex ez) as [m1 e1]. destruct H1 as [He1 Hm1].
  pose proof (shl_align_spec my ey ez) as H2.
  destruct (shl_align my ey ez) as [m2 e2]. destruct H2 as [He2 Hm2].
  replace e1 with ez in Hm1 by (subst ez; lia).
  replace e2 with ez in Hm2 by (subst ez; lia).
  cbn [fst cond_Zopp].
  change (Z.pos m1 + Z.pos m2) with (Z.pos (m1 + m2)).
  cbn [binary_normalize]. unfold binary_round.
  pose proof (shl_align_spec (m1 + m2) ez
                (fexp prec emax (Z.pos (digits2_pos (m1 + m2)) + ez))) as H3.
  destruct (shl_align (m1 + m2) ez _) as [mz ez'].
  destruct H3 as [Hez' Hmz].
  assert (Hez'k : ez' <= k) by lia.
  assert (HJ : 0 < 2 ^ (ez - ez')) by (apply Z.pow_pos_nonneg; lia).
  assert (HP : 0 < 2 ^ (k - ez)) by (apply Z.pow_pos_nonneg; lia).
  rewrite Pos2Z.inj_add, Hm1, Hm2 in Hmz.
  apply binary_round_aux_between; try assumption; try lia.
  - rewrite (pow2_split k ez ez') by lia. rewrite Hmz. nia.
  - rewrite (pow2_split k ez ez') by lia. rewrite Hmz. nia.
Qed.

(** The integer part of a positive number between [s] and [s + 1]. *)
Lemma SFtrunc_between (m : positive) (e s b k : Z) :
  e <= k -> k <= 0 -> 0 <= s ->
  s * 2 ^ (- k) * 2 ^ (k - e) <= Z.pos m ->
  Z.pos m <= b * 2 ^ (k - e) -> b < (s + 1) * 2 ^ (- k) ->
  GoFloat.SFtrunc (S754_finite false m e) = Some s.
Proof.
  intros He Hk Hs Hlow Hup Hb. cbn [GoFloat.SFtrunc].
  assert (HP : 0 < 2 ^ (k - e)) by (apply Z.pow_pos_nonneg; lia).
  assert (HK : 0 < 2 ^ (- k)) by (apply Z.pow_pos_nonneg; lia).
  assert (Hsplit : 2 ^ (- e) = 2 ^ (- k) * 2 ^ (k - e)).
  { rewrite <- Z.pow_add_r by lia. f_equal. lia. }
  destruct (Z.leb_spec 0 e) as [He0 | He0].
  - assert (e = 0) by lia. subst e.
    assert (k = 0) by lia. subst k.
    rewrite Z.pow_0_r in *. f_equal. cbn [Z.sub Z.opp] in *. lia.
  - f_equal. rewrite Hsplit. symmetry.
    apply Z.div_unique with (Z.pos m - s * (2 ^ (- k) * 2 ^ (k - e))); nia.
Qed.

(** The seconds of a fraction of a second are below [1 - 2 ^ (-30)]. *)
Lemma fraction_below (n : Z) :
  0 < n < 1000000000 ->
  match SF64div (SFwhole n) (Prim2SF 1000000000) with
  | S754_zero _ => True
  | S754_finite s m e =>
      s = false /\ e <= -31 /\ Z.pos m <= (2 ^ 31 - 2) * 2 ^ (-31 - e)
  | S754_infinity _ | S754_nan => False
  end.
Proof.
  intros Hn. destruct n as [| p | p]; try lia. cbn [SFwhole].
  assert (Hp : Z.pos p < 2 ^ 53) by lia.
  pose proof (SFwhole_digits p Hp) as H. cbv zeta in H.
  set (d := Z.pos (digits2_pos p)) in *.
  set (m := Z.to_pos (Z.pos p * 2 ^ (53 - d))) in *.
  destruct H as [Hm Hdm].
  assert (Hd : 1 <= d <= 30).
  { split; [subst d; lia |].
    apply (Zdigits2_le (Z.pos p) 30); [lia |].
    change (2 ^ 30) with 1073741824. lia. }
  change (Prim2SF 1000000000)
    with (S754_finite false 8388608000000000 (-23)).
  apply (SFdiv_below m 8388608000000000 (d - 53) (-23) (2 ^ 31 - 2) (-31));
    [lia
    | rewrite Hdm; change (Z.pos (digits2_pos 8388608000000000)) with 53; lia
    | lia | vm_compute; discriminate |].
  rewrite Hm. replace (d - 53 - -23 - -31) with (d + 1) by lia.
  rewrite <- Z.mul_assoc, <- Z.pow_add_r by lia.
  replace (53 - d + (d + 1)) with 54 by lia. cbn. lia.
Qed.

(** [int(d.Seconds())] for a duration that is not negative and is below
    [2 ^ 22] seconds: the whole seconds of the duration. *)
Lemma Seconds_to_int (d : Z) :
  0 <= d < 2 ^ 22 * GoTime.Second ->
  GoFloat.to_int (GoTime.Seconds d) = d / GoTime.Second.
Proof.
  unfold GoTime.Second. intros Hd.
  unfold GoTime.Seconds, GoTime.Second.
  rewrite Z.quot_div_nonneg, Z.rem_mod_nonneg by lia.
  set (s := d / 1000000000). set (n := d mod 1000000000).
  assert (Hs : 0 <= s < 2 ^ 22).
  { subst s. split; [apply Z.div_pos; lia |].
    apply Z.div_lt_upper_bound; lia. }
  assert (Hn : 0 <= n < 1000000000) by (subst n; apply Z.mod_pos_bound; lia).
  assert (H22 : 2 ^ 22 = 4194304) by reflexivity.
  assert (Hrange : (GoInt.min_int <=? s) && (s <=? GoInt.max_int) = true).
  { unfold GoInt.min_int, GoInt.max_int.
    apply andb_true_intro. split; apply Z.leb_le; lia. }
  unfold GoFloat.to_int.
  rewrite add_spec, div_spec, !of_int_whole by lia.
  enough (H : GoFloat.SFtrunc
                (SF64add (SFwhole s)
                   (SF64div (SFwhole n) (Prim2SF 1000000000)))
              = Some s) by (now rewrite H, Hrange).
  assert (Hwhole : GoFloat.SFtrunc (SFwhole s) = Some s).
  { destruct s as [| p | p]; [reflexivity | | lia]. cbn [SFwhole].
    pose proof (SFwhole_digits p ltac:(lia)) as H. cbv zeta in H.
    destruct H as [Hm _].
    pose proof (digits_whole p ltac:(lia)) as Hdp.
    set (dp := Z.pos (digits2_pos p)) in *.
    cbn [GoFloat.SFtrunc].
    destruct (Z.leb_spec 0 (dp - 53)) as [H0 | H0].
    - assert (dp = 53) by lia. rewrite Hm.
      replace (53 - dp) with 0 by lia. replace (dp - 53) with 0 by lia.
      rewrite Z.pow_0_r. f_equal. lia.
    - rewrite Hm. replace (- (dp - 53)) with (53 - dp) by lia.
      f_equal. apply Z.div_mul.
      assert (0 < 2 ^ (53 - dp)) by (apply Z.pow_pos_nonneg; lia). lia. }
  destruct (Z.eq_dec n 0) as [-> | Hn0].
  { change (SF64div (SFwhole 0) (Prim2SF 1000000000)) with (S754_zero false).
    destruct s as [| p | p]; [reflexivity | | lia]. exact Hwhole. }
  pose proof (fraction_below n ltac:(lia)) as Hq.
  destruct (SF64div (SFwhole n) (Prim2SF 1000000000))
    as [sq | sq | | sq mq eq]; try tauto.
  { destruct s as [| p | p]; [destruct sq; reflexivity | | lia].
    exact Hwhole. }
  destruct Hq as (-> & Heq & Hmq).
  assert (HR : 0 < 2 ^ (-31 - eq)) by (apply Z.pow_pos_nonneg; lia).
  destruct s as [| p | p]; [| | lia].
  - cbn [SFwhole SF64add SFadd].
    apply (SFtrunc_between mq eq 0 (2 ^ 31 - 2) (-31)); cbn; lia.
  - cbn [SFwhole].
    pose proof (SFwhole_digits p ltac:(lia)) as H. cbv zeta in H.
    pose proof (digits_whole p ltac:(lia)) as Hdp.
    set (dp := Z.pos (digits2_pos p)) in *.
    set (mp := Z.to_pos (Z.pos p * 2 ^ (53 - dp))) in *.
    destruct H as [Hmp _].
    assert (Hdp1 : 1 <= dp <= 22).
    { split; [subst dp; lia |]. apply (Zdigits2_le (Z.pos p) 22); lia. }
    assert (Hmin : Z.min (dp - 53) eq <= -31) by lia.
    set (ez := Z.min (dp - 53) eq) in *.
    assert (HP : 0 < 2 ^ (-31 - ez)) by (apply Z.pow_pos_nonneg; lia).
    assert (HX : Z.pos mp * 2 ^ (dp - 53 - ez)
                 = Z.pos p * 2 ^ 31 * 2 ^ (-31 - ez)).
    { rewrite Hmp, <- !Z.mul_assoc, <- !Z.pow_add_r by lia.
      f_equal. f_equal. lia. }
    assert (HY : Z.pos mq * 2 ^ (eq - ez)
                 <= (2 ^ 31 - 2) * 2 ^ (-31 - ez)).
    { replace (2 ^ (-31 - ez)) with (2 ^ (-31 - eq) * 2 ^ (eq - ez)).
      - assert (0 < 2 ^ (eq - ez)) by (apply Z.pow_pos_nonneg; lia). nia.
      - rewrite <- Z.pow_add_r by lia. f_equal. lia. }
    assert (HY0 : 0 <= Z.pos mq * 2 ^ (eq - ez)).
    { apply Z.mul_nonneg_nonneg; [lia |]. apply Z.pow_nonneg. lia. }
    pose proof (SFadd_between mp mq (dp - 53) eq (Z.pos p * 2 ^ 31)
                  ((Z.pos p + 1) * 2 ^ 31 - 1) (-31)) as H.
    fold ez in H. rewrite HX in H.
    specialize (H Hmin ltac:(lia)).
    assert (Hb : Zdigits2 ((Z.pos p + 1) * 2 ^ 31 - 1) <= 53).
    { apply Zdigits2_le; [lia |].
      change (2 ^ 53) with (2 ^ 22 * 2 ^ 31). change (2 ^ 31) with 2147483648.
      lia. }
    specialize (H Hb ltac:(nia) ltac:(nia)).
    destruct (SF64add _ _) as [sr | sr | | sr mr er]; try tauto; [lia |].
    destruct H as (-> & Her & Hlow & Hup).
    apply (SFtrunc_between mr er (Z.pos p) ((Z.pos p + 1) * 2 ^ 31 - 1) (-31));
      try assumption; lia.
Qed.

(** The seconds from [b] to [a] as the program computes them, when [a] is not
    before [b] and less than [2 ^ 22] seconds after it: the whole seconds of
    the difference, the fraction of a second being dropped. *)
Lemma seconds_since_whole (a b : GoTime.t) :
  0 <= elapsed a b < 2 ^ 22 * GoTime.Second ->
  GoTime.seconds_since a b = elapsed a b / GoTime.Second.
Proof.
  intros H. unfold GoTime.seconds_since, GoTime.Sub.
  change ((GoTime.unix a - GoTime.unix b) * GoTime.Second
          + (GoTime.nsec a - GoTime.nsec b)) with (elapsed a b).
  assert (Hmin : (elapsed a b <? GoTime.minDuration) = false).
  { apply Z.ltb_ge. unfold GoTime.minDuration. lia. }
  assert (Hmax : (GoTime.maxDuration <? elapsed a b) = false).
  { apply Z.ltb_ge. unfold GoTime.maxDuration, GoTime.Second in *.
    change (2 ^ 22) with 4194304 in H. lia. }
  rewrite Hmin, Hmax. now apply Seconds_to_int.
Qed.

(** The duration of a response, to its completion stamp when it has one and
    to [now] otherwise. *)
Lemma CalculateDuration_whole (now : GoTime.t) (r : Response.t) :
  let finish := default now (Response.CompletedAt r) in
  0 <= elapsed finish (Response.StartedAt r) < 2 ^ 22 * GoTime.Second ->
  Response.CalculateDuration now r
  = elapsed finish (Response.StartedAt r) / GoTime.Second.
Proof.
  unfold Response.CalculateDuration.
  destruct (Response.CompletedAt r) as [c |]; cbn [default id];
    intros H; now apply seconds_since_whole.
Qed.

(** One second and two tenths count as one second. *)
Example seconds_since_drops_fraction :
  GoTime.seconds_since Examples.soon_after Examples.late_start = 1.
Proof. vm_compute. reflexivity. Qed.

(** Beyond [2 ^ 24] seconds the sum of the seconds and of the fraction can
    round up to the next second: 194 days and 999999999 nanoseconds count as
    one second more than the whole seconds gone by. *)
Example seconds_since_rounds_up :
  GoTime.seconds_since
    {| GoTime.unix := 2 ^ 24; GoTime.nsec := 999999999; GoTime.offset := 0 |}
    {| GoTime.unix := 0; GoTime.nsec := 0; GoTime.offset := 0 |}
  = 2 ^ 24 + 1.
Proof. vm_compute. reflexivity. Qed.

(** Instants more than 292 years apart are the largest duration apart. *)
Example seconds_since_saturates :
  GoTime.seconds_since
    {| GoTime.unix := 10000000000; GoTime.nsec := 0; GoTime.offset := 0 |}
    {| GoTime.unix := 0; GoTime.nsec := 0; GoTime.offset := 0 |}
  = 9223372036.
Proof. vm_compute. reflexivity. Qed.

End TimeFacts.

(** ** Who may do what to a response, and when *)

Module LifecycleFacts.
Import responseService responseQueries RepoFacts.

Lemma GetWithAnswers_found rid st response :
  responses st !! rid = Some response ->
  responseRepo.GetWithAnswers rid st
  = (inr (Response.set_Answers (stored_answers rid st) response), st).
Proof. apply GetByID_found. Qed.

(** X19.  A response is closed to everyone but its owner: when the user of
    the call is not the user of the response, each of [SubmitAnswers],
    [UpdateAnswer], [CompleteSurvey], [AbandonSurvey], [GetResponse] and
    [GetResponseProgress] returns "unauthorized" and writes nothing. *)
Theorem not_the_owner_is_refused (now : GoTime.t) (uid rid qid : N)
    (answers : list dto.SubmitAnswerRequest) (update : dto.UpdateAnswerRequest)
    (duration : Z) (st : Store) (response : Response.t) :
  responses st !! rid = Some response ->
  Response.UserID response <> uid ->
  SubmitAnswers uid rid answers st = (inl "unauthorized", st)
  /\ UpdateAnswer uid rid qid update st = (inl "unauthorized", st)
  /\ CompleteSurvey now uid
       {| dto.ResponseID := rid; dto.Answers := answers;
          dto.Duration := duration |} st
     = (inl "unauthorized", st)
  /\ AbandonSurvey now uid rid st = (inl "unauthorized", st)
  /\ GetResponse uid rid st = (inl "unauthorized", st)
  /\ GetResponseProgress now uid rid st = (inl "unauthorized", st).
Proof.
  intros Hr Hu.
  assert (Hne : negb (Response.UserID
                        (Response.set_Answers (stored_answers rid st) response)
                      =? uid)%N = true).
  { cbn [Response.UserID Response.set_Answers].
    destruct (N.eqb_spec (Response.UserID response) uid); [contradiction |].
    reflexivity. }
  pose proof (GetByID_found rid st response Hr) as Hget.
  pose proof (GetWithAnswers_found rid st response Hr) as Hget'.
  repeat split.
  - unfold SubmitAnswers. erewrite bind_inr by exact Hget.
    now apply reject_true.
  - unfold UpdateAnswer. erewrite bind_inr by exact Hget.
    now apply reject_true.
  - unfold CompleteSurvey. cbn [dto.ResponseID].
    erewrite bind_inr by exact Hget. now apply reject_true.
  - unfold AbandonSurvey. erewrite bind_inr by exact Hget.
    now apply reject_true.
  - unfold GetResponse. erewrite bind_inr by exact Hget'.
    now apply reject_true.
  - unfold GetResponseProgress. erewrite bind_inr by exact Hget'.
    now apply reject_true.
Qed.

(** User 4 on the response of user 3. *)
Lemma not_the_owner_is_refused_witness :
  GetResponse 4 7 (Scenario.store Scenario.full_pool)
  = (inl "unauthorized", Scenario.store Scenario.full_pool)
  /\ AbandonSurvey Scenario.now 4 7 (Scenario.store Scenario.full_pool)
     = (inl "unauthorized", Scenario.store Scenario.full_pool).
Proof.
  destruct (not_the_owner_is_refused Scenario.now 4 7 1 []
              (Scenario.update (Scenario.text_answer "x") false) 0
              (Scenario.store Scenario.full_pool) Scenario.response)
    as (_ & _ & _ & H4 & H5 & _); [reflexivity | discriminate |].
  split; [exact H5 | exact H4].
Defined.

(** X20.  Completed and abandoned are final: on a response that is not
    started, its owner's [SubmitAnswers], [UpdateAnswer] and
    [CompleteSurvey] return "response is not active", [AbandonSurvey]
    returns "response cannot be abandoned", and none of them writes
    anything. *)
Theorem finished_response_is_closed (now : GoTime.t) (uid rid qid : N)
    (answers : list dto.SubmitAnswerRequest) (update : dto.UpdateAnswerRequest)
    (duration : Z) (st : Store) (response : Response.t) :
  responses st !! rid = Some response ->
  Response.UserID response = uid ->
  Response.Status response <> ResponseStatusStarted ->
  SubmitAnswers uid rid answers st = (inl "response is not active", st)
  /\ UpdateAnswer uid rid qid update st = (inl "response is not active", st)
  /\ CompleteSurvey now uid
       {| dto.ResponseID := rid; dto.Answers := answers;
          dto.Duration := duration |} st
     = (inl "response is not active", st)
  /\ AbandonSurvey now uid rid st = (inl "response cannot be abandoned", st).
Proof.
  intros Hr Hu Hs.
  assert (Ho : negb (Response.UserID
                       (Response.set_Answers (stored_answers rid st) response)
                     =? uid)%N = false).
  { cbn [Response.UserID Response.set_Answers]. now rewrite Hu, N.eqb_refl. }
  assert (Hst : negb (bool_decide
                        (Response.Status
                           (Response.set_Answers (stored_answers rid st)
                              response)
                         = ResponseStatusStarted)) = true).
  { cbn [Response.Status Response.set_Answers].
    now rewrite bool_decide_eq_false_2. }
  pose proof (GetByID_found rid st response Hr) as Hget.
  repeat split.
  - unfold SubmitAnswers. erewrite bind_inr by exact Hget.
    rewrite (reject_false _ _ _ Ho). now apply reject_true.
  - unfold UpdateAnswer. erewrite bind_inr by exact Hget.
    rewrite (reject_false _ _ _ Ho). now apply reject_true.
  - unfold CompleteSurvey. cbn [dto.ResponseID].
    erewrite bind_inr by exact Hget.
    rewrite (reject_false _ _ _ Ho). now apply reject_true.
  - unfold AbandonSurvey. erewrite bind_inr by exact Hget.
    rewrite (reject_false _ _ _ Ho). now apply reject_true.
Qed.

(** The response of the scenario once abandoned. *)
Lemma finished_response_is_closed_witness :
  let st :=
    snd (AbandonSurvey Scenario.now 3 7 (Scenario.store Scenario.full_pool)) in
  UpdateAnswer 3 7 1 (Scenario.update (Scenario.text_answer "hello") false) st
  = (inl "response is not active", st)
  /\ AbandonSurvey Scenario.now 3 7 st
     = (inl "response cannot be abandoned", st).
Proof.
  cbv zeta.
  set (st := snd (AbandonSurvey _ 3 7 (Scenario.store Scenario.full_pool))).
  destruct (finished_response_is_closed Scenario.now 3 7 1 []
              (Scenario.update (Scenario.text_answer "hello") false) 0 st
              (Response.MarkAsAbandoned Scenario.now Scenario.response))
    as (_ & H2 & _ & H4); [reflexivity | reflexivity | discriminate |].
  split; [exact H2 | exact H4].
Defined.



End LifecycleFacts.

(** ** Starting and completing, when they go through *)

Module HappyPathFacts.
Import responseService RepoFacts SubmitFacts GoIntFacts Binary64Facts
  WholeFacts WholeMulFacts.




(** The settlement on a pool that can pay. *)
Lemma processRewards_run (response : Response.t) (survey : Survey.t)
    (pool : RewardPool.t) (st : Store) :
  pools st !! Survey.ID survey = Some pool ->
  RewardPool.CanProcessReward pool = true ->
  let multiplier := (Response.QualityScore response / 5)%float in
  let amount := (Survey.RewardPerResponse survey * multiplier)%float in
  let xp :=
    GoFloat.to_int
      (GoFloat.of_int (Survey.EstimatedDuration survey) * 10 * multiplier)%float in
  processRewards response survey st
  = (inr (amount, xp),
     set_total_earned
       (alter (fun total => (total + amount)%float) (Response.UserID response)
          (total_earned st))
       {| surveys := surveys st; responses := responses st;
          answers := answers st;
          pools := <[RewardPool.SurveyID pool :=
                       snd (RewardPool.ProcessReward pool)]> (pools st);
          transactions :=
            reward_transaction response survey pool amount :: transactions st;
          total_earned := total_earned st;
          next_response_id := next_response_id st |}).
Proof.
  intros Hp Hcan multiplier amount xp.
  unfold processRewards.
  erewrite bind_inr
    by (unfold rewardRepo.GetPoolBySurveyID; rewrite Hp; reflexivity).
  rewrite reject_false by (now rewrite Hcan).
  cbv zeta. fold multiplier. fold amount. fold xp.
  assert (HPR : RewardPool.ProcessReward pool
                = (None, snd (RewardPool.ProcessReward pool))).
  { destruct (RewardPool.ProcessReward pool) as [[e |] pool'] eqn:E;
      [| reflexivity].
    apply (f_equal fst) in E. cbn in E.
    apply RewardPoolFacts.ProcessReward_result in Hcan. congruence. }
  erewrite bind_inr.
  2:{ unfold rewardRepo.ProcessReward. rewrite HPR. reflexivity. }
  erewrite bind_inr by reflexivity.
  reflexivity.
Qed.

(** The run of [CompleteSurvey] when every step goes through. *)
Lemma CompleteSurvey_run (now : GoTime.t) (uid : N)
    (req : dto.CompleteSurveyRequest) (st st1 : Store)
    (response : Response.t) (survey : Survey.t) (pool : RewardPool.t) :
  responses st !! dto.ResponseID req = Some response ->
  Response.ID response = dto.ResponseID req ->
  Response.UserID response = uid ->
  Response.Status response = ResponseStatusStarted ->
  surveys st !! Response.SurveyID response = Some survey ->
  pools st !! Survey.ID survey = Some pool ->
  RewardPool.CanProcessReward pool = true ->
  SubmitAnswers uid (dto.ResponseID req) (dto.Answers req) st = (inr tt, st1) ->
  let completed :=
    completed_response now (dto.Duration req) survey
      (Response.set_Answers (stored_answers (dto.ResponseID req) st) response) in
  let multiplier := (Response.QualityScore completed / 5)%float in
  let amount := (Survey.RewardPerResponse survey * multiplier)%float in
  let xp :=
    GoFloat.to_int
      (GoFloat.of_int (Survey.EstimatedDuration survey) * 10 * multiplier)%float in
  CompleteSurvey now uid req st
  = (inr {| dto.completion_ResponseID := dto.ResponseID req;
            dto.completion_Status := "completed";
            dto.completion_CompletedAt := Some now;
            dto.completion_Duration := dto.Duration req;
            dto.RewardEarned := amount;
            dto.XpEarned := xp;
            dto.NFTCertificate := Some (generateNFTCertificate completed survey);
            dto.TransactionHash := None;
            dto.Message :=
              "Survey completed successfully! Your rewards will be processed shortly."
         |},
     {| surveys := surveys st;
        responses := <[dto.ResponseID req := completed]> (responses st);
        answers := answers st1;
        pools := <[RewardPool.SurveyID pool :=
                     snd (RewardPool.ProcessReward pool)]> (pools st);
        transactions :=
          reward_transaction completed survey pool amount :: transactions st;
        total_earned :=
          alter (fun total => (total + amount)%float) uid (total_earned st);
        next_response_id := next_response_id st |}).
Proof.
  intros Hr Hid Hu Hs Hsv Hp Hcan Hsub completed multiplier amount xp.
  assert (Hframe : same_but_answers st st1).
  { rewrite (SubmitAnswers_started _ _ _ _ _ _ Hr Hu Hs Hsv) in Hsub.
    pose proof (submit_each_frame survey (dto.ResponseID req)
                  (dto.Answers req) st) as H. now rewrite Hsub in H. }
  destruct Hframe as (Hsurveys & Hresponses & Hpools & Htx & Hearned & Hnext).
  assert (Hfinal :
    (match dto.Answers req with
     | [] => ret tt
     | _ => SubmitAnswers uid (dto.ResponseID req) (dto.Answers req)
     end) st = (inr tt, st1)).
  { destruct (dto.Answers req) eqn:E; [| exact Hsub].
    rewrite (SubmitAnswers_started _ _ _ _ _ _ Hr Hu Hs Hsv) in Hsub.
    cbn in Hsub. exact Hsub. }
  destruct (owner_started_checks uid response Hu Hs) as [Hown Hstarted].
  unfold CompleteSurvey.
  rewrite (bind_inr _ _ _ _ _ (GetByID_found _ _ _ Hr)).
  cbn [Response.UserID Response.Status Response.SurveyID Response.set_Answers].
  rewrite (reject_false _ _ _ Hown), (reject_false _ _ _ Hstarted).
  rewrite (bind_inr _ _ _ _ _ Hfinal).
  erewrite bind_inr
    by (unfold surveyRepo.GetByID; rewrite Hsurveys, Hsv; reflexivity).
  cbv zeta. fold (completed_response now (dto.Duration req) survey
                    (Response.set_Answers
                       (stored_answers (dto.ResponseID req) st) response)).
  fold completed.
  erewrite bind_inr by reflexivity.
  erewrite bind_inr.
  2:{ apply (processRewards_run completed survey pool);
        [cbn [pools set_responses]; rewrite Hpools; exact Hp | exact Hcan]. }
  erewrite bind_inr by reflexivity.
  unfold ret. fold multiplier. fold amount. fold xp.
  assert (Hcid : Response.ID completed = dto.ResponseID req) by exact Hid.
  assert (Hcu : Response.UserID completed = uid) by exact Hu.
  cbn [fst snd set_total_earned set_responses surveys responses answers pools
         transactions total_earned next_response_id responseRepo.Update].
  rewrite Hcid, Hcu, Hsurveys, Hresponses, Hpools, Htx, Hearned, Hnext.
  reflexivity.
Qed.

(** X23.  [CompleteSurvey] when every step goes through (the owner's started
    response, final answers that pass, a pool that can pay): the reply says
    completed now, with the duration the request gave, not the measured one,
    the survey's reward times a fifth of the quality score as reward, and the
    certificate of the survey, user and response; the response is stored as
    completed with that duration and the score computed on the answers that
    were stored when the call began; the pool of the survey is the pool after
    one [ProcessReward]; one pending reward transaction of that amount is
    recorded, and the amount is added to the user's earnings. *)
Theorem CompleteSurvey_succeeds (now : GoTime.t) (uid : N)
    (req : dto.CompleteSurveyRequest) (st st1 : Store)
    (response : Response.t) (survey : Survey.t) (pool : RewardPool.t) :
  responses st !! dto.ResponseID req = Some response ->
  Response.ID response = dto.ResponseID req ->
  Response.UserID response = uid ->
  Response.Status response = ResponseStatusStarted ->
  surveys st !! Response.SurveyID response = Some survey ->
  pools st !! Survey.ID survey = Some pool ->
  RewardPool.SurveyID pool = Survey.ID survey ->
  RewardPool.CanProcessReward pool = true ->
  SubmitAnswers uid (dto.ResponseID req) (dto.Answers req) st = (inr tt, st1) ->
  let rid := dto.ResponseID req in
  let score :=
    calculateQualityScore
      (Response.set_Duration (dto.Duration req)
         (Response.MarkAsCompleted now
            (Response.set_Answers (stored_answers rid st) response)))
      survey in
  let amount := (Survey.RewardPerResponse survey * (score / 5))%float in
  exists reply st' stored,
    CompleteSurvey now uid req st = (inr reply, st')
    /\ dto.completion_ResponseID reply = rid
    /\ dto.completion_Status reply = "completed"
    /\ dto.completion_CompletedAt reply = Some now
    /\ dto.completion_Duration reply = dto.Duration req
    /\ dto.RewardEarned reply = amount
    /\ dto.NFTCertificate reply
       = Some (certificate_format (Survey.ID survey) uid rid)
    /\ responses st' = <[rid := stored]> (responses st)
    /\ Response.Status stored = ResponseStatusCompleted
    /\ Response.CompletedAt stored = Some now
    /\ Response.Duration stored = dto.Duration req
    /\ Response.QualityScore stored = score
    /\ answers st' = answers st1
    /\ surveys st' = surveys st
    /\ pools st' = <[Survey.ID survey := snd (RewardPool.ProcessReward pool)]>
                     (pools st)
    /\ transactions st'
       = reward_transaction stored survey pool amount :: transactions st
    /\ total_earned st'
       = alter (fun total => (total + amount)%float) uid (total_earned st).
Proof.
  intros Hr Hid Hu Hs Hsv Hp Hsid Hcan Hsub rid score amount.
  pose proof (CompleteSurvey_run now uid req st st1 response survey pool
                Hr Hid Hu Hs Hsv Hp Hcan Hsub) as Hrun.
  cbv zeta in Hrun. fold rid in Hrun.
  set (completed := completed_response now (dto.Duration req) survey _) in Hrun.
  assert (Hscore : Response.QualityScore completed = score) by reflexivity.
  rewrite Hscore in Hrun. fold amount in Hrun.
  eexists. eexists. exists completed.
  split; [exact Hrun |].
  cbn [dto.completion_ResponseID dto.completion_Status
         dto.completion_CompletedAt dto.completion_Duration dto.RewardEarned
         dto.NFTCertificate responses answers surveys pools transactions
         total_earned].
  rewrite Hsid.
  repeat split.
  rewrite CertificateFacts.generateNFTCertificate_eq.
  f_equal. f_equal; [exact Hu | exact Hid].
Qed.

(** The response of the scenario with its two answers stored, completed with
    an empty request: 50 earned. *)
Lemma CompleteSurvey_succeeds_witness :
  let st :=
    snd (SubmitAnswers 3 7
           [Scenario.submit 1 (Scenario.text_answer "hello") false;
            Scenario.submit 2 (Scenario.scale_answer 4) false]
           (Scenario.store Scenario.full_pool)) in
  exists reply st',
    CompleteSurvey Scenario.now 3 (Scenario.complete []) st = (inr reply, st')
    /\ dto.RewardEarned reply = 50%float
    /\ dto.NFTCertificate reply = Some "NFT-CERT-1-3-7"
    /\ total_earned st' !! 3%N = Some 50%float.
Proof.
  cbv zeta.
  set (st := snd (SubmitAnswers 3 7 _ (Scenario.store Scenario.full_pool))).
  destruct (CompleteSurvey_succeeds Scenario.now 3 (Scenario.complete []) st st
              Scenario.response Scenario.survey Scenario.full_pool)
    as (reply & st' & stored & Hrun & _ & _ & _ & _ & Hreward & Hcert & _ & _
        & _ & _ & _ & _ & _ & _ & _ & Hearned);
    try reflexivity.
  exists reply, st'. split; [exact Hrun |].
  split; [rewrite Hreward; vm_compute; reflexivity |].
  split; [rewrite Hcert; vm_compute; reflexivity |].
  rewrite Hearned. vm_compute. reflexivity.
Defined.

(** The score of a response without answers, on a survey with questions. *)
Lemma calculateQualityScore_no_answers (response : Response.t)
    (survey : Survey.t) :
  Response.Answers response = [] ->
  1 <= GoInt.len (Survey.Questions survey) <= GoInt.max_int ->
  0 <= Response.Duration response <= GoInt.max_int ->
  calculateQualityScore response survey = 0%float.
Proof.
  intros Hnil Ht Hd. unfold calculateQualityScore. rewrite Hnil.
  change (GoInt.len []) with 0.
  change (count_skipped_required (Survey.Questions survey) [] 0) with 0.
  change (GoFloat.of_int 0) with 0%float.
  destruct (of_int_positive (GoInt.len (Survey.Questions survey)) Ht)
    as (m & e & Hq & _).
  assert (Hrate : (0 / GoFloat.of_int (GoInt.len (Survey.Questions survey)))%float
                  = 0%float).
  { apply Prim2SF_inj. rewrite div_spec, Hq. reflexivity. }
  rewrite Hrate.
  assert (Hpace : (GoFloat.of_int (Response.Duration response) / 0 <? 5)%float
                  = false).
  { rewrite ltb_spec, div_spec.
    destruct (Z.eq_dec (Response.Duration response) 0) as [-> | Hnz];
      [reflexivity |].
    destruct (of_int_positive (Response.Duration response) ltac:(lia))
      as (md & ed & -> & _).
    reflexivity. }
  rewrite Hpace. vm_compute. reflexivity.
Qed.

(** X24.  The answers sent with the completion request are stored but do not
    count: the score is computed on the response as it was loaded when the
    call began.  So when no answer was stored before the call, on a survey
    with a question and whatever answers the request carries, the score is 0,
    the reward and the experience points of the reply are 0, what is added to
    the user's earnings is 0, and the pool is debited all the same, by its
    reward per response. *)
Theorem CompleteSurvey_ignores_final_answers (now : GoTime.t) (uid : N)
    (req : dto.CompleteSurveyRequest) (st st1 : Store)
    (response : Response.t) (survey : Survey.t) (pool : RewardPool.t)
    (r : Z) :
  responses st !! dto.ResponseID req = Some response ->
  Response.ID response = dto.ResponseID req ->
  Response.UserID response = uid ->
  Response.Status response = ResponseStatusStarted ->
  surveys st !! Response.SurveyID response = Some survey ->
  pools st !! Survey.ID survey = Some pool ->
  RewardPool.SurveyID pool = Survey.ID survey ->
  RewardPool.CanProcessReward pool = true ->
  SubmitAnswers uid (dto.ResponseID req) (dto.Answers req) st = (inr tt, st1) ->
  stored_answers (dto.ResponseID req) st = [] ->
  1 <= GoInt.len (Survey.Questions survey) <= GoInt.max_int ->
  0 <= dto.Duration req <= GoInt.max_int ->
  0 <= Survey.EstimatedDuration survey ->
  Survey.EstimatedDuration survey * 10 < 2 ^ 53 ->
  whole (Survey.RewardPerResponse survey) r ->
  exists reply st' stored pool',
    CompleteSurvey now uid req st = (inr reply, st')
    /\ dto.RewardEarned reply = 0%float
    /\ dto.XpEarned reply = 0
    /\ responses st' !! dto.ResponseID req = Some stored
    /\ Response.QualityScore stored = 0%float
    /\ stored_answers (dto.ResponseID req) st'
       = stored_answers (dto.ResponseID req) st1
    /\ pools st' !! Survey.ID survey = Some pool'
    /\ RewardPool.PaidOut pool'
       = (RewardPool.PaidOut pool + RewardPool.RewardPerResponse pool)%float
    /\ RewardPool.RemainingAmount pool'
       = (RewardPool.RemainingAmount pool
          - RewardPool.RewardPerResponse pool)%float
    /\ total_earned st'
       = alter (fun total => (total + 0)%float) uid (total_earned st).
Proof.
  intros Hr Hid Hu Hs Hsv Hp Hsid Hcan Hsub Hnone Hq Hd He0 He Hrw.
  pose proof (CompleteSurvey_run now uid req st st1 response survey pool
                Hr Hid Hu Hs Hsv Hp Hcan Hsub) as Hrun.
  cbv zeta in Hrun.
  set (completed := completed_response now (dto.Duration req) survey _) in Hrun.
  assert (Hscore : Response.QualityScore completed = 0%float).
  { subst completed. unfold completed_response.
    cbn [Response.QualityScore Response.set_QualityScore].
    apply calculateQualityScore_no_answers; [| exact Hq | exact Hd].
    cbn. exact Hnone. }
  rewrite Hscore in Hrun.
  change (0 / 5)%float with 0%float in Hrun.
  assert (Hamount : (Survey.RewardPerResponse survey * 0)%float = 0%float).
  { pose proof (whole_mul _ _ r 0 Hrw whole_zero ltac:(lia)) as [_ H].
    rewrite H, Z.mul_0_r. reflexivity. }
  assert (Hxp : GoFloat.to_int
                  (GoFloat.of_int (Survey.EstimatedDuration survey) * 10 * 0)%float
                = 0).
  { assert (Hten : whole 10%float 10) by (split; [lia | reflexivity]).
    assert (Hest : whole (GoFloat.of_int (Survey.EstimatedDuration survey))
                     (Survey.EstimatedDuration survey))
      by (split; [lia | reflexivity]).
    pose proof (whole_mul _ _ _ _ Hest Hten He) as H10.
    pose proof (whole_mul _ _ _ 0 H10 whole_zero ltac:(lia)) as [_ H].
    rewrite H, Z.mul_0_r. reflexivity. }
  rewrite Hamount, Hxp in Hrun.
  pose proof (RewardPoolFacts.ProcessReward_fields pool Hcan) as Hf.
  cbv zeta in Hf. destruct Hf as (_ & Hpaid & Hrem & _).
  eexists. eexists. exists completed, (snd (RewardPool.ProcessReward pool)).
  split; [exact Hrun |].
  cbn [dto.RewardEarned dto.XpEarned responses pools total_earned].
  rewrite Hsid, !lookup_insert_eq.
  split; [reflexivity |]. split; [reflexivity |]. split; [reflexivity |].
  split; [exact Hscore |]. split; [reflexivity |]. split; [reflexivity |].
  split; [exact Hpaid |]. split; [exact Hrem |]. reflexivity.
Qed.

(** The response of the scenario, completed with both answers in the request
    and none stored before: nothing is earned, and the pool has paid 50. *)
Lemma CompleteSurvey_ignores_final_answers_witness :
  let req :=
    Scenario.complete
      [Scenario.submit 1 (Scenario.text_answer "hello") false;
       Scenario.submit 2 (Scenario.scale_answer 4) false] in
  exists reply st' pool',
    CompleteSurvey Scenario.now 3 req (Scenario.store Scenario.full_pool)
    = (inr reply, st')
    /\ dto.RewardEarned reply = 0%float
    /\ length (stored_answers 7 st') = 2%nat
    /\ pools st' !! 1%N = Some pool'
    /\ RewardPool.PaidOut pool' = 50%float.
Proof.
  cbv zeta.
  destruct (CompleteSurvey_ignores_final_answers Scenario.now 3
              (Scenario.complete
                 [Scenario.submit 1 (Scenario.text_answer "hello") false;
                  Scenario.submit 2 (Scenario.scale_answer 4) false])
              (Scenario.store Scenario.full_pool)
              (snd (SubmitAnswers 3 7
                      [Scenario.submit 1 (Scenario.text_answer "hello") false;
                       Scenario.submit 2 (Scenario.scale_answer 4) false]
                      (Scenario.store Scenario.full_pool)))
              Scenario.response Scenario.survey Scenario.full_pool 50)
    as (reply & st' & stored & pool' & Hrun & Hreward & _ & _ & _ & Hans
        & Hpool & Hpaid & _);
    try reflexivity;
    try first [vm_compute; split; discriminate | vm_compute; discriminate
              | split; [lia | reflexivity]].
  exists reply, st', pool'. split; [exact Hrun |].
  split; [exact Hreward |].
  split; [change (stored_answers 7 st') with
            (stored_answers (dto.ResponseID (Scenario.complete [])) st');
          cbn [dto.ResponseID Scenario.complete] in Hans |- *;
          rewrite Hans; reflexivity |].
  split; [exact Hpool |]. rewrite Hpaid. reflexivity.
Defined.

End HappyPathFacts.

(** ** Reading a completed response back *)

Module ReadBackFacts.
Import responseService RepoFacts HappyPathFacts CertificateFacts.



(** The same from the start: user 4 starts a response to the survey of the
    scenario, completes it and reads it back. *)
Example certificate_of_a_new_response :
  let st0 := Scenario.store Scenario.full_pool in
  let st1 :=
    snd (StartSurvey Scenario.started_at 4 1
           {| dto.start_IPAddress := "10.0.0.2"; dto.start_UserAgent := "agent";
              dto.start_Timezone := "UTC"; dto.start_Language := "en" |} st0) in
  let completion :=
    CompleteSurvey Scenario.now 4
      {| dto.ResponseID := 8; dto.Answers := []; dto.Duration := 180 |} st1 in
  exists reply view,
    fst completion = inr reply
    /\ dto.NFTCertificate reply = Some "NFT-CERT-1-4-8"
    /\ fst (GetResponse 4 8 (snd completion)) = inr view
    /\ dto.view_NFTCertificate view = Some "NFT-CERT-0-4-8".
Proof.
  cbv zeta. eexists. eexists.
  split; [vm_compute; reflexivity |]. split; [reflexivity |].
  split; [vm_compute; reflexivity |]. reflexivity.
Qed.

End ReadBackFacts.

(** ** The read operations: progress and pages *)

Module QueryFacts.
Import responseService responseQueries RepoFacts GoIntFacts Binary64Facts.

Lemma wrap64_in_range (z : Z) : GoInt.in_range z -> GoInt.wrap64 z = z.
Proof.
  unfold GoInt.in_range, GoInt.wrap64, GoInt.min_int, GoInt.max_int.
  intros H. rewrite Z.mod_small by lia. lia.
Qed.

(** X25.  [GetResponseProgress] for the owner of a response, when the
    instant the time is measured to (the completion stamp when there is one,
    now otherwise) is not before the start and less than [2 ^ 22] seconds
    after it: the call writes nothing and reports the counts of questions and
    of stored answers, the whole seconds spent, the fraction of a second
    being dropped, and the time left: the estimated minutes times 60 less the
    seconds spent when the survey has an estimate and that difference is
    positive, and none otherwise, so a time left that is reported is 1 at
    least and adds up with the time spent to the estimate.  With no answer
    stored the progress is 0 when the survey has a question, and not a number
    when it has none. *)
Theorem GetResponseProgress_time_left (now : GoTime.t) (uid rid : N)
    (st : Store) (response : Response.t) (survey : Survey.t) :
  responses st !! rid = Some response ->
  Response.UserID response = uid ->
  surveys st !! Response.SurveyID response = Some survey ->
  let finish := default now (Response.CompletedAt response) in
  let spent := elapsed finish (Response.StartedAt response) / GoTime.Second in
  let limit := Survey.EstimatedDuration survey * 60 in
  0 <= elapsed finish (Response.StartedAt response) < 2 ^ 22 * GoTime.Second ->
  0 <= limit <= GoInt.max_int ->
  GoInt.len (Survey.Questions survey) <= GoInt.max_int ->
  exists reply,
    GetResponseProgress now uid rid st = (inr reply, st)
    /\ dtoQueries.QuestionsTotal reply = GoInt.len (Survey.Questions survey)
    /\ dtoQueries.QuestionsAnswered reply
       = GoInt.len (stored_answers rid st)
    /\ dtoQueries.TimeSpent reply = spent
    /\ dtoQueries.TimeLeft reply
       = (if (0 <? limit) && (spent <? limit) then Some (limit - spent)
          else None)
    /\ (forall left,
          dtoQueries.TimeLeft reply = Some left ->
          1 <= left /\ left + dtoQueries.TimeSpent reply = limit)
    /\ (stored_answers rid st = [] ->
        (1 <= GoInt.len (Survey.Questions survey) ->
         dtoQueries.Progress reply = 0%float)
        /\ (Survey.Questions survey = [] ->
            Prim2SF (dtoQueries.Progress reply) = S754_nan)).
Proof.
  intros Hr Hu Hsv finish spent limit Hel Hlimit Hlen.
  assert (Hspent : 0 <= spent <= GoInt.max_int).
  { subst spent. unfold GoTime.Second, GoInt.max_int in *.
    change (2 ^ 22) with 4194304 in Hel.
    split; [apply Z.div_pos; lia |].
    assert (elapsed finish (Response.StartedAt response) / 1000000000
            < 4194304) by (apply Z.div_lt_upper_bound; lia).
    lia. }
  assert (Hdur : Response.CalculateDuration now
                   (Response.set_Answers (stored_answers rid st) response)
                 = spent).
  { rewrite TimeFacts.CalculateDuration_whole; [reflexivity | exact Hel]. }
  assert (Ho : negb (Response.UserID
                       (Response.set_Answers (stored_answers rid st) response)
                     =? uid)%N = false)
    by (cbn; now rewrite Hu, N.eqb_refl).
  assert (Hrun : exists reply,
            GetResponseProgress now uid rid st = (inr reply, st)
            /\ reply
               = {| dtoQueries.progress_ResponseID := Response.ID response;
                    dtoQueries.progress_SurveyID := Response.SurveyID response;
                    dtoQueries.progress_Status :=
                      ResponseStatus_string (Response.Status response);
                    dtoQueries.Progress :=
                      (GoFloat.of_int (GoInt.len (stored_answers rid st))
                       / GoFloat.of_int (GoInt.len (Survey.Questions survey))
                       * 100)%float;
                    dtoQueries.QuestionsTotal :=
                      GoInt.len (Survey.Questions survey);
                    dtoQueries.QuestionsAnswered :=
                      GoInt.len (stored_answers rid st);
                    dtoQueries.TimeSpent := spent;
                    dtoQueries.TimeLeft :=
                      if 0 <? Survey.EstimatedDuration survey
                      then if 0 <? GoInt.wrap64 (GoInt.wrap64 limit - spent)
                           then Some (GoInt.wrap64 (GoInt.wrap64 limit - spent))
                           else None
                      else None;
                    dtoQueries.progress_StartedAt :=
                      Response.StartedAt response |}).
  { eexists. split; [| reflexivity].
    unfold GetResponseProgress.
    erewrite bind_inr
      by (unfold responseRepo.GetWithAnswers; apply GetByID_found; exact Hr).
    rewrite (reject_false _ _ _ Ho).
    erewrite bind_inr
      by (unfold surveyRepo.GetByID; cbn; rewrite Hsv; reflexivity).
    cbv zeta. rewrite Hdur. reflexivity. }
  destruct Hrun as (reply & Hrun & Hreply).
  exists reply. split; [exact Hrun |]. subst reply.
  cbn [dtoQueries.QuestionsTotal dtoQueries.QuestionsAnswered
         dtoQueries.TimeSpent dtoQueries.TimeLeft dtoQueries.Progress].
  assert (Hw1 : GoInt.wrap64 limit = limit)
    by (apply wrap64_in_range; unfold GoInt.in_range, GoInt.min_int; lia).
  assert (Hw2 : GoInt.wrap64 (limit - spent) = limit - spent).
  { apply wrap64_in_range.
    unfold GoInt.in_range, GoInt.min_int, GoInt.max_int in *. lia. }
  rewrite Hw1, Hw2.
  assert (Hleft :
    (if 0 <? Survey.EstimatedDuration survey
     then if 0 <? limit - spent then Some (limit - spent) else None
     else None)
    = (if (0 <? limit) && (spent <? limit) then Some (limit - spent)
       else None)).
  { subst limit.
    destruct (Z.ltb_spec 0 (Survey.EstimatedDuration survey));
      destruct (Z.ltb_spec 0 (Survey.EstimatedDuration survey * 60));
      destruct (Z.ltb_spec 0 (Survey.EstimatedDuration survey * 60 - spent));
      destruct (Z.ltb_spec spent (Survey.EstimatedDuration survey * 60));
      cbn; try reflexivity; lia. }
  rewrite Hleft.
  split; [reflexivity |]. split; [reflexivity |]. split; [reflexivity |].
  split; [reflexivity |].
  split.
  - intros left.
    destruct (Z.ltb_spec 0 limit); destruct (Z.ltb_spec spent limit); cbn;
      try discriminate.
    intros [= <-]. lia.
  - intros Hnone. rewrite Hnone. change (GoInt.len []) with 0.
    change (GoFloat.of_int 0) with 0%float.
    split.
    + intros Hq.
      destruct (of_int_positive (GoInt.len (Survey.Questions survey))
                  ltac:(lia)) as (m & e & Hm & _).
      assert (Hrate : (0 / GoFloat.of_int (GoInt.len (Survey.Questions survey)))%float
                      = 0%float).
      { apply Prim2SF_inj. rewrite div_spec, Hm. reflexivity. }
      rewrite Hrate. reflexivity.
    + intros ->. reflexivity.
Qed.

(** The response started nine tenths into a second, one second and two
    tenths later: 1 second spent, 599 left of the 600. *)
Lemma GetResponseProgress_time_left_witness :
  exists reply,
    GetResponseProgress Examples.soon_after 3 7 Examples.late_store
    = (inr reply, Examples.late_store)
    /\ dtoQueries.TimeSpent reply = 1
    /\ dtoQueries.TimeLeft reply = Some 599
    /\ dtoQueries.Progress reply = 0%float.
Proof.
  destruct (GetResponseProgress_time_left Examples.soon_after 3 7
              Examples.late_store Examples.late_response Scenario.survey)
    as (reply & Hrun & _ & _ & Hspent & Hleft & _ & Hprogress);
    try reflexivity; try (vm_compute; split; discriminate);
    try (vm_compute; discriminate);
    try (vm_compute; split; [discriminate | reflexivity]).
  exists reply. split; [exact Hrun |]. split; [exact Hspent |].
  split; [exact Hleft |].
  apply Hprogress; [reflexivity | vm_compute; discriminate].
Defined.

(** X26.  [GetUserResponses], given the page the repository found and the
    count of all responses: for a limit of 1 at least the reply carries one
    item per response found, the count, and as number of pages the count
    divided by the limit, rounded up, that is the least number of pages that
    hold the count; for a limit of 0 the division panics. *)
Theorem GetUserResponses_pages
    (GetByUserID : N -> dtoQueries.ListResponsesRequest
                   -> Repo (list Response.t * Z))
    (uid : N) (req : dtoQueries.ListResponsesRequest) (st st' : Store)
    (found : list Response.t) (total : Z) :
  GetByUserID uid req st = (inr (found, total), st') ->
  0 <= total <= GoInt.max_int ->
  0 <= dtoQueries.Limit req <= GoInt.max_int ->
  (dtoQueries.Limit req = 0 ->
   GetUserResponses GetByUserID uid req st = (inr None, st'))
  /\ (1 <= dtoQueries.Limit req ->
      exists reply,
        GetUserResponses GetByUserID uid req st = (inr (Some reply), st')
        /\ dtoQueries.Responses reply = map responseToItemDTO found
        /\ dtoQueries.Total reply = total
        /\ dtoQueries.list_Page reply = dtoQueries.Page req
        /\ dtoQueries.list_Limit reply = dtoQueries.Limit req
        /\ dtoQueries.Limit req * (dtoQueries.TotalPages reply - 1) < total
        /\ total <= dtoQueries.Limit req * dtoQueries.TotalPages reply).
Proof.
  intros Hfound Htotal Hlimit. split.
  - intros H0. unfold GetUserResponses.
    erewrite bind_inr by exact Hfound. cbn [fst snd].
    unfold GoIntDiv.quo. rewrite H0. reflexivity.
  - intros H1. set (limit := dtoQueries.Limit req) in *.
    assert (Hq : GoIntDiv.quo total limit = Some (total / limit)).
    { unfold GoIntDiv.quo.
      destruct (Z.eqb_spec limit 0) as [| _]; [lia |].
      rewrite Z.quot_div_nonneg by lia.
      rewrite wrap64_in_range; [reflexivity |].
      unfold GoInt.in_range, GoInt.min_int, GoInt.max_int in *.
      assert (0 <= total / limit) by (apply Z.div_pos; lia).
      assert (total / limit <= total)
        by (apply Z.div_le_upper_bound; nia).
      lia. }
    assert (Hr : GoIntDiv.rem total limit = Some (total mod limit)).
    { unfold GoIntDiv.rem.
      destruct (Z.eqb_spec limit 0) as [| _]; [lia |].
      now rewrite Z.rem_mod_nonneg by lia. }
    pose proof (Z.div_mod total limit ltac:(lia)) as Hdm.
    pose proof (Z.mod_pos_bound total limit ltac:(lia)) as Hmod.
    assert (Hdiv : 0 <= total / limit <= total).
    { split; [apply Z.div_pos; lia | apply Z.div_le_upper_bound; nia]. }
    eexists. split.
    { unfold GetUserResponses.
      erewrite bind_inr by exact Hfound. cbn [fst snd].
      fold limit. rewrite Hq, Hr. reflexivity. }
    cbn [dtoQueries.Responses dtoQueries.Total dtoQueries.list_Page
           dtoQueries.list_Limit dtoQueries.TotalPages].
    split; [reflexivity |]. split; [reflexivity |]. split; [reflexivity |].
    split; [reflexivity |].
    destruct (Z.ltb_spec 0 (total mod limit)).
    + rewrite (incr_below _ GoInt.max_int);
        unfold GoInt.in_range, GoInt.min_int, GoInt.max_int in *; nia.
    + nia.
Qed.

(** 21 responses in pages of 10 make 3 pages; a limit of 0 panics. *)
Lemma GetUserResponses_pages_witness :
  let GetByUserID :=
    fun (_ : N) (_ : dtoQueries.ListResponsesRequest) (st : Store) =>
      (inr ([Scenario.response], 21), st) in
  (exists reply,
     GetUserResponses GetByUserID 3
       {| dtoQueries.Page := 1; dtoQueries.Limit := 10 |}
       (Scenario.store Scenario.full_pool)
     = (inr (Some reply), Scenario.store Scenario.full_pool)
     /\ dtoQueries.TotalPages reply = 3)
  /\ GetUserResponses GetByUserID 3
       {| dtoQueries.Page := 1; dtoQueries.Limit := 0 |}
       (Scenario.store Scenario.full_pool)
     = (inr None, Scenario.store Scenario.full_pool).
Proof.
  cbv zeta.
  set (GetByUserID :=
         fun (_ : N) (_ : dtoQueries.ListResponsesRequest) (st : Store) =>
           (@inr error _ ([Scenario.response], 21), st)).
  split.
  - destruct (GetUserResponses_pages GetByUserID 3
                {| dtoQueries.Page := 1; dtoQueries.Limit := 10 |}
                (Scenario.store Scenario.full_pool)
                (Scenario.store Scenario.full_pool) [Scenario.response] 21)
      as [_ H]; [reflexivity | vm_compute; split; discriminate
                | vm_compute; split; discriminate |].
    destruct (H ltac:(cbn; lia)) as (reply & Hrun & _ & _ & _ & _ & Hlo & Hhi).
    exists reply. split; [exact Hrun |]. cbn in Hlo, Hhi. lia.
  - destruct (GetUserResponses_pages GetByUserID 3
                {| dtoQueries.Page := 1; dtoQueries.Limit := 0 |}
                (Scenario.store Scenario.full_pool)
                (Scenario.store Scenario.full_pool) [Scenario.response] 21)
      as [H _]; [reflexivity | vm_compute; split; discriminate
                | vm_compute; split; discriminate |].
    apply H. reflexivity.
Defined.

End QueryFacts.

(** ** The middleware: tokens and administrators *)

Module MiddlewareFacts.
Import middleware.

Lemma Split_not_nil (s : string) (sep : ascii) : Split s sep <> [].
Proof.
  destruct s as [| c rest]; cbn [Split]; [discriminate |].
  destruct (Ascii.eqb c sep); [discriminate |].
  destruct (Split rest sep); discriminate.
Qed.

(** Joining the parts with the separator gives the string back. *)
Lemma Split_join (s : string) (sep : ascii) :
  String.concat (String sep EmptyString) (Split s sep) = s.
Proof.
  induction s as [| c rest IH]; [reflexivity |].
  cbn [Split]. destruct (Ascii.eqb_spec c sep) as [-> | Hne].
  - pose proof (Split_not_nil rest sep) as Hnil.
    destruct (Split rest sep) as [| part parts]; [contradiction |].
    change (String.concat (String sep "") ("" :: part :: parts))
      with (String sep (String.concat (String sep "") (part :: parts))).
    now rewrite IH.
  - pose proof (Split_not_nil rest sep) as Hnil.
    destruct (Split rest sep) as [| part parts]; [contradiction |].
    destruct parts as [| part' parts].
    + cbn in IH |- *. now rewrite IH.
    + change (String.concat (String sep "") (String c part :: part' :: parts))
        with (String c (String.concat (String sep "") (part :: part' :: parts))).
      now rewrite IH.
Qed.

(** X27.  [AuthMiddleware] lets exactly one header through, the scheme
    "Bearer", one space and the token "mock-valid-token", and sets user 1 for
    it; every other header, the missing one included, is answered with status
    401. *)
Theorem AuthMiddleware_accepts_one_header (authHeader : string) :
  (AuthMiddleware authHeader = inr 1%N
   <-> authHeader = "Bearer mock-valid-token")
  /\ match AuthMiddleware authHeader with
     | inr userID => userID = 1%N
     | inl refusal =>
         code refusal = 401 /\ Error refusal = "unauthorized"
         /\ In (Message refusal)
              ["Authorization header required";
               "Invalid authorization header format";
               "Invalid or expired token"]
     end.
Proof.
  split.
  - split; [| intros ->; vm_compute; reflexivity].
    unfold AuthMiddleware.
    case_bool_decide as Hempty; [discriminate |].
    pose proof (Split_join authHeader " ") as Hjoin.
    destruct (Split authHeader " ") as [| scheme [| token [| x rest]]].
    + discriminate.
    + discriminate.
    + change (Z.of_nat (length [scheme; token]) =? 2) with true.
      cbn [negb orb nth].
      case_bool_decide as Hscheme; cbn [negb]; [| discriminate].
      unfold validateToken. case_bool_decide as Htoken; [| discriminate].
      intros _. rewrite <- Hjoin, Hscheme, Htoken. reflexivity.
    + assert (Hlen : (Z.of_nat (length (scheme :: token :: x :: rest)) =? 2)
                     = false)
        by (apply Z.eqb_neq; cbn [length]; lia).
      rewrite Hlen. discriminate.
  - unfold AuthMiddleware.
    case_bool_decide;
      [split; [reflexivity | split; [reflexivity | left; reflexivity]] |].
    destruct (negb _ || negb _);
      [split; [reflexivity | split; [reflexivity | right; left; reflexivity]] |].
    unfold validateToken. case_bool_decide; [reflexivity |].
    split; [reflexivity | split; [reflexivity | right; right; left; reflexivity]].
Qed.

(** X28.  Every request that passes [AuthMiddleware] passes
    [AdminMiddleware]: the only user a token stands for is user 1, and user 1
    is the administrator.  A request with no user in its context is answered
    with status 401, and a user other than 1 with status 403. *)
Theorem authenticated_is_admin (authHeader : string) (userID : N) :
  (forall token, validateToken token = inr userID ->
                 token = "mock-valid-token" /\ checkAdminStatus userID = true)
  /\ (AuthMiddleware authHeader = inr userID ->
      AdminMiddleware (Some userID) = None)
  /\ (code <$> AdminMiddleware None) = Some 401
  /\ (userID <> 0%N -> userID <> 1%N ->
      (code <$> AdminMiddleware (Some userID)) = Some 403).
Proof.
  assert (Htoken : forall token, validateToken token = inr userID ->
                     token = "mock-valid-token" /\ userID = 1%N).
  { intros token. unfold validateToken.
    case_bool_decide; [intros [= <-]; auto | discriminate]. }
  split; [| split; [| split]].
  - intros token H. destruct (Htoken token H) as [-> ->]. auto.
  - unfold AuthMiddleware.
    case_bool_decide; [discriminate |].
    destruct (negb _ || negb _); [discriminate |].
    destruct (validateToken _) as [e | u] eqn:E; [discriminate |].
    intros [= ->]. destruct (Htoken _ E) as [_ ->]. reflexivity.
  - reflexivity.
  - intros H0 H1. unfold AdminMiddleware, GetUserID, checkAdminStatus.
    destruct (N.eqb_spec userID 0); [contradiction |].
    destruct (N.eqb_spec userID 1); [contradiction |]. reflexivity.
Qed.

End MiddlewareFacts.

(** ** Validation of the answers a batch carries *)

Module AnswerFacts.
Import responseService RepoFacts SubmitFacts WholeFacts.

Lemma itoa_not_empty (z : Z) : GoFmt.itoa z <> "".
Proof.
  unfold GoFmt.itoa, NilZero.string_of_int, NilZero.string_of_uint.
  destruct (Z.to_int z) as [d | d]; [| discriminate].
  destruct d; cbn; discriminate.
Qed.

(** X29.  A rating answer that carries its rating is checked against the
    bounds of a rating or scale question as a whole number: for bounds [l]
    and [h] and the rating [n], the answer built from the request is refused
    as "answer is required" only when the question is required and the answer
    is marked skipped (its text, the decimal of [n], is never empty), as
    "rating below minimum" when [n < l], as "rating above maximum" when
    [h < n], and passes otherwise. *)
Theorem rating_is_checked_against_bounds (rid qid : N) (n l h : Z)
    (lo hi : float) (timeSpent : Z) (isSkipped : bool) (question : Question.t) :
  Question.Type_ question = QuestionTypeRating
  \/ Question.Type_ question = QuestionTypeScale ->
  Question.MinValue question = Some lo -> whole lo l ->
  Question.MaxValue question = Some hi -> whole hi h ->
  0 <= n < 2 ^ 53 ->
  Answer.ValidateAnswer
    (make_answer rid qid (Scenario.rating_answer n) timeSpent isSkipped)
    question
  = if Question.Required question && isSkipped then Some "answer is required"
    else if n <? l then Some "rating below minimum"
    else if h <? n then Some "rating above maximum"
    else None.
Proof.
  intros Hty Hlo Hl Hhi Hh Hn.
  assert (Hnw : whole (GoFloat.of_int n) n) by (split; [exact Hn | reflexivity]).
  unfold Answer.ValidateAnswer, make_answer.
  cbn [Answer.IsSkipped Answer.AnswerText Answer.AnswerValue_
       AnswerValue.Rating to_model Scenario.rating_answer dto.Rating].
  assert (Htext : bool_decide
                    (extractAnswerText (to_model (Scenario.rating_answer n)) = "")
                  = false).
  { apply bool_decide_eq_false_2. apply itoa_not_empty. }
  rewrite Htext, orb_false_r, Hlo, Hhi.
  rewrite (whole_ltb _ _ _ _ Hnw Hl), (whole_ltb _ _ _ _ Hh Hnw).
  destruct (Question.Required question && isSkipped); [reflexivity |].
  destruct Hty as [-> | ->]; reflexivity.
Qed.

(** The scale question of the scenario, from 1 to 10: the rating 11 is above
    the maximum, the rating 10 passes. *)
Lemma rating_is_checked_against_bounds_witness :
  Answer.ValidateAnswer
    (make_answer 7 2 (Scenario.rating_answer 11) 20 false)
    Scenario.scale_question
  = Some "rating above maximum"
  /\ Answer.ValidateAnswer
       (make_answer 7 2 (Scenario.rating_answer 10) 20 false)
       Scenario.scale_question
     = None.
Proof.
  split.
  - rewrite (rating_is_checked_against_bounds 7 2 11 1 10 1 10 20 false
               Scenario.scale_question);
      [reflexivity | right; reflexivity | reflexivity
      | split; [lia | reflexivity] | reflexivity
      | split; [lia | reflexivity] | lia].
  - rewrite (rating_is_checked_against_bounds 7 2 10 1 10 1 10 20 false
               Scenario.scale_question);
      [reflexivity | right; reflexivity | reflexivity
      | split; [lia | reflexivity] | reflexivity
      | split; [lia | reflexivity] | lia].
Defined.

(** X30.  Marking an answer as skipped exempts it from nothing: on a text
    question that is not required and has a minimum length, a batch of one
    answer whose text is shorter, skipped or not, is refused as "answer too
    short" and nothing is stored; so an optional question with a minimum
    length cannot be skipped with an empty answer. *)
Theorem skipped_answer_is_still_measured (uid rid : N)
    (req : dto.SubmitAnswerRequest) (st : Store) (response : Response.t)
    (survey : Survey.t) (question : Question.t) (n : Z) :
  responses st !! rid = Some response ->
  Response.UserID response = uid ->
  Response.Status response = ResponseStatusStarted ->
  surveys st !! Response.SurveyID response = Some survey ->
  Survey.GetQuestionByID survey (dto.QuestionID req) = inr question ->
  Question.Type_ question = QuestionTypeText
  \/ Question.Type_ question = QuestionTypeTextArea ->
  Question.Required question = false ->
  Question.MinLength question = Some n ->
  Answer.strlen (extractAnswerText (to_model (dto.Answer req))) < n ->
  SubmitAnswers uid rid [req] st = (inl "answer too short", st).
Proof.
  intros Hr Hu Hs Hsv Hq Hty Hreq Hmin Hlen.
  rewrite (SubmitAnswers_started uid rid [req] st response survey Hr Hu Hs Hsv).
  cbn [submit_each]. rewrite Hq.
  unfold Answer.ValidateAnswer, make_answer.
  cbn [Answer.IsSkipped Answer.AnswerText Answer.AnswerValue_].
  rewrite Hreq, Hmin. cbn [andb].
  assert (Hshort : (Answer.strlen (extractAnswerText (to_model (dto.Answer req)))
                    <? n) = true) by (apply Z.ltb_lt; exact Hlen).
  destruct Hty as [-> | ->]; rewrite Hshort; reflexivity.
Qed.

(** The optional third question, skipped with an empty text. *)
Lemma skipped_answer_is_still_measured_witness :
  SubmitAnswers 3 7 [Scenario.submit 3 (Scenario.text_answer "") true]
    Examples.longer_store
  = (inl "answer too short", Examples.longer_store).
Proof.
  apply (skipped_answer_is_still_measured 3 7
           (Scenario.submit 3 (Scenario.text_answer "") true)
           Examples.longer_store Scenario.response Examples.longer_survey
           Examples.optional_question 3);
    [reflexivity | reflexivity | reflexivity | reflexivity | reflexivity
    | left; reflexivity | reflexivity | reflexivity | vm_compute; reflexivity].
Defined.

End AnswerFacts.
